(** * Resume rater: the matching and scoring engine

    A shallow embedding of [app/components/resume_matcher.py], of the
    extractors of skills, priority skills and experience of
    [app/components/job_description.py], of the skill extractor and the
    resume analysis of [app/components/resume_upload.py], and of the legacy
    extractor and scorer of [app/utils/text_analysis.py], with the
    properties of the scoring engine proved about it.

    Conventions of the embedding.
    - Python [str] is [string]; the texts are ASCII, so [str.lower],
      [\d], [\s] and [\w] are their ASCII versions.
    - Python [float] arithmetic is read over the rationals ([Q]): [/] is
      exact division and [round(x, n)] rounds half to even on the decimal
      digits.  Equality of scores is [Qeq] ([==]).
    - Python dictionaries used as records are records whose optional keys
      are [option] fields; the values a key may hold are those of the data
      model, with the further shapes the code tests for written as
      constructors.
    - [list(set(l))] iterates a Python set: the order is not fixed by the
      language, so every function that uses it takes the iteration order
      as a parameter ([set_iter]).
    - the [re] module is embedded as a small backtracking matcher
      (leftmost, greedy, first alternative first) for the operators the
      patterns of the source use.
    - what lies outside the embedding is a parameter of the functions that
      use it: the clock, the TF-IDF vectorizer, the text of a float in an
      f-string, and the two extractors of [resume_upload.py] whose patterns
      go beyond the matcher. *)

From Stdlib Require Import List String Ascii Bool Arith ZArith QArith Qround.
From Stdlib Require Import Lia Lqa Permutation.
From Stdlib Require Import DecimalString DecimalNat.
Import ListNotations.

Local Open Scope string_scope.

(** ** Python strings *)

Module PyStr.

Definition is_upper (c : ascii) : bool :=
  let n := nat_of_ascii c in (65 <=? n)%nat && (n <=? 90)%nat.

Definition is_lower (c : ascii) : bool :=
  let n := nat_of_ascii c in (97 <=? n)%nat && (n <=? 122)%nat.

Definition is_digit (c : ascii) : bool :=
  let n := nat_of_ascii c in (48 <=? n)%nat && (n <=? 57)%nat.

(** [\s]: space, \t, \n, \v, \f, \r and the separators 28..31. *)
Definition is_space (c : ascii) : bool :=
  let n := nat_of_ascii c in
  (n =? 32)%nat || ((9 <=? n)%nat && (n <=? 13)%nat)
  || ((28 <=? n)%nat && (n <=? 31)%nat).

(** [\w]: letters, digits and the underscore. *)
Definition is_word (c : ascii) : bool :=
  is_upper c || is_lower c || is_digit c || (nat_of_ascii c =? 95)%nat.

Definition is_alpha (c : ascii) : bool := is_upper c || is_lower c.

Definition lower_char (c : ascii) : ascii :=
  if is_upper c then ascii_of_nat (nat_of_ascii c + 32) else c.

Definition upper_char (c : ascii) : ascii :=
  if is_lower c then ascii_of_nat (nat_of_ascii c - 32) else c.

(** [s.lower()] *)
Fixpoint lower (s : string) : string :=
  match s with
  | EmptyString => EmptyString
  | String c r => String (lower_char c) (lower r)
  end.

(** [s.upper()] *)
Fixpoint upper (s : string) : string :=
  match s with
  | EmptyString => EmptyString
  | String c r => String (upper_char c) (upper r)
  end.

(** [s.startswith(p)] *)
Fixpoint starts_with (p s : string) : bool :=
  match p, s with
  | EmptyString, _ => true
  | String a p', String b s' => Ascii.eqb a b && starts_with p' s'
  | String _ _, EmptyString => false
  end.

(** [p in s] for two strings: [p] occurs in [s] as a contiguous block. *)
Fixpoint contains (p s : string) : bool :=
  starts_with p s ||
  match s with
  | EmptyString => false
  | String _ s' => contains p s'
  end.

(** [x in l] for a list of strings. *)
Definition mem (x : string) (l : list string) : bool :=
  existsb (String.eqb x) l.

(** [int(s)] on a run of decimal digits. *)
Definition digit_val (c : ascii) : Z := Z.of_nat (nat_of_ascii c - 48).

Fixpoint int_of_digits_acc (acc : Z) (s : string) : Z :=
  match s with
  | EmptyString => acc
  | String c r => int_of_digits_acc (10 * acc + digit_val c) r
  end.

Definition int_of_digits (s : string) : Z := int_of_digits_acc 0 s.

(** [bool(s)]: a string is true when it is not empty. *)
Definition truthy (s : string) : bool :=
  match s with EmptyString => false | _ => true end.

End PyStr.

(** ** Python numbers *)

Module PyNum.

Local Open Scope Q_scope.

(** [round(x, n)]: the nearest multiple of [10^-n], a tie going to the
    even one. *)
Definition py_round (n : nat) (x : Q) : Q :=
  let s := inject_Z (10 ^ Z.of_nat n) in
  let y := x * s in
  let f := Qfloor y in
  let r := y - inject_Z f in
  let k := if Qlt_le_dec r (1 # 2) then f
           else if Qlt_le_dec (1 # 2) r then (f + 1)%Z
           else if Z.even f then f else (f + 1)%Z in
  Qred (inject_Z k / s).

(** [min(a, b)] and [max(a, b)]: Python returns the first argument unless
    the second is strictly smaller (larger). *)
Definition py_min (a b : Q) : Q := if Qlt_le_dec b a then b else a.
Definition py_max (a b : Q) : Q := if Qlt_le_dec a b then b else a.

Definition Qgeb (a b : Q) : bool := Qle_bool b a.
Definition Qgtb (a b : Q) : bool := negb (Qle_bool a b).
Definition Qltb (a b : Q) : bool := negb (Qle_bool b a).

(** [len(l)] as a number. *)
Definition len {A} (l : list A) : Q := inject_Z (Z.of_nat (List.length l)).

End PyNum.

(** ** The [re] module

    Patterns are syntax trees; [run] is a backtracking matcher in
    continuation-passing style: a quantifier is greedy, an alternation
    tries its left branch first, and the continuation may refuse a match,
    which sends the matcher back to the last choice, as [re] does. *)

Module Re.

Inductive regex : Type :=
| Eps                                 (* the empty pattern *)
| Chr (p : ascii -> bool)             (* one character of a class *)
| Cat (r1 r2 : regex)                 (* r1 r2 *)
| Alt (r1 r2 : regex)                 (* r1|r2 *)
| Star (r : regex)                    (* r*, greedy *)
| Grp (i : nat) (r : regex)           (* the capturing group number i *)
| Bnd.                                (* \b *)

Definition Plus (r : regex) : regex := Cat r (Star r).
Definition Opt (r : regex) : regex := Alt r Eps.
Definition seq (rs : list regex) : regex := fold_right Cat Eps rs.

Definition char (c : ascii) : regex := Chr (Ascii.eqb c).
Definition char_ci (c : ascii) : regex :=
  Chr (fun x => Ascii.eqb (PyStr.lower_char x) (PyStr.lower_char c)).

(** A literal string, as [re.escape] builds it; [ci] is [re.IGNORECASE]. *)
Fixpoint lit (ci : bool) (s : string) : regex :=
  match s with
  | EmptyString => Eps
  | String c r => Cat (if ci then char_ci c else char c) (lit ci r)
  end.

Definition digit : regex := Chr PyStr.is_digit.
Definition space : regex := Chr PyStr.is_space.
Definition word : regex := Chr PyStr.is_word.

(** The captures of a match: group number and captured text. *)
Definition captures := list (nat * string).

Fixpoint group (i : nat) (caps : captures) : option string :=
  match caps with
  | [] => None
  | (j, s) :: rest => if (i =? j)%nat then Some s else group i rest
  end.

(** The first [n] characters of [s] ([s[:n]]). *)
Fixpoint take (n : nat) (s : string) : string :=
  match n, s with
  | S n', String c r => String c (take n' r)
  | _, _ => EmptyString
  end.

(** [s[n:]] *)
Fixpoint drop (n : nat) (s : string) : string :=
  match n, s with
  | S n', String _ r => drop n' r
  | _, _ => s
  end.

Definition is_word_opt (c : option ascii) : bool :=
  match c with Some x => PyStr.is_word x | None => false end.

Definition head (s : string) : option ascii :=
  match s with String c _ => Some c | EmptyString => None end.

(** [\b] holds between a word character and a non-word character (or an
    end of the text). *)
Definition at_boundary (prev : option ascii) (s : string) : bool :=
  xorb (is_word_opt prev) (is_word_opt (head s)).

Section Run.
Variable R : Type.

(** What is done with the rest of the text once a pattern has matched. *)
Definition cont : Type := option ascii -> string -> captures -> option R.

(** The loop of [r*]: [body] matches [r] once; the longest run of
    repetitions is tried first, and a repetition that consumes nothing
    ends the loop. *)
Fixpoint star_loop
    (body : option ascii -> string -> captures -> cont -> option R)
    (k : cont) (fuel : nat) (prev : option ascii) (s : string)
    (caps : captures) {struct fuel} : option R :=
  match fuel with
  | O => k prev s caps
  | S fuel' =>
      match body prev s caps
              (fun p' s' c' =>
                 if (String.length s' <? String.length s)%nat
                 then star_loop body k fuel' p' s' c' else None) with
      | Some x => Some x
      | None => k prev s caps
      end
  end.

(** [run r prev s caps k]: match [r] at the head of [s], [prev] being the
    character before it, then hand what is left to [k]. *)
Fixpoint run (r : regex) (prev : option ascii) (s : string) (caps : captures)
    (k : cont) {struct r} : option R :=
  match r with
  | Eps => k prev s caps
  | Chr p =>
      match s with
      | String c s' => if p c then k (Some c) s' caps else None
      | EmptyString => None
      end
  | Cat r1 r2 => run r1 prev s caps (fun p' s' c' => run r2 p' s' c' k)
  | Alt r1 r2 =>
      match run r1 prev s caps k with
      | Some x => Some x
      | None => run r2 prev s caps k
      end
  | Star r' => star_loop (run r') k (S (String.length s)) prev s caps
  | Grp i r' =>
      run r' prev s caps
        (fun p' s' c' =>
           k p' s' ((i, take (String.length s - String.length s') s) :: c'))
  | Bnd => if at_boundary prev s then k prev s caps else None
  end.

End Run.

Arguments star_loop {R} body k fuel prev s caps.
Arguments run {R} r prev s caps k.

(** A match object: [start()], [end()], the groups and what follows. *)
Record match_obj : Type := MkMatch {
  m_start : nat;
  m_end : nat;
  m_groups : captures;
  m_last : option ascii;
  m_rest : string
}.

(** [pattern.match] at one position; [advance] refuses the empty match. *)
Definition match_at (r : regex) (advance : bool) (prev : option ascii)
    (s : string) (pos : nat) : option match_obj :=
  run r prev s []
    (fun p' rest caps =>
       let n := (String.length s - String.length rest)%nat in
       if advance && (n =? 0)%nat then None
       else Some (MkMatch pos (pos + n) caps p' rest)).

(** [re.search]: the match at the leftmost position that has one. *)
Fixpoint search_from (r : regex) (prev : option ascii) (s : string)
    (pos : nat) : option match_obj :=
  match match_at r false prev s pos with
  | Some m => Some m
  | None =>
      match s with
      | EmptyString => None
      | String c s' => search_from r (Some c) s' (S pos)
      end
  end.

Definition search (r : regex) (s : string) : option match_obj :=
  search_from r None s 0.

Definition matches (r : regex) (s : string) : bool :=
  match search r s with Some _ => true | None => false end.

(** [re.finditer]: the successive matches, none overlapping the one
    before; after an empty match the next one at the same place must
    advance. *)
Fixpoint finditer_from (fuel : nat) (r : regex) (advance : bool)
    (prev : option ascii) (s : string) (pos : nat) : list match_obj :=
  match fuel with
  | O => []
  | S fuel' =>
      match match_at r advance prev s pos with
      | Some m =>
          m :: finditer_from fuel' r ((m_end m =? m_start m)%nat)
                 (m_last m) (m_rest m) (m_end m)
      | None =>
          match s with
          | EmptyString => []
          | String c s' => finditer_from fuel' r false (Some c) s' (S pos)
          end
      end
  end.

Definition finditer (r : regex) (s : string) : list match_obj :=
  finditer_from (2 * String.length s + 2) r false None s 0.

(** [len(re.findall(r, s))] *)
Definition count (r : regex) (s : string) : nat :=
  List.length (finditer r s).

(** [re.split(r, s)]: the pieces of [s] between the matches. *)
Fixpoint split_at (ms : list match_obj) (s : string) (from : nat)
    : list string :=
  match ms with
  | [] => [drop from s]
  | m :: ms' =>
      take (m_start m - from) (drop from s) :: split_at ms' s (m_end m)
  end.

Definition split (r : regex) (s : string) : list string :=
  split_at (finditer r s) s 0.

End Re.

(** ** [app/components/resume_matcher.py] *)

Module Matcher.

Import PyStr PyNum.
Local Open Scope Q_scope.

(** The configuration dictionary.  [priority_skill_bonus] is read with
    [config.get(..., 2.0)], the weights with [config[...]]. *)
Record config : Type := MkConfig {
  skill_weight : Q;
  priority_skill_bonus : option Q;
  experience_weight : Q;
  education_weight : Q;
  skill_match_threshold : Q
}.

Definition default_config : config :=
  MkConfig 0.5 (Some 2.0) 0.3 0.2 0.7.

(** *** calculate_skill_match *)

Record skill_report : Type := MkSkillReport {
  sk_score : Q;
  matched_skills : list string;
  missing_skills : list string;
  priority_matched : list string;
  priority_missing : list string;
  sk_match_percentage : Q
}.

(** The test of the loop over [job_skills]:
    [skill_lower in resume_skills_lower or
     any(skill_lower in rs for rs in resume_skills_lower)]. *)
Definition skill_found (resume_skills_lower : list string) (skill : string)
    : bool :=
  let skill_lower := lower skill in
  mem skill_lower resume_skills_lower
  || existsb (fun rs => contains skill_lower rs) resume_skills_lower.

(** The three terms of the score, each with the guard the code puts
    around it. *)
Definition priority_match_score (p_matched priority_skills : list string)
    (priority_bonus : Q) : Q :=
  match priority_skills with
  | [] => 0
  | _ => (len p_matched / len priority_skills) * priority_bonus
  end.

Definition base_score (matched_count total_skills : Q) : Q :=
  if Qgtb total_skills 0 then matched_count / total_skills else 1.

Definition priority_weight (priority_skills : list string) (total_skills : Q)
    : Q :=
  if Qgtb total_skills 0 then len priority_skills / total_skills else 0.

Definition calculate_skill_match (resume_skills job_skills
    priority_skills : list string) (cfg : config) : skill_report :=
  match job_skills with
  | [] => MkSkillReport 1 [] [] [] [] 100
  | _ =>
      let resume_skills_lower := map lower resume_skills in
      (* the loop appends each job skill to one of the two lists *)
      let (matched, missing) :=
        partition (skill_found resume_skills_lower) job_skills in
      let p_matched :=
        filter (fun skill => mem (lower skill) resume_skills_lower)
          priority_skills in
      let p_missing :=
        filter (fun skill => negb (mem (lower skill) resume_skills_lower))
          priority_skills in
      let total_skills := len job_skills in
      let matched_count := len matched in
      let match_percentage :=
        if Qgtb total_skills 0 then matched_count / total_skills * 100
        else 100 in
      let priority_bonus :=
        match priority_skill_bonus cfg with Some b => b | None => 2.0 end in
      let skill_score :=
        base_score matched_count total_skills
        * (1 - priority_weight priority_skills total_skills)
        + priority_match_score p_matched priority_skills priority_bonus
          * priority_weight priority_skills total_skills in
      let skill_score := py_min 1 skill_score in
      MkSkillReport (py_round 2 skill_score) matched missing
        p_matched p_missing (py_round 1 match_percentage)
  end.

(** *** Experience *)

(** The value under the key ['years'] of a job's experience requirement:
    a number, or the [{min, max}] dictionary that the job-description
    analysis stores there. *)
Inductive years_value : Type :=
| YearsInt (z : Z)
| YearsRange (min : Z) (max : option Z).

(** The experience requirement as a dictionary; a field is [None] when the
    key is absent.  The keys come in the order years, level,
    description. *)
Record experience_req : Type := MkExperienceReq {
  req_years : option years_value;
  req_level : option string;
  req_description : option string
}.

(** [job_experience]: [None], a text, or a dictionary. *)
Inductive job_experience : Type :=
| JobExpNone
| JobExpText (s : string)
| JobExpDict (d : experience_req).

(** [bool(job_experience)]: an empty text and a dictionary without keys
    are false. *)
Definition job_experience_truthy (e : job_experience) : bool :=
  match e with
  | JobExpNone => false
  | JobExpText s => truthy s
  | JobExpDict d =>
      match req_years d, req_level d, req_description d with
      | None, None, None => false
      | _, _, _ => true
      end
  end.

(** An experience entry of a resume.  The outer [option] says whether the
    key is present, the inner one whether its value is [None]. *)
Record experience_entry : Type := MkExperienceEntry {
  title : option string;
  company : option string;
  start_date : option (option string);
  end_date : option (option string);
  duration : option (option string);
  years : option (option Q)
}.

(** [str(v)] for a value that is a text or [None]. *)
Definition str_of (v : option string) : string :=
  match v with Some s => s | None => "None" end.

Definition years_re (ci : bool) : Re.regex :=
  Re.seq [Re.lit ci "year"; Re.Opt (Re.lit ci "s")].

(** The five patterns of [year_patterns], compiled with [re.IGNORECASE]. *)
Definition year_patterns : list Re.regex :=
  [ (* (\d+)\+?\s*years? *)
    Re.seq [Re.Grp 1 (Re.Plus Re.digit); Re.Opt (Re.char "+");
            Re.Star Re.space; years_re true];
    (* (\d+)\s*\+\s*years? *)
    Re.seq [Re.Grp 1 (Re.Plus Re.digit); Re.Star Re.space; Re.char "+";
            Re.Star Re.space; years_re true];
    (* minimum\s*of\s*(\d+)\s*years? *)
    Re.seq [Re.lit true "minimum"; Re.Star Re.space; Re.lit true "of";
            Re.Star Re.space; Re.Grp 1 (Re.Plus Re.digit);
            Re.Star Re.space; years_re true];
    (* at\s*least\s*(\d+)\s*years? *)
    Re.seq [Re.lit true "at"; Re.Star Re.space; Re.lit true "least";
            Re.Star Re.space; Re.Grp 1 (Re.Plus Re.digit);
            Re.Star Re.space; years_re true];
    (* (\d+)[-\s](\d+)\s*years? *)
    Re.seq [Re.Grp 1 (Re.Plus Re.digit);
            Re.Chr (fun c => Ascii.eqb c "-" || is_space c);
            Re.Grp 2 (Re.Plus Re.digit); Re.Star Re.space; years_re true] ].

(** The table [exp_phrases], in the order it is written. *)
Definition exp_phrases : list (string * Z) :=
  [ ("entry level", 0); ("junior", 1); ("mid-level", 3); ("mid level", 3);
    ("intermediate", 3); ("senior", 5); ("experienced", 4);
    ("principal", 8); ("lead", 6); ("manager", 5); ("director", 8);
    ("executive", 10) ]%Z.

(** The loop over the patterns: the first pattern that matches decides,
    and both of its branches return [int(match.group(1))]. *)
Fixpoint first_year_match (patterns : list Re.regex) (text : string)
    : option Z :=
  match patterns with
  | [] => None
  | pattern :: rest =>
      match Re.search pattern text with
      | Some m =>
          match Re.group 1 (Re.m_groups m) with
          | Some g => Some (int_of_digits g)
          | None => None
          end
      | None => first_year_match rest text
      end
  end.

(** The loop over a table of phrases: the first phrase found in [text]
    gives the value. *)
Fixpoint first_phrase {A} (phrases : list (string * A)) (text : string)
    : option A :=
  match phrases with
  | [] => None
  | (phrase, v) :: rest =>
      if contains phrase text then Some v else first_phrase rest text
  end.

Definition years_of_text (experience_text : string) : option Z :=
  match first_year_match year_patterns experience_text with
  | Some y => Some y
  | None => first_phrase exp_phrases (lower experience_text)
  end.

(** [' '.join(parts)] *)
Fixpoint join (sep : string) (parts : list string) : string :=
  match parts with
  | [] => ""
  | [x] => x
  | x :: rest => x ++ sep ++ join sep rest
  end.

Definition extract_years_from_experience (experience_text : job_experience)
    : option Z :=
  match experience_text with
  | JobExpNone => None
  | JobExpText s => years_of_text s
  | JobExpDict d =>
      match req_description d with
      | Some description => years_of_text description
      | None =>
          match req_years d with
          | Some (YearsInt z) => Some z
          | Some (YearsRange _ _) => None   (* int() raises TypeError *)
          | None =>
              (* the string values of the dictionary, joined *)
              years_of_text
                (join " " match req_level d with
                          | Some l => [l]
                          | None => []
                          end)
          end
      end
  end.

Section Clock.

(** [datetime.datetime.now().year] *)
Variable current_year : Z.

(** [20\d{2}|19\d{2}] *)
Definition year_re : Re.regex :=
  Re.Alt (Re.seq [Re.lit false "20"; Re.digit; Re.digit])
         (Re.seq [Re.lit false "19"; Re.digit; Re.digit]).

(** [match.group(0)] *)
Definition group0 (s : string) (m : Re.match_obj) : string :=
  Re.take (Re.m_end m - Re.m_start m) (Re.drop (Re.m_start m) s).

Definition extract_year_from_date (date_str : option string)
    : option string :=
  match date_str with
  | None => None
  | Some s =>
      if negb (truthy s) then None
      else match Re.search year_re s with
           | Some m => Some (group0 s m)
           | None => None
           end
  end.

(** [(\d+)\s*years?] and [(\d+)\s*months?] *)
Definition duration_re (unit : string) : Re.regex :=
  Re.seq [Re.Grp 1 (Re.Plus Re.digit); Re.Star Re.space;
          Re.lit false unit; Re.Opt (Re.char "s")].

Definition duration_part (unit : string) (text : string) : option Q :=
  match Re.search (duration_re unit) text with
  | Some m =>
      match Re.group 1 (Re.m_groups m) with
      | Some g => Some (inject_Z (int_of_digits g))
      | None => None
      end
  | None => None
  end.

(** What one entry adds to [total_years]. *)
Definition entry_years (entry : experience_entry) : Q :=
  match years entry with
  | Some v =>
      match v with
      | Some y => y            (* float(entry['years']) *)
      | None => 0              (* TypeError: pass *)
      end
  | None =>
      match duration entry with
      | Some d =>
          let duration := lower (str_of d) in
          let years :=
            match duration_part "year" duration with
            | Some y => y | None => 0 end in
          let months :=
            match duration_part "month" duration with
            | Some m => m / 12 | None => 0 end in
          years + months
      | None =>
          match start_date entry, end_date entry with
          | Some sd, Some ed =>
              match extract_year_from_date sd, extract_year_from_date ed with
              | Some start_year, Some end_year =>
                  let end_year :=
                    if String.eqb end_year "Present"
                       || String.eqb end_year "Current"
                    then inject_Z current_year
                    else inject_Z (int_of_digits end_year) in
                  let years := end_year - inject_Z (int_of_digits start_year) in
                  py_max 0 years
              | _, _ => 0
              end
          | _, _ => 0
          end
      end
  end.

Definition calculate_total_experience_years
    (experience_entries : list experience_entry) : Q :=
  match experience_entries with
  | [] => 0
  | _ =>
      py_round 1
        (fold_left (fun total entry => total + entry_years entry)
           experience_entries 0)
  end.

(** The table [seniority_levels], in the order it is written. *)
Definition seniority_levels : list (string * Q) :=
  [ ("entry", 0.2); ("junior", 0.4); ("mid", 0.6); ("senior", 0.8);
    ("lead", 0.9); ("principal", 1.0); ("staff", 0.9); ("manager", 0.9);
    ("director", 1.0); ("vp", 1.0); ("head", 1.0); ("chief", 1.0) ].

(** The inner loop over the levels for one title: every level found in
    the title raises [resume_seniority] to at least its score. *)
Definition raise_by_title (title : string) (resume_seniority : Q) : Q :=
  fold_left
    (fun acc '(level, score) =>
       if contains level title then py_max acc score else acc)
    seniority_levels resume_seniority.

Definition match_seniority_level (resume_experience : list experience_entry)
    (job_experience : job_experience) : Q :=
  let job_exp_lower :=
    match job_experience with
    | JobExpText s => lower s
    | _ => ""
    end in
  let job_seniority :=
    match first_phrase seniority_levels job_exp_lower with
    | Some score => score
    | None => 0.5
    end in
  let total_years := calculate_total_experience_years resume_experience in
  let resume_seniority :=
    if Qgeb total_years 10 then 1.0
    else if Qgeb total_years 8 then 0.9
    else if Qgeb total_years 5 then 0.8
    else if Qgeb total_years 3 then 0.6
    else if Qgeb total_years 1 then 0.4
    else 0.2 in
  let resume_seniority :=
    fold_left
      (fun acc exp =>
         let title := lower match title exp with Some t => t | None => "" end in
         raise_by_title title acc)
      resume_experience resume_seniority in
  if Qgeb resume_seniority job_seniority then 1.0
  else if Qgtb job_seniority 0 then resume_seniority / job_seniority
  else 1.0.

Record experience_report : Type := MkExperienceReport {
  ex_score : Q;
  years_required : option Z;
  years_matched : option Q;
  ex_match_percentage : Q
}.

Definition calculate_experience_match
    (resume_experience : list experience_entry)
    (job_experience : job_experience) (cfg : config) : experience_report :=
  if negb (job_experience_truthy job_experience) then
    MkExperienceReport 1.0 None None 100
  else
    match extract_years_from_experience job_experience with
    | None =>
        let seniority_score :=
          match_seniority_level resume_experience job_experience in
        MkExperienceReport seniority_score None None
          (py_round 1 (seniority_score * 100))
    | Some job_years =>
        let resume_years :=
          calculate_total_experience_years resume_experience in
        let (match_score, match_percentage) :=
          if (job_years >? 0)%Z then
            if Qgeb resume_years (inject_Z job_years) then (1.0, 100)
            else (resume_years / inject_Z job_years,
                  resume_years / inject_Z job_years * 100)
          else (1.0, 100) in
        MkExperienceReport (py_round 2 match_score) (Some job_years)
          (Some resume_years) (py_round 1 match_percentage)
    end.

(** *** Education *)

(** The education requirement as the job-description analysis builds it. *)
Record education_req : Type := MkEducationReq {
  required : option string;
  preferred : option string;
  fields : list string;
  edu_description : string
}.

(** [job_education]: [None], a text, a list of texts, or the dictionary of
    the job-description analysis. *)
Inductive job_education : Type :=
| JobEduNone
| JobEduText (s : string)
| JobEduList (l : list string)
| JobEduDict (d : education_req).

Definition job_education_truthy (e : job_education) : bool :=
  match e with
  | JobEduNone => false
  | JobEduText s => truthy s
  | JobEduList l => match l with [] => false | _ => true end
  | JobEduDict _ => true
  end.

(** The two type tests at the head of the extractors: a text becomes a
    one-element list, and what is not a list gives no requirement. *)
Definition requirement_texts (e : job_education) : list string :=
  match e with
  | JobEduText s => [s]
  | JobEduList l => l
  | _ => []
  end.

(** An education entry of a resume. *)
Record education_entry : Type := MkEducationEntry {
  degree : option string;
  field : option string;
  year : option string
}.

Definition degree_patterns : list (string * list string) :=
  [ ("bachelor", ["bachelor"; "bachelors"; "bachelor's"; "bs"; "ba";
                  "b.s."; "b.a."; "undergraduate"]);
    ("master", ["master"; "masters"; "master's"; "ms"; "ma"; "m.s.";
                "m.a."; "graduate"]);
    ("doctorate", ["ph.d"; "phd"; "doctorate"; "doctoral";
                   "doctor of philosophy"]);
    ("associate", ["associate"; "associates"; "associate's"; "aa"; "a.a.";
                   "a.s."]) ].

Definition common_fields : list string :=
  [ "computer science"; "information technology"; "software engineering";
    "data science"; "mathematics"; "statistics"; "engineering";
    "business"; "finance"; "economics"; "marketing"; "accounting";
    "biology"; "chemistry"; "physics"; "psychology"; "sociology";
    "communications"; "english"; "history"; "arts";
    "healthcare"; "nursing"; "medicine"; "pharmacy" ].

Section SetOrder.

(** [list(set(l))]: the distinct elements of [l], in the order the set
    yields them. *)
Variable set_iter : list string -> list string.

Definition extract_degree_requirements (education_requirements : job_education)
    : list string :=
  set_iter
    (flat_map
       (fun req =>
          let req_lower := lower req in
          flat_map
            (fun '(degree, patterns) =>
               if existsb (fun pattern => contains pattern req_lower) patterns
               then [degree] else [])
            degree_patterns)
       (requirement_texts education_requirements)).

Definition extract_field_requirements (education_requirements : job_education)
    : list string :=
  set_iter
    (flat_map
       (fun req =>
          let req_lower := lower req in
          filter (fun field => contains field req_lower) common_fields)
       (requirement_texts education_requirements)).

(** The degree an entry's text names, by the [if]/[elif] chain. *)
Definition degree_of_text (degree : string) : list string :=
  let padded := " " ++ degree ++ " " in
  if contains "bachelor" degree || contains " bs " padded
     || contains " ba " padded || contains "b.s" degree
     || contains "b.a" degree
  then ["bachelor"]
  else if contains "master" degree || contains " ms " padded
     || contains " ma " padded || contains "m.s" degree
     || contains "m.a" degree
  then ["master"]
  else if contains "phd" degree || contains "ph.d" degree
     || contains "doctor" degree
  then ["doctorate"]
  else if contains "associate" degree || contains "a.a" degree
     || contains "a.s" degree
  then ["associate"]
  else [].

Definition get_text (v : option string) : string :=
  match v with Some s => s | None => "" end.

Definition extract_degrees_from_resume
    (education_entries : list education_entry) : list string :=
  set_iter
    (flat_map (fun entry => degree_of_text (lower (get_text (degree entry))))
       education_entries).

(** [in\s+([A-Za-z\s]+)], with [re.IGNORECASE] *)
Definition field_in_degree_re : Re.regex :=
  Re.seq [Re.lit true "in"; Re.Plus Re.space;
          Re.Grp 1 (Re.Plus (Re.Chr (fun c => is_alpha c || is_space c)))].

Definition extract_fields_from_resume
    (education_entries : list education_entry) : list string :=
  set_iter
    (flat_map
       (fun entry =>
          let field := get_text (field entry) in
          let degree_text := get_text (degree entry) in
          List.app (if truthy field then [lower field] else [])
             (if contains "in " (lower degree_text) then
                match Re.search field_in_degree_re degree_text with
                | Some m =>
                    match Re.group 1 (Re.m_groups m) with
                    | Some g => [lower g]
                    | None => []
                    end
                | None => []
                end
              else []))
       education_entries).

(** [degree_hierarchy.get(d, 0)] *)
Definition degree_hierarchy : list (string * Z) :=
  [ ("associate", 1); ("bachelor", 2); ("master", 3); ("doctorate", 4) ]%Z.

Fixpoint dict_get {A} (d : list (string * A)) (key : string) : option A :=
  match d with
  | [] => None
  | (k, v) :: rest => if String.eqb key k then Some v else dict_get rest key
  end.

Definition degree_level (d : string) : Z :=
  match dict_get degree_hierarchy d with Some n => n | None => 0%Z end.

Definition calculate_degree_match_score (resume_degree required_degree : string)
    : Q :=
  let resume_level := degree_level resume_degree in
  let required_level := degree_level required_degree in
  if String.eqb resume_degree required_degree then 1.0
  else if (resume_level >? required_level)%Z then 1.0
  else if (resume_level >? 0)%Z && (required_level >? 0)%Z then
    inject_Z resume_level / inject_Z required_level
  else 0.0.

Definition related_fields : list (string * list (string * Q)) :=
  [ ("computer science",
       [ ("software engineering", 0.9); ("information technology", 0.8);
         ("data science", 0.8); ("information systems", 0.7);
         ("mathematics", 0.6); ("engineering", 0.6) ]);
    ("data science",
       [ ("statistics", 0.9); ("mathematics", 0.8);
         ("computer science", 0.8); ("analytics", 0.9);
         ("machine learning", 0.9) ]);
    ("business",
       [ ("finance", 0.8); ("marketing", 0.7); ("economics", 0.8);
         ("management", 0.9); ("accounting", 0.7); ("mba", 0.9) ]);
    ("engineering",
       [ ("mechanical engineering", 0.9); ("electrical engineering", 0.8);
         ("civil engineering", 0.7); ("computer engineering", 0.8);
         ("software engineering", 0.7) ]) ].

(** [related_fields[a][b]] when both keys are there. *)
Definition related (a b : string) : option Q :=
  match dict_get related_fields a with
  | Some row => dict_get row b
  | None => None
  end.

Definition field_similarity (resume_field required_field : string) : Q :=
  if String.eqb resume_field required_field then 1.0
  else match related required_field resume_field with
       | Some v => v
       | None =>
           match related resume_field required_field with
           | Some v => v
           | None =>
               if contains required_field resume_field
                  || contains resume_field required_field
               then 0.7 else 0.2
           end
       end.

Record education_report : Type := MkEducationReport {
  ed_score : Q;
  degree_required : option (list string);
  degree_matched : bool;
  field_match : option (list string);
  ed_match_percentage : Q
}.

(** The two nested loops over the required and the resume degrees. *)
Definition degree_loop (required_degrees resume_degrees : list string)
    : Q * list string :=
  fold_left
    (fun acc req_degree =>
       fold_left
         (fun '(degree_match_score, matched_degrees) res_degree =>
            let match_score :=
              calculate_degree_match_score res_degree req_degree in
            if Qgtb match_score 0 then
              (py_max degree_match_score match_score,
               (matched_degrees ++ [req_degree])%list)
            else (degree_match_score, matched_degrees))
         resume_degrees acc)
    required_degrees (0.0, []).

(** The two nested loops over the required and the resume fields. *)
Definition field_loop (required_fields resume_fields : list string)
    : Q * list string :=
  fold_left
    (fun acc req_field =>
       fold_left
         (fun '(field_match_score, matched_fields) res_field =>
            if Qgeb (field_similarity res_field req_field) 0.7 then
              (1.0, (matched_fields ++ [req_field])%list)
            else (field_match_score, matched_fields))
         resume_fields acc)
    required_fields (0.0, []).

Definition calculate_education_match
    (resume_education : list education_entry)
    (job_education : job_education) (cfg : config) : education_report :=
  if negb (job_education_truthy job_education) then
    MkEducationReport 1.0 None true None 100
  else
    let required_degrees := extract_degree_requirements job_education in
    let required_fields := extract_field_requirements job_education in
    let resume_degrees := extract_degrees_from_resume resume_education in
    let resume_fields := extract_fields_from_resume resume_education in
    let (degree_match_score, matched_degrees) :=
      degree_loop required_degrees resume_degrees in
    let (field_match_score, matched_fields) :=
      field_loop required_fields resume_fields in
    let field_match_score :=
      match required_fields with [] => 1.0 | _ => field_match_score end in
    let combined_score :=
      0.7 * degree_match_score + 0.3 * field_match_score in
    MkEducationReport (py_round 2 combined_score) (Some required_degrees)
      (match required_degrees with
       | [] => true
       | _ => match matched_degrees with [] => false | _ => true end
       end)
      (Some matched_fields) (py_round 1 (combined_score * 100)).

(** *** Keyword density *)

Record density_report : Type := MkDensityReport {
  kd_score : Q;
  keyword_count : list (string * nat);
  density : Q;
  distribution : Q
}.

(** [\b\w+\b] *)
Definition word_re : Re.regex := Re.seq [Re.Bnd; Re.Plus Re.word; Re.Bnd].

(** [r'\b' + re.escape(keyword.lower()) + r'\b'] *)
Definition keyword_re (keyword : string) : Re.regex :=
  Re.seq [Re.Bnd; Re.lit false (lower keyword); Re.Bnd].

(** [\n\s*\n|\r\n\s*\r\n]: the empty lines that separate the sections. *)
Definition blank_line_re : Re.regex :=
  Re.Alt
    (Re.seq [Re.char "010"; Re.Star Re.space; Re.char "010"])
    (Re.seq [Re.char "013"; Re.char "010"; Re.Star Re.space;
             Re.char "013"; Re.char "010"]).

(** [d[key] = v]: a key keeps its place when it is written again. *)
Fixpoint dict_set {A} (d : list (string * A)) (key : string) (v : A)
    : list (string * A) :=
  match d with
  | [] => [(key, v)]
  | (k, w) :: rest =>
      if String.eqb key k then (k, v) :: rest
      else (k, w) :: dict_set rest key v
  end.

(** [sum(d.values())] *)
Definition sum_values (d : list (string * nat)) : nat :=
  fold_left (fun acc kv => (acc + snd kv)%nat) d 0%nat.

Definition count_keywords (resume_text : string) (job_keywords : list string)
    : list (string * nat) :=
  fold_left
    (fun keyword_count keyword =>
       let n := Re.count (keyword_re keyword) (lower resume_text) in
       match n with
       | O => keyword_count
       | _ => dict_set keyword_count keyword n
       end)
    job_keywords [].

(** The inner loop over the keywords, for one section. *)
Definition has_keyword (job_keywords : list string) (section : string)
    : bool :=
  existsb (fun keyword => Re.matches (keyword_re keyword) (lower section))
    job_keywords.

Definition of_nat (n : nat) : Q := inject_Z (Z.of_nat n).

Definition calculate_keyword_density (resume_text : string)
    (job_keywords : list string) : density_report :=
  if negb (truthy resume_text)
     || match job_keywords with [] => true | _ => false end
  then MkDensityReport 0 [] 0 0
  else
    let total_words := Re.count word_re (lower resume_text) in
    match total_words with
    | O => MkDensityReport 0 [] 0 0
    | _ =>
        let keyword_count := count_keywords resume_text job_keywords in
        let total_keywords := sum_values keyword_count in
        let density := of_nat total_keywords / of_nat total_words in
        let sections := Re.split blank_line_re resume_text in
        let sections_with_keywords :=
          List.length (filter (has_keyword job_keywords) sections) in
        let distribution :=
          match sections with
          | [] => 0
          | _ => of_nat sections_with_keywords / len sections
          end in
        let score := 0.7 * py_min (density * 50) 1 + 0.3 * distribution in
        MkDensityReport (py_round 2 score) keyword_count
          (py_round 2 (density * 100)) (py_round 2 (distribution * 100))
    end.

(** *** Content similarity *)

Record similarity_report : Type := MkSimilarityReport {
  cs_score : Q;
  similarity : Q
}.

(** The TF-IDF vectorizer and the cosine similarity are scikit-learn's:
    [tfidf_similarities doc docs] stands for
    [cosine_similarity(m[0:1], m[1:]).flatten()] with
    [m = TfidfVectorizer(stop_words='english').fit_transform([doc] + docs)],
    and is [None] when that raises. *)
Variable tfidf_similarities : string -> list string -> option (list Q).

(** [a.max()] of a non-empty array. *)
Definition array_max (a : list Q) : Q :=
  match a with
  | [] => 0
  | x :: rest => fold_left py_max rest x
  end.

(** [a.mean()] *)
Definition array_mean (a : list Q) : Q :=
  fold_left Qplus a 0 / len a.

Definition calculate_content_similarity (resume_text : string)
    (responsibilities : list string) : similarity_report :=
  let job_responsibilities := join " " responsibilities in
  if negb (truthy resume_text) || negb (truthy job_responsibilities) then
    MkSimilarityReport 0 0
  else
    let sections := Re.split blank_line_re resume_text in
    match tfidf_similarities job_responsibilities sections with
    | Some similarities =>
        let max_similarity :=
          match similarities with [] => 0 | _ => array_max similarities end in
        let avg_similarity :=
          match similarities with [] => 0 | _ => array_mean similarities end in
        let overall_score := 0.7 * max_similarity + 0.3 * avg_similarity in
        MkSimilarityReport (py_round 2 overall_score)
          (py_round 1 (max_similarity * 100))
    | None => MkSimilarityReport 0 0
    end.

(** *** calculate_match_score *)

Record resume_data : Type := MkResumeData {
  resume_skills : list string;
  resume_experience : list experience_entry;
  resume_education : list education_entry;
  resume_raw_text : string
}.

Record job_analysis : Type := MkJobAnalysis {
  job_skills : list string;
  job_priority_skills : list string;
  job_experience_req : job_experience;
  job_education_req : job_education;
  job_responsibilities : list string
}.

Record match_report : Type := MkMatchReport {
  overall_score : Q;
  ranking : string;
  percentile : string;
  skill_analysis : skill_report;
  experience_analysis : experience_report;
  education_analysis : education_report;
  keyword_density : density_report;
  content_similarity : similarity_report
}.

(** The weighted average of the three sub-scores, before rounding. *)
Definition weighted_average (cfg : config) (skill experience education : Q)
    : Q :=
  (skill * skill_weight cfg + experience * experience_weight cfg
   + education * education_weight cfg)
  / (skill_weight cfg + experience_weight cfg + education_weight cfg).

(** The tiers of the overall score. *)
Definition rank (overall_score : Q) : string * string :=
  if Qgeb overall_score 0.9 then ("Excellent Match", "Top 10%")
  else if Qgeb overall_score 0.8 then ("Strong Match", "Top 20%")
  else if Qgeb overall_score 0.7 then ("Good Match", "Top 30%")
  else if Qgeb overall_score 0.6 then ("Fair Match", "Top 40%")
  else ("Needs Improvement", "Below Average").

(** The report, or [None] when the division by the sum of the weights
    raises [ZeroDivisionError].  The texts of the report ([details],
    [improvement_suggestions], [top_matching_sections]) carry no score and
    are left out. *)
Definition calculate_match_score (resume : resume_data) (job : job_analysis)
    (config : option config) : option match_report :=
  let cfg := match config with Some c => c | None => default_config end in
  let skill_score :=
    calculate_skill_match (resume_skills resume) (job_skills job)
      (job_priority_skills job) cfg in
  let experience_score :=
    calculate_experience_match (resume_experience resume)
      (job_experience_req job) cfg in
  let education_score :=
    calculate_education_match (resume_education resume)
      (job_education_req job) cfg in
  if Qeq_bool
       (skill_weight cfg + experience_weight cfg + education_weight cfg) 0
  then None
  else
    let overall_score :=
      py_round 2
        (weighted_average cfg (sk_score skill_score)
           (ex_score experience_score) (ed_score education_score)) in
    let (ranking, percentile) := rank overall_score in
    Some (MkMatchReport overall_score ranking percentile skill_score
            experience_score education_score
            (calculate_keyword_density (resume_raw_text resume)
               (job_skills job))
            (calculate_content_similarity (resume_raw_text resume)
               (job_responsibilities job))).

End SetOrder.

End Clock.

End Matcher.

(** ** [app/components/job_description.py]: the skill extractor *)

Module JobDescription.

Import PyStr.

Definition COMMON_TECH_SKILLS : list string :=
  [ "python"; "javascript"; "java"; "c++"; "c#"; "ruby"; "php"; "swift";
    "kotlin"; "go"; "rust"; "typescript"; "sql"; "nosql"; "mongodb";
    "postgresql"; "mysql"; "oracle"; "react"; "angular"; "vue.js"; "node.js";
    "express.js"; "django"; "flask"; "spring"; "asp.net"; "laravel";
    "aws"; "azure"; "gcp"; "docker"; "kubernetes"; "terraform"; "jenkins";
    "git"; "ci/cd"; "agile"; "scrum"; "jira"; "rest api"; "graphql";
    "machine learning"; "deep learning"; "ai"; "data science"; "big data";
    "hadoop"; "spark"; "kafka"; "elasticsearch"; "tableau"; "power bi";
    "excel"; "powerpoint"; "word"; "html"; "css"; "bootstrap"; "sass";
    "redux"; "jquery"; "webpack"; "babel"; "responsive design";
    "mobile development" ].

(** [r'\b' + re.escape(skill) + r'\b'] *)
Definition skill_re (skill : string) : Re.regex :=
  Re.seq [Re.Bnd; Re.lit false skill; Re.Bnd].

(** The loop over the vocabulary: the terms found in the text, in the
    order of the vocabulary. *)
Definition extracted_skills (text : string) : list string :=
  let text_lower := lower text in
  filter (fun skill => Re.matches (skill_re skill) text_lower)
    COMMON_TECH_SKILLS.

(** [extract_skills(text)]: [set_iter] is the order [list(set(...))]
    yields the terms in. *)
Definition extract_skills (set_iter : list string -> list string)
    (text : string) : list string :=
  set_iter (extracted_skills text).

(** What Python fixes of [list(set(l))]: each distinct element of [l],
    once. *)
Definition set_order (set_iter : list string -> list string) : Prop :=
  forall l, Permutation (set_iter l) (nodup string_dec l).

(** Two orders a set may yield: first seen first, and the reverse of
    it. *)
Definition first_seen (l : list string) : list string :=
  rev (nodup string_dec (rev l)).

Definition first_seen_last (l : list string) : list string :=
  nodup string_dec (rev l).

End JobDescription.

(** ** [app/utils/text_analysis.py]: the legacy skill score *)

Module TextAnalysis.

Import PyStr PyNum.
Local Open Scope Q_scope.

(** [{skill.lower() for skill in skills}] *)
Definition lower_set (skills : list string) : list string :=
  nodup string_dec (map lower skills).

(** [a.intersection(b)] *)
Definition intersection (a b : list string) : list string :=
  filter (fun x => mem x b) a.

Definition calculate_skill_match_score (job_skills resume_skills : list string)
    : Q :=
  match job_skills with
  | [] => 0.0
  | _ =>
      let job_skills_set := lower_set job_skills in
      let resume_skills_set := lower_set resume_skills in
      let matching_skills := intersection job_skills_set resume_skills_set in
      len matching_skills / len job_skills_set
  end.

End TextAnalysis.

(** ** Predicates on the inputs, and sample inputs *)

Module Inputs.

Import PyStr PyNum Matcher.
Local Open Scope Q_scope.

(** The closed unit interval. *)
Definition unit_interval (x : Q) : Prop := 0 <= x /\ x <= 1.

(** The integer [round] picks: the floor of the scaled value or the next
    integer. *)
Definition round_digit (y : Q) : Z :=
  let f := Qfloor y in
  let r := y - inject_Z f in
  if Qlt_le_dec r (1 # 2) then f
  else if Qlt_le_dec (1 # 2) r then (f + 1)%Z
  else if Z.even f then f else (f + 1)%Z.



(** The degrees of the hierarchy. *)
Definition recognized (d : string) : Prop :=
  In d ["associate"; "bachelor"; "master"; "doctorate"].

Ltac each_degree H := repeat (destruct H as [<-|H]); [..|destruct H].

(** A run of decimal digits. *)
Fixpoint all_digits (s : string) : bool :=
  match s with
  | EmptyString => true
  | String c r => is_digit c && all_digits r
  end.

(** The last character of [s], or [prev] when [s] is empty. *)
Fixpoint last_of (prev : option ascii) (s : string) : option ascii :=
  match s with
  | EmptyString => prev
  | String c r => last_of (Some c) r
  end.

(** What follows the digits in the first of the [year_patterns]:
    [\+?\s*years?]. *)
Definition after_digits : Re.regex :=
  Re.seq [Re.Opt (Re.char "+"); Re.Star Re.space; years_re true].





(** A stand-in for the vectorizer: every section is half similar. *)
Definition half_similar (doc : string) (docs : list string)
    : option (list Q) :=
  Some (map (fun _ => 1 # 2) docs).

End Inputs.

(** ** The bodies of the loops, named *)

Module Loops.

Import PyStr PyNum Matcher.
Local Open Scope Q_scope.

(** The body of the loop over the resume degrees, for one required
    degree. *)
Definition degree_step (req_degree : string)
    : Q * list string -> string -> Q * list string :=
  fun '(degree_match_score, matched_degrees) res_degree =>
    let match_score := calculate_degree_match_score res_degree req_degree in
    if Qgtb match_score 0 then
      (py_max degree_match_score match_score,
       (matched_degrees ++ [req_degree])%list)
    else (degree_match_score, matched_degrees).

(** The body of the loop over the resume fields, for one required
    field. *)
Definition field_step (req_field : string)
    : Q * list string -> string -> Q * list string :=
  fun '(field_match_score, matched_fields) res_field =>
    if Qgeb (field_similarity res_field req_field) 0.7 then
      (1.0, (matched_fields ++ [req_field])%list)
    else (field_match_score, matched_fields).

(** Some resume field is similar enough to the required field. *)
Definition field_hit (S : list string) (req : string) : bool :=
  existsb (fun res => Qgeb (field_similarity res req) 0.7) S.

(** Some resume degree earns credit against the required degree. *)
Definition degree_hit (S : list string) (req : string) : bool :=
  existsb (fun res => Qgtb (calculate_degree_match_score res req) 0) S.

(** The score a loop ends with is its start or the score of a pair. *)
Definition attained (R S : list string) (start v : Q) : Prop :=
  v = start
  \/ exists req res, In req R /\ In res S
                     /\ v = calculate_degree_match_score res req.

(** The entries of [related_fields] as triples. *)
Definition related_triples : list (string * string * Q) :=
  flat_map (fun '(k, row) => map (fun '(e, v) => (k, e, v)) row)
    related_fields.

End Loops.

(** ** Whole words *)

Module Words.

Import PyStr Inputs.

(** The literal [s] stands in [t] after [a] as a whole word: a word
    boundary before it and one after it. *)
Definition whole_word_at (prev : option ascii) (s a b : string) : bool :=
  Re.at_boundary (last_of prev a) (s ++ b)
  && Re.at_boundary (last_of (last_of prev a) s) b.

End Words.

(** ** [app/components/job_description.py]: the priority skills *)

Module Priority.

Import PyStr JobDescription.

(** [s.count(sub)]: the occurrences of [sub] in [s], each one starting
    after the end of the one before; [skip] characters are still part of
    the last occurrence. *)
Fixpoint count_from (sub : string) (skip : nat) (s : string) {struct s}
    : nat :=
  match skip with
  | S skip' =>
      match s with
      | String _ s' => count_from sub skip' s'
      | EmptyString => 0
      end
  | O =>
      if starts_with sub s then
        S (match s with
           | String _ s' => count_from sub (String.length sub - 1) s'
           | EmptyString => 0
           end)
      else
        match s with
        | String _ s' => count_from sub 0 s'
        | EmptyString => 0
        end
  end.

Definition count (sub s : string) : nat := count_from sub 0 s.

(** [s.split(sep)[0]]: what stands before the first [sep]. *)
Fixpoint split_head (sep s : string) : string :=
  if starts_with sep s then EmptyString
  else match s with
       | String c s' => String c (split_head sep s')
       | EmptyString => EmptyString
       end.

(** An index below zero counts from the end. *)
Definition adjust (len i : Z) : Z :=
  if (i <? 0)%Z then Z.max 0 (i + len) else i.

Fixpoint find_at (sub s : string) (pos : nat) : Z :=
  if starts_with sub s then Z.of_nat pos
  else match s with
       | String _ s' => find_at sub s' (S pos)
       | EmptyString => (-1)%Z
       end.

(** [s.find(sub, start)]: the index of the first [sub] at or after
    [start], or -1. *)
Definition find (sub s : string) (start : Z) : Z :=
  let len := Z.of_nat (String.length s) in
  let start := adjust len start in
  if (len <? start)%Z then (-1)%Z
  else find_at sub (Re.drop (Z.to_nat start) s) (Z.to_nat start).

(** [s[i:j]] *)
Definition slice (s : string) (i j : Z) : string :=
  let len := Z.of_nat (String.length s) in
  let i := Z.min (adjust len i) len in
  let j := Z.min (adjust len j) len in
  Re.take (Z.to_nat (j - i)) (Re.drop (Z.to_nat i) s).

Definition blank_line : string := String "010" (String "010" EmptyString).

Definition req_patterns : list string :=
  [ "requirements"; "qualifications"; "skills required";
    "what you'll need" ].

(** The loop over [req_patterns]: the section that the first pattern
    found in the text opens, up to the next blank line. *)
Fixpoint requirements_section_of (text_lower : string)
    (patterns : list string) : option string :=
  match patterns with
  | [] => None
  | pattern :: rest =>
      if contains pattern text_lower then
        let start_idx := find pattern text_lower 0 in
        let end_idx := find blank_line text_lower start_idx in
        let end_idx :=
          if (end_idx =? -1)%Z then Z.of_nat (String.length text_lower)
          else end_idx in
        Some (slice text_lower start_idx end_idx)
      else requirements_section_of text_lower rest
  end.

(** [text_lower.split('\n\n')[0] if '\n\n' in text_lower else
    text_lower[:500]] *)
Definition first_paragraph_of (text_lower : string) : string :=
  if contains blank_line text_lower then split_head blank_line text_lower
  else Re.take 500 text_lower.

(** [[\*_]] *)
Definition star_or_underscore (c : ascii) : bool :=
  Ascii.eqb c "*" || Ascii.eqb c "_".

(** [r'[\*_]' + re.escape(skill.lower()) + r'[\*_]'] *)
Definition marked_re (skill : string) : Re.regex :=
  Re.seq [Re.Chr star_or_underscore; Re.lit false (lower skill);
          Re.Chr star_or_underscore].

Definition emphasis_patterns (skill : string) : list Re.regex :=
  [ Re.seq [Re.Grp 1 (Re.Alt (Re.lit false "strong")
                        (Re.Alt (Re.lit false "excellent")
                           (Re.Alt (Re.lit false "advanced")
                              (Re.lit false "expert"))));
            Re.Plus Re.space; Re.lit false (lower skill)];
    Re.seq [Re.lit false "experience"; Re.Plus Re.space;
            Re.Alt (Re.lit false "with") (Re.lit false "in");
            Re.Plus Re.space; Re.lit false (lower skill)];
    Re.seq [Re.lit false "proficient"; Re.Plus Re.space;
            Re.Alt (Re.lit false "with") (Re.lit false "in");
            Re.Plus Re.space; Re.lit false (lower skill)] ].

(** [bool(requirements_section)] and the test on it. *)
Definition in_section (requirements_section : option string)
    (skill : string) : bool :=
  match requirements_section with
  | Some section => truthy section && contains (lower skill) section
  | None => false
  end.

(** The tests of the loop over the skills, in their order: the first
    that holds appends the skill. *)
Definition is_priority (text skill : string) : bool :=
  let text_lower := lower text in
  let skill_count := count (lower skill) text_lower in
  let first_paragraph := first_paragraph_of text_lower in
  let requirements_section :=
    requirements_section_of text_lower req_patterns in
  (1 <? skill_count)%nat
  || contains (lower skill) first_paragraph
  || in_section requirements_section skill
  || Re.matches (skill_re (upper skill)) text
  || Re.matches (marked_re skill) text_lower
  || existsb (fun pattern => Re.matches pattern text_lower)
       (emphasis_patterns skill).

(** The last loop: duplicates removed, the order kept. *)
Definition unique (skills : list string) : list string :=
  fold_left
    (fun unique_priority_skills skill =>
       if mem skill unique_priority_skills then unique_priority_skills
       else (unique_priority_skills ++ [skill])%list)
    skills [].

Definition extract_priority_skills (text : string) (skills : list string)
    : list string :=
  match skills with
  | [] => []
  | _ => unique (filter (is_priority text) skills)
  end.

(** The fields of [analyze_job_description] that hold the skills. *)
Definition analyzed_skills (set_iter : list string -> list string)
    (text : string) : list string * list string :=
  let skills := extract_skills set_iter text in
  (skills, extract_priority_skills text skills).

End Priority.

(** ** [app/utils/text_analysis.py]: the legacy skill extractor *)

Module TextSkills.

Import PyStr JobDescription.

Definition COMMON_TECHNICAL_SKILLS : list (string * list string) :=
  [ ("programming_languages",
     [ "python"; "java"; "javascript"; "c++"; "c#"; "ruby"; "go"; "rust";
       "php"; "typescript"; "kotlin"; "swift"; "scala"; "perl"; "sql";
       "bash"; "r"; "matlab" ]);
    ("web_development",
     [ "html"; "css"; "react"; "angular"; "vue"; "node.js"; "express";
       "django"; "flask"; "spring"; "asp.net"; "jquery"; "bootstrap";
       "tailwind"; "laravel"; "ruby on rails"; "wordpress"; "php";
       "gatsby"; "next.js"; "graphql"; "rest api" ]);
    ("databases",
     [ "mysql"; "postgresql"; "mongodb"; "sqlite"; "oracle"; "sql server";
       "redis"; "dynamodb"; "cassandra"; "firebase"; "mariadb";
       "elasticsearch"; "neo4j" ]);
    ("cloud_platforms",
     [ "aws"; "azure"; "google cloud"; "gcp"; "heroku"; "digitalocean";
       "firebase"; "cloudflare"; "vercel"; "netlify"; "alibaba cloud";
       "ibm cloud" ]);
    ("devops",
     [ "docker"; "kubernetes"; "jenkins"; "gitlab ci"; "github actions";
       "travis ci"; "terraform"; "ansible"; "chef"; "puppet"; "circleci";
       "prometheus"; "grafana" ]);
    ("data_science",
     [ "pandas"; "numpy"; "scikit-learn"; "tensorflow"; "pytorch"; "keras";
       "matplotlib"; "seaborn"; "tableau"; "power bi"; "hadoop"; "spark";
       "nlp"; "machine learning"; "deep learning"; "computer vision";
       "data mining"; "statistics" ]) ].

Definition ALL_SKILLS : list string :=
  flat_map snd COMMON_TECHNICAL_SKILLS.

(** The characters of [string.punctuation]: the printable characters
    that are neither letters, digits nor the space. *)
Definition is_punctuation (c : ascii) : bool :=
  let n := nat_of_ascii c in
  ((33 <=? n)%nat && (n <=? 47)%nat)
  || ((58 <=? n)%nat && (n <=? 64)%nat)
  || ((91 <=? n)%nat && (n <=? 96)%nat)
  || ((123 <=? n)%nat && (n <=? 126)%nat).

(** [text.translate(str.maketrans('', '', string.punctuation))] *)
Fixpoint remove_punctuation (s : string) : string :=
  match s with
  | EmptyString => EmptyString
  | String c r =>
      if is_punctuation c then remove_punctuation r
      else String c (remove_punctuation r)
  end.

(** [re.sub(r, repl, s)] for a replacement without group references:
    the text with each match replaced. *)
Fixpoint sub_at (ms : list Re.match_obj) (repl s : string) (from : nat)
    : string :=
  match ms with
  | [] => Re.drop from s
  | m :: ms' =>
      Re.take (Re.m_start m - from) (Re.drop from s)
      ++ repl ++ sub_at ms' repl s (Re.m_end m)
  end.

Definition sub (r : Re.regex) (repl s : string) : string :=
  sub_at (Re.finditer r s) repl s 0.

Fixpoint lstrip (s : string) : string :=
  match s with
  | String c r => if is_space c then lstrip r else s
  | EmptyString => EmptyString
  end.

Fixpoint rstrip (s : string) : string :=
  match s with
  | String c r =>
      match rstrip r with
      | EmptyString => if is_space c then EmptyString
                       else String c EmptyString
      | r' => String c r'
      end
  | EmptyString => EmptyString
  end.

(** [s.strip()] *)
Definition strip (s : string) : string := rstrip (lstrip s).

Definition preprocess_text (text : string) : string :=
  let text := lower text in
  let text := remove_punctuation text in
  strip (sub (Re.Plus Re.space) " " text).

(** The list searched: the vocabulary, then the custom skills in lower
    case when there are some. *)
Definition skills_to_search (custom_skills : option (list string))
    : list string :=
  match custom_skills with
  | Some ((_ :: _) as skills) => (ALL_SKILLS ++ map lower skills)%list
  | _ => ALL_SKILLS
  end.

Definition extract_skills (text : string)
    (custom_skills : option (list string)) : list string :=
  let processed_text := preprocess_text text in
  filter (fun skill => Re.matches (skill_re skill) processed_text)
    (map lower (skills_to_search custom_skills)).

(** No character of [s] is a punctuation mark. *)
Fixpoint no_punctuation (s : string) : bool :=
  match s with
  | EmptyString => true
  | String c r => negb (is_punctuation c) && no_punctuation r
  end.

End TextSkills.

(** ** [app/components/job_description.py]: the experience requirement *)

Module JobExperience.

Import PyStr Matcher.

(** The four patterns of [years_patterns]; they are searched in the
    lower-cased text. *)
Definition years_patterns : list Re.regex :=
  [ (* (\d+)[\+]?\s*(?:to|-)\s*(\d+)[\+]?\s*years? *)
    Re.seq [Re.Grp 1 (Re.Plus Re.digit); Re.Opt (Re.char "+");
            Re.Star Re.space; Re.Alt (Re.lit false "to") (Re.char "-");
            Re.Star Re.space; Re.Grp 2 (Re.Plus Re.digit);
            Re.Opt (Re.char "+"); Re.Star Re.space; years_re false];
    (* (\d+)[\+]?\s*years? *)
    Re.seq [Re.Grp 1 (Re.Plus Re.digit); Re.Opt (Re.char "+");
            Re.Star Re.space; years_re false];
    (* minimum\s*of\s*(\d+)\s*years? *)
    Re.seq [Re.lit false "minimum"; Re.Star Re.space; Re.lit false "of";
            Re.Star Re.space; Re.Grp 1 (Re.Plus Re.digit);
            Re.Star Re.space; years_re false];
    (* at\s*least\s*(\d+)\s*years? *)
    Re.seq [Re.lit false "at"; Re.Star Re.space; Re.lit false "least";
            Re.Star Re.space; Re.Grp 1 (Re.Plus Re.digit);
            Re.Star Re.space; years_re false] ].

(** [len(match.groups())]: the number of groups of the pattern. *)
Fixpoint n_groups (r : Re.regex) : nat :=
  match r with
  | Re.Cat r1 r2 | Re.Alt r1 r2 => n_groups r1 + n_groups r2
  | Re.Star r' => n_groups r'
  | Re.Grp _ r' => S (n_groups r')
  | _ => 0
  end.

(** [bool(match.group(i))] *)
Definition group_truthy (i : nat) (m : Re.match_obj) : bool :=
  match Re.group i (Re.m_groups m) with
  | Some g => truthy g
  | None => false
  end.

(** [int(match.group(i))], on the run of digits a group holds; [None]
    stands for the [TypeError] on a group that took no part. *)
Definition group_int (i : nat) (m : Re.match_obj) : option Z :=
  match Re.group i (Re.m_groups m) with
  | Some g => Some (int_of_digits g)
  | None => None
  end.

(** The loop over the patterns: the first that matches gives ["min"]
    and ["max"], and ends the loop. *)
Fixpoint years_of (patterns : list Re.regex) (text_lower : string)
    : option (Z * option Z) :=
  match patterns with
  | [] => Some (0%Z, None)
  | pattern :: rest =>
      match Re.search pattern text_lower with
      | Some m =>
          if (1 <? n_groups pattern)%nat && group_truthy 2 m then
            match group_int 1 m, group_int 2 m with
            | Some lo, Some hi => Some (lo, Some hi)
            | _, _ => None
            end
          else
            match group_int 1 m with
            | Some lo => Some (lo, None)
            | None => None
            end
      | None => years_of rest text_lower
      end
  end.

Definition level_of_years (min : Z) : string :=
  if (min <=? 1)%Z then "Entry Level"
  else if (min <=? 3)%Z then "Mid Level"
  else if (min <=? 5)%Z then "Senior Level"
  else "Expert Level".

Definition level_keywords : list (string * list string) :=
  [ ("Entry Level",
     ["entry"; "junior"; "beginner"; "trainee"; "internship"]);
    ("Mid Level", ["mid"; "intermediate"; "associate"]);
    ("Senior Level", ["senior"; "lead"; "experienced"; "advanced"]);
    ("Expert Level",
     ["expert"; "principal"; "director"; "head"; "chief"]) ].

(** The loop over [level_keywords]: the first level one of whose
    keywords stands in the text replaces [level]. *)
Fixpoint level_of_keywords (table : list (string * list string))
    (text_lower level : string) : string :=
  match table with
  | [] => level
  | (l, keywords) :: rest =>
      if existsb (fun keyword => contains keyword text_lower) keywords
      then l
      else level_of_keywords rest text_lower level
  end.

(** [str(n)] for an integer. *)
Definition str_of_nat (n : nat) : string :=
  NilEmpty.string_of_uint (Nat.to_uint n).

Definition str_of_int (n : Z) : string :=
  if (n <? 0)%Z then "-" ++ str_of_nat (Z.to_nat (- n))
  else str_of_nat (Z.to_nat n).

(** [bool(years["max"])]: false for [None] and for zero. *)
Definition max_truthy (max : option Z) : bool :=
  match max with
  | Some z => negb (z =? 0)%Z
  | None => false
  end.

Definition describe (min : Z) (max : option Z) (level : string) : string :=
  if (0 <? min)%Z then
    match max with
    | Some hi =>
        if max_truthy max then
          str_of_int min ++ "-" ++ str_of_int hi ++ " years (" ++ level
          ++ ")"
        else str_of_int min ++ "+ years (" ++ level ++ ")"
    | None => str_of_int min ++ "+ years (" ++ level ++ ")"
    end
  else level.

(** [extract_experience(text)]: the dictionary with the keys years,
    level and description; [None] when [int] raises. *)
Definition extract_experience (text : string) : option experience_req :=
  let text_lower := lower text in
  match years_of years_patterns text_lower with
  | Some (min, max) =>
      let level :=
        level_of_keywords level_keywords text_lower (level_of_years min) in
      Some (MkExperienceReq (Some (YearsRange min max)) (Some level)
              (Some (describe min max level)))
  | None => None
  end.

End JobExperience.

(** ** [app/components/resume_upload.py]: the analysis of a resume *)

Module ResumeUpload.

Import PyStr PyNum Matcher.
Local Open Scope Q_scope.

Definition COMMON_TECH_SKILLS : list string :=
  [ "python"; "javascript"; "java"; "c++"; "c#"; "ruby"; "php"; "swift";
    "kotlin"; "go"; "rust"; "typescript"; "sql"; "nosql"; "mongodb";
    "postgresql"; "mysql"; "oracle"; "react"; "angular"; "vue.js"; "node.js";
    "express.js"; "django"; "flask"; "spring"; "asp.net"; "laravel";
    "aws"; "azure"; "gcp"; "docker"; "kubernetes"; "terraform"; "jenkins";
    "git"; "ci/cd"; "agile"; "scrum"; "jira"; "rest api"; "graphql";
    "machine learning"; "deep learning"; "ai"; "data science"; "big data";
    "hadoop"; "spark"; "kafka"; "elasticsearch"; "tableau"; "power bi";
    "excel"; "powerpoint"; "word"; "html"; "css"; "bootstrap"; "sass";
    "redux"; "jquery"; "webpack"; "babel"; "responsive design";
    "mobile development" ].

(** [extract_skills_from_text(text)]: the terms found, in the order of
    the vocabulary. *)
Definition extract_skills_from_text (text : string) : list string :=
  let text_lower := lower text in
  filter
    (fun skill =>
       Re.matches (Re.seq [Re.Bnd; Re.lit false skill; Re.Bnd]) text_lower)
    COMMON_TECH_SKILLS.

(** A job description given as a dictionary that lacks the key
    ['raw_text']; a field is [None] when the key is absent, and
    [other_keys] says whether the dictionary holds further keys. *)
Record requirements_dict : Type := MkRequirementsDict {
  required_skills : option (list string);
  required_experience : option job_experience;
  required_education : option job_education;
  description : option string;
  other_keys : bool
}.

(** The argument [job_description]: [None], a text, a dictionary with
    the key ['raw_text'] (the analysis of a job description, which the
    matcher reads as it is), or a dictionary without it. *)
Inductive job_description_arg : Type :=
| JobNone
| JobText (s : string)
| JobAnalysis (j : job_analysis)
| JobRequirements (d : requirements_dict).

(** [bool(job_description)] *)
Definition job_description_truthy (j : job_description_arg) : bool :=
  match j with
  | JobNone => false
  | JobText s => truthy s
  | JobAnalysis _ => true
  | JobRequirements d =>
      match required_skills d, required_experience d, required_education d,
            description d with
      | None, None, None, None => other_keys d
      | _, _, _, _ => true
      end
  end.

(** The dictionary handed to the matcher.  The empty list that stands
    for a missing experience requirement is false, as [None] is, and
    the matcher asks nothing else of it. *)
Definition job_desc_for_matcher (j : job_description_arg) : job_analysis :=
  match j with
  | JobAnalysis a => a
  | JobRequirements d =>
      MkJobAnalysis
        match required_skills d with Some l => l | None => [] end
        []
        match required_experience d with Some e => e | None => JobExpNone end
        match required_education d with
        | Some e => e
        | None => JobEduList []
        end
        []
  | JobText _ | JobNone => MkJobAnalysis [] [] JobExpNone (JobEduList []) []
  end.

(** The part of the result that the comparison with a job adds. *)
Record match_summary : Type := MkMatchSummary {
  summary_report : match_report;
  summary_overall_score : Q;
  skills_match_score : Q;
  experience_match_score : Q;
  education_match_score : Q
}.

Record analysis_results : Type := MkAnalysisResults {
  identified_skills : list string;
  education_info : list education_entry;
  experience_info : list experience_entry;
  original_text : string;
  matching : option match_summary
}.

Section Analysis.

Variable current_year : Z.
Variable set_iter : list string -> list string.
Variable tfidf_similarities : string -> list string -> option (list Q).

(** The two extractors of the module that are not embedded. *)
Variable extract_education_from_text : string -> list education_entry.
Variable extract_experience_from_text : string -> list experience_entry.

(** [compare_resume_to_job] of the matcher: [calculate_match_score]
    with the default configuration. *)
Definition compare_resume_to_job (resume : resume_data)
    (job : job_analysis) : option match_report :=
  calculate_match_score current_year set_iter tfidf_similarities resume job
    None.

(** [analyze_resume(resume_text, job_description)].  The outer [None] is
    an exception of the matcher, the inner one the value [None]; the
    time stamp of the result is left out. *)
Definition analyze_resume (resume_text : string)
    (job_description : job_description_arg)
    : option (option analysis_results) :=
  if negb (truthy resume_text) then Some None
  else
    let skills := extract_skills_from_text resume_text in
    let education := extract_education_from_text resume_text in
    let experience := extract_experience_from_text resume_text in
    let resume_data :=
      MkResumeData skills experience education resume_text in
    if job_description_truthy job_description then
      match compare_resume_to_job resume_data
              (job_desc_for_matcher job_description) with
      | Some match_report =>
          Some (Some (MkAnalysisResults skills education experience
                        resume_text
                        (Some (MkMatchSummary match_report
                                 (overall_score match_report * 100)
                                 (sk_score (skill_analysis match_report)
                                  * 100)
                                 (ex_score (experience_analysis match_report)
                                  * 100)
                                 (ed_score (education_analysis match_report)
                                  * 100)))))
      | None => None
      end
    else
      Some (Some (MkAnalysisResults skills education experience resume_text
                    None)).

End Analysis.

End ResumeUpload.

(** ** [resume_matcher.py]: the improvement suggestions *)

Module Suggestions.

Import PyStr PyNum Matcher JobExperience.

(** [len(text.split())]: the number of runs of characters that are not
    white space; [inside] says that the character before is part of a
    run. *)
Fixpoint count_words (inside : bool) (text : string) : nat :=
  match text with
  | EmptyString => 0
  | String c rest =>
      if is_space c then count_words false rest
      else if inside then count_words true rest
      else S (count_words true rest)
  end.

(** The text opens with the letter Q. *)
Definition starts_with_Q (s : string) : bool :=
  match s with String "Q" _ => true | _ => false end.

Definition quantify : string :=
  "Quantify your achievements with metrics and specific results to stand out from other candidates".

Section Format.

(** The text of a float in an f-string. *)
Variable str_of_float : Q -> string.

(** The suggestions on the skills. *)
Definition skill_suggestions (skill_score : skill_report) : list string :=
  match missing_skills skill_score with
  | [] => []
  | _ =>
      if (List.length (missing_skills skill_score) <=? 3)%nat then
        let skills_to_add := join ", " (missing_skills skill_score) in
        ["Add missing skills: " ++ skills_to_add]
      else
        List.app
          match priority_missing skill_score with
          | _ :: _ =>
              let priority_to_add :=
                join ", " (firstn 3 (priority_missing skill_score)) in
              ["Focus on adding these priority skills: " ++ priority_to_add]
          | [] =>
              let skills_to_add :=
                join ", " (firstn 3 (missing_skills skill_score)) in
              ["Add key missing skills: " ++ skills_to_add]
          end
          ["Work on developing "
           ++ str_of_nat (List.length (missing_skills skill_score))
           ++ " missing skills identified in the job description"]
  end.

(** The suggestion on the experience: [years_required] and
    [years_matched] must both be true, that is, present and not zero. *)
Definition experience_suggestions (experience_score : experience_report)
    : list string :=
  match years_required experience_score, years_matched experience_score with
  | Some required, Some matched =>
      if negb (required =? 0)%Z && negb (Qeq_bool matched 0)
         && Qltb matched (inject_Z required)
      then
        let gap := (inject_Z required - matched)%Q in
        if Qgeb 2 gap then
          ["Highlight relevant projects or additional responsibilities to compensate for the "
           ++ str_of_float gap ++ " year experience gap"]
        else
          ["Consider roles requiring less experience or emphasize rapid skill acquisition and relevant achievements"]
      else []
  | _, _ => []
  end.

(** The suggestion on the education. *)
Definition education_suggestions (education_score : education_report)
    : list string :=
  if negb (degree_matched education_score) then
    match degree_required education_score with
    | Some ((_ :: _) as required_degrees) =>
        let degree_str := join ", " required_degrees in
        ["The job requires " ++ degree_str
         ++ ". Consider highlighting equivalent experience or continuing education"]
    | _ => []
    end
  else [].

(** The general suggestions, added when there are fewer than two of the
    others. *)
Definition general_suggestions (resume : resume_data)
    (skill_score : skill_report) : list string :=
  ((if truthy (resume_raw_text resume)
       && (count_words false (resume_raw_text resume) <? 300)%nat
    then ["Your resume appears brief. Consider adding more detail about your achievements and responsibilities"]
    else [])
   ++ (match matched_skills skill_score with
       | _ :: _ =>
           ["Optimize keyword placement by ensuring skills appear in both your summary and work experience sections"]
       | [] => []
       end)
   ++ [quantify])%list.

Definition generate_improvement_suggestions (resume : resume_data)
    (job : job_analysis) (skill_score : skill_report)
    (experience_score : experience_report)
    (education_score : education_report) : list string :=
  let suggestions :=
    (skill_suggestions skill_score
     ++ experience_suggestions experience_score
     ++ education_suggestions education_score)%list in
  if (List.length suggestions <? 2)%nat then
    (suggestions ++ general_suggestions resume skill_score)%list
  else suggestions.

End Format.

End Suggestions.

(** ** Predicates on patterns and texts *)

Module Patterns.

Import PyStr Inputs Matcher.

(** A character after which the tail of the first year pattern cannot
    start: no sign, no space, no y. *)
Definition blocks (c : ascii) : bool :=
  negb (Ascii.eqb "+" c) && negb (is_space c)
  && negb (Ascii.eqb (lower_char c) "y").

Definition blocked (t : string) : bool :=
  match t with
  | String c _ => blocks c
  | EmptyString => true
  end.

Definition no_digit_ahead (t : string) : bool :=
  match t with
  | String c _ => negb (is_digit c)
  | EmptyString => true
  end.

(** The first year pattern of the matcher. *)
Definition first_year_pattern : Re.regex :=
  Re.Cat (Re.Grp 1 (Re.Cat Re.digit (Re.Star Re.digit))) after_digits.



Definition levels : list string :=
  ["Entry Level"; "Mid Level"; "Senior Level"; "Expert Level"].

End Patterns.

(** * Properties *)

(** ** Numbers *)

Module PyNumFacts.

Import PyNum Inputs.
Local Open Scope Q_scope.

Lemma Qgeb_true (a b : Q) : Qgeb a b = true <-> b <= a.
Proof. unfold Qgeb. apply Qle_bool_iff. Qed.

Lemma Qgeb_false (a b : Q) : Qgeb a b = false <-> a < b.
Proof.
  unfold Qgeb. split; intro H.
  - apply Qnot_le_lt. intro L. apply Qle_bool_iff in L. congruence.
  - destruct (Qle_bool b a) eqn:E; [|reflexivity].
    apply Qle_bool_iff in E. lra.
Qed.

Lemma Qgtb_true (a b : Q) : Qgtb a b = true <-> b < a.
Proof.
  unfold Qgtb. split; intro H.
  - apply Qnot_le_lt. intro L. apply Qle_bool_iff in L.
    rewrite L in H. discriminate.
  - destruct (Qle_bool a b) eqn:E; [|reflexivity].
    apply Qle_bool_iff in E. lra.
Qed.

Lemma Qgtb_false (a b : Q) : Qgtb a b = false <-> a <= b.
Proof.
  unfold Qgtb. split; intro H.
  - apply Qle_bool_iff. destruct (Qle_bool a b); [reflexivity|discriminate].
  - apply Qle_bool_iff in H. rewrite H. reflexivity.
Qed.


Lemma py_min_ge (a b c : Q) : c <= a -> c <= b -> c <= py_min a b.
Proof. unfold py_min. destruct (Qlt_le_dec b a); lra. Qed.

Lemma py_min_le_r (a b : Q) : py_min a b <= b.
Proof. unfold py_min. destruct (Qlt_le_dec b a); lra. Qed.

Lemma py_max_le (a b c : Q) : a <= c -> b <= c -> py_max a b <= c.
Proof. unfold py_max. destruct (Qlt_le_dec a b); lra. Qed.

Lemma py_max_ge_l (a b : Q) : a <= py_max a b.
Proof. unfold py_max. destruct (Qlt_le_dec a b); lra. Qed.

Lemma py_max_ge_r (a b : Q) : b <= py_max a b.
Proof. unfold py_max. destruct (Qlt_le_dec a b); lra. Qed.


(** The scale [10^n] of [round(x, n)] is a positive integer. *)
Lemma scale_pos (n : nat) : (0 < 10 ^ Z.of_nat n)%Z.
Proof. apply Z.pow_pos_nonneg; lia. Qed.

Lemma py_round_digit (n : nat) (x : Q) :
  py_round n x ==
  inject_Z (round_digit (x * inject_Z (10 ^ Z.of_nat n)))
  / inject_Z (10 ^ Z.of_nat n).
Proof. unfold py_round, round_digit. cbv zeta. apply Qred_correct. Qed.

Lemma round_digit_comp (x y : Q) : x == y -> round_digit x = round_digit y.
Proof.
  intro E. unfold round_digit. cbv zeta.
  rewrite (Qfloor_comp x y E).
  destruct (Qlt_le_dec (x - inject_Z (Qfloor y)) (1 # 2)) as [a|a];
    destruct (Qlt_le_dec (y - inject_Z (Qfloor y)) (1 # 2)) as [b|b];
    try reflexivity; try (rewrite E in a; lra).
  destruct (Qlt_le_dec (1 # 2) (x - inject_Z (Qfloor y))) as [c|c];
    destruct (Qlt_le_dec (1 # 2) (y - inject_Z (Qfloor y))) as [d|d];
    try reflexivity; rewrite E in c; lra.
Qed.

(** [round] gives equal results, as fractions, on equal numbers. *)
Lemma py_round_comp (n : nat) (x y : Q) :
  x == y -> py_round n x = py_round n y.
Proof.
  intro E. unfold py_round. cbv zeta. apply Qred_complete.
  fold (round_digit (x * inject_Z (10 ^ Z.of_nat n))).
  fold (round_digit (y * inject_Z (10 ^ Z.of_nat n))).
  rewrite (round_digit_comp (x * inject_Z (10 ^ Z.of_nat n))
             (y * inject_Z (10 ^ Z.of_nat n))).
  - reflexivity.
  - rewrite E. reflexivity.
Qed.

Lemma round_digit_lower (y : Q) (lo : Z) :
  inject_Z lo <= y -> (lo <= round_digit y)%Z.
Proof.
  intros L. unfold round_digit. cbv zeta.
  assert (lo <= Qfloor y)%Z as A.
  { rewrite <- (Qfloor_Z lo). apply Qfloor_resp_le. exact L. }
  destruct (Qlt_le_dec (y - inject_Z (Qfloor y)) (1 # 2)); [lia|].
  destruct (Qlt_le_dec (1 # 2) (y - inject_Z (Qfloor y))); [lia|].
  destruct (Z.even (Qfloor y)); lia.
Qed.

Lemma round_digit_upper (y : Q) (hi : Z) :
  y <= inject_Z hi -> (round_digit y <= hi)%Z.
Proof.
  intros H. unfold round_digit. cbv zeta.
  pose proof (Qfloor_le y) as F1.
  assert (Qfloor y <= hi)%Z as B.
  { rewrite <- (Qfloor_Z hi). apply Qfloor_resp_le. exact H. }
  assert (Qfloor y = hi \/ Qfloor y + 1 <= hi)%Z as [C|C] by lia.
  - assert (y - inject_Z (Qfloor y) <= 0) as Z0 by (rewrite C; lra).
    destruct (Qlt_le_dec (y - inject_Z (Qfloor y)) (1 # 2)); [lia|lra].
  - destruct (Qlt_le_dec (y - inject_Z (Qfloor y)) (1 # 2)); [lia|].
    destruct (Qlt_le_dec (1 # 2) (y - inject_Z (Qfloor y))); [lia|].
    destruct (Z.even (Qfloor y)); lia.
Qed.

Lemma scale_pos_Q (n : nat) : 0 < inject_Z (10 ^ Z.of_nat n).
Proof.
  change 0 with (inject_Z 0). rewrite <- Zlt_Qlt. apply scale_pos.
Qed.

(** Rounding keeps a number on its side of a multiple of the unit, here
    0 and 1. *)
Lemma py_round_nonneg (n : nat) (x : Q) : 0 <= x -> 0 <= py_round n x.
Proof.
  intro H. rewrite py_round_digit.
  pose proof (scale_pos_Q n) as Ps.
  set (s := (10 ^ Z.of_nat n)%Z) in *.
  assert (0 <= round_digit (x * inject_Z s))%Z as D.
  { apply round_digit_lower. change (inject_Z 0) with 0. nra. }
  apply Qle_shift_div_l; [exact Ps|].
  rewrite Zle_Qle in D. change (inject_Z 0) with 0 in D. lra.
Qed.

Lemma py_round_le_1 (n : nat) (x : Q) : x <= 1 -> py_round n x <= 1.
Proof.
  intro H. rewrite py_round_digit.
  pose proof (scale_pos_Q n) as Ps.
  set (s := (10 ^ Z.of_nat n)%Z) in *.
  assert (round_digit (x * inject_Z s) <= s)%Z as D.
  { apply round_digit_upper. nra. }
  apply Qle_shift_div_r; [exact Ps|].
  rewrite Zle_Qle in D. lra.
Qed.

Lemma py_round_unit (n : nat) (x : Q) :
  unit_interval x -> unit_interval (py_round n x).
Proof.
  intros [L H]. split; [apply py_round_nonneg|apply py_round_le_1]; assumption.
Qed.

End PyNumFacts.

(** ** Strings *)

Module PyStrFacts.

Import PyStr.

Lemma starts_with_prefix (p s : string) :
  starts_with p s = true <-> exists b, s = p ++ b.
Proof.
  revert s. induction p as [|a p IH]; intros s; simpl.
  - split; [intros _; exists s; reflexivity|reflexivity].
  - destruct s as [|c s]; simpl.
    + split; [discriminate|intros [b E]; discriminate].
    + rewrite andb_true_iff, Ascii.eqb_eq, IH. split.
      * intros [-> [b ->]]. exists b. reflexivity.
      * intros [b E]. injection E as -> ->. split; [reflexivity|].
        exists b. reflexivity.
Qed.

(** [p in s] holds exactly when [p] is a contiguous part of [s]. *)
Lemma contains_substring (p s : string) :
  contains p s = true <-> exists a b, s = a ++ p ++ b.
Proof.
  induction s as [|c s IH].
  - cbn [contains]. rewrite orb_false_r, starts_with_prefix. split.
    + intros [b E]. exists "", b. exact E.
    + intros [a [b E]]. destruct a; [exists b; exact E|discriminate].
  - cbn [contains]. rewrite orb_true_iff, starts_with_prefix, IH. split.
    + intros [[b E]|[a [b E]]].
      * exists "", b. exact E.
      * exists (String c a), b. simpl. rewrite E. reflexivity.
    + intros [a [b E]]. destruct a as [|c' a].
      * left. exists b. exact E.
      * right. simpl in E. injection E as _ E. exists a, b. exact E.
Qed.

Lemma append_empty_r (s : string) : s ++ "" = s.
Proof. induction s; simpl; congruence. Qed.

Lemma contains_refl (s : string) : contains s s = true.
Proof.
  apply contains_substring. exists "", "". simpl.
  symmetry. apply append_empty_r.
Qed.

Lemma mem_In (x : string) (l : list string) : mem x l = true <-> In x l.
Proof.
  unfold mem. rewrite existsb_exists. split.
  - intros [y [H E]]. apply String.eqb_eq in E. subst. exact H.
  - intro H. exists x. split; [exact H|apply String.eqb_refl].
Qed.

End PyStrFacts.

(** ** The matcher on a number followed by "years" *)

Module ReFacts.

Import PyStr Inputs Matcher.

Lemma length_append (a b : string) :
  String.length (a ++ b) = (String.length a + String.length b)%nat.
Proof. induction a; simpl; congruence. Qed.

Lemma run_digit_cons {R} (prev : option ascii) (c : ascii) (s : string)
    (caps : Re.captures) (k : Re.cont R) :
  Re.run Re.digit prev (String c s) caps k
  = if is_digit c then k (Some c) s caps else None.
Proof. reflexivity. Qed.

Lemma run_digit_nil {R} (prev : option ascii) (caps : Re.captures)
    (k : Re.cont R) :
  Re.run Re.digit prev "" caps k = None.
Proof. reflexivity. Qed.

Lemma star_digits {R} (ds rest : string) (k : Re.cont R) (x : R) :
  all_digits ds = true ->
  match rest with String c _ => is_digit c = false | EmptyString => True end ->
  forall fuel prev caps,
    (String.length (ds ++ rest) < fuel)%nat ->
    k (last_of prev ds) rest caps = Some x ->
    Re.star_loop (Re.run Re.digit) k fuel prev (ds ++ rest) caps = Some x.
Proof.
  intros D N. induction ds as [|d ds IH]; intros fuel prev caps F K.
  - destruct fuel as [|fuel]; [simpl in F; lia|].
    cbn [Re.star_loop append]. cbn [last_of] in K.
    destruct rest as [|c rest].
    + rewrite run_digit_nil. exact K.
    + rewrite run_digit_cons, N. exact K.
  - destruct fuel as [|fuel]; [simpl in F; lia|].
    cbn [all_digits] in D. apply andb_true_iff in D. destruct D as [Dd Ds].
    cbn [Re.star_loop append]. rewrite run_digit_cons, Dd.
    assert ((String.length (ds ++ rest)
             <? String.length (String d (ds ++ rest)))%nat = true) as L.
    { apply Nat.ltb_lt. simpl. lia. }
    rewrite L. rewrite (IH Ds fuel (Some d) caps); [reflexivity| |exact K].
    cbn [append String.length] in F. lia.
Qed.

Lemma take_append (a b : string) :
  Re.take (String.length (a ++ b) - String.length b) (a ++ b) = a.
Proof.
  rewrite length_append.
  replace (String.length a + String.length b - String.length b)%nat
    with (String.length a) by lia.
  induction a; simpl; [destruct b; reflexivity|congruence].
Qed.

Lemma run_Cat {R} (a b : Re.regex) prev s caps (k : Re.cont R) :
  Re.run (Re.Cat a b) prev s caps k
  = Re.run a prev s caps (fun p' s' c' => Re.run b p' s' c' k).
Proof. reflexivity. Qed.

Lemma run_Grp {R} (i : nat) (a : Re.regex) prev s caps (k : Re.cont R) :
  Re.run (Re.Grp i a) prev s caps k
  = Re.run a prev s caps
      (fun p' s' c' =>
         k p' s' ((i, Re.take (String.length s - String.length s') s) :: c')).
Proof. reflexivity. Qed.

Lemma run_Star {R} (a : Re.regex) prev s caps (k : Re.cont R) :
  Re.run (Re.Star a) prev s caps k
  = Re.star_loop (Re.run a) k (S (String.length s)) prev s caps.
Proof. reflexivity. Qed.




End ReFacts.

(** ** The embedding on sample texts

    The values are those Python gives for the same calls. *)

Module Samples.

Import PyStr PyNum Matcher.
Local Open Scope Q_scope.

Example round_half_even :
  map (py_round 2) [0.125; 0.135; 0.375; 0.875; 1.25]
  = [3 # 25; 7 # 50; 19 # 50; 22 # 25; 5 # 4]
  /\ py_round 1 (-0.25) = -1 # 5 /\ py_round 1 (6.5) = 13 # 2.
Proof. repeat split; vm_compute; reflexivity. Qed.

Example year_patterns_samples :
  map (first_year_match year_patterns)
    ["5 years"; "5+ years (Senior Level)"; "5 + years"; "minimum of 7 YEARS";
     "12year"; "1 2 years"; "3-5 years"; "need 2.5 years and 10 years";
     "007 years"; "years 5"; "5 yrs"]
  = [Some 5; Some 5; Some 5; Some 7; Some 12; Some 2; Some 5; Some 5;
     Some 7; None; None]%Z.
Proof. vm_compute. reflexivity. Qed.

Example exp_phrases_samples :
  map years_of_text ["Senior engineer"; "Entry level role"; "any"]
  = [Some 5; Some 0; None]%Z.
Proof. vm_compute. reflexivity. Qed.

Example word_count_sample :
  Re.count word_re "hello, world foo_bar it's a-b" = 7%nat.
Proof. vm_compute. reflexivity. Qed.

Example keyword_samples :
  map (fun '(kw, t) => Re.count (keyword_re kw) (lower t))
    [("c++", "i know c++ and c#"); ("node.js", "node.js nodexjs");
     ("go", "go, golang; GO"); ("ai", "ai. mai ai")]
  = [0; 1; 2; 2]%nat.
Proof. vm_compute. reflexivity. Qed.

Example sections_sample :
  Re.split blank_line_re
    ("a b" ++ String "010" (String "010" (String "010" "c d"))
     ++ String "010" (String " " (String "010" "e")))
  = ["a b"; "c d"; "e"].
Proof. vm_compute. reflexivity. Qed.

Example duration_samples :
  map (fun d => (duration_part "year" d, duration_part "month" d))
    ["2 years 3 months"; "10years"; "3 month 2 years"; "years 4"]
  = [(Some 2, Some 3); (Some 10, None); (Some 2, Some 3); (None, None)].
Proof. vm_compute. reflexivity. Qed.

Example year_from_date_samples :
  map (fun d => extract_year_from_date (Some d))
    ["Jan 2015"; "2019-2020"; "1899"; "12000"; "Present"]
  = [Some "2015"; Some "2019"; None; Some "2000"; None].
Proof. vm_compute. reflexivity. Qed.

End Samples.

(** ** Lists *)

Module ListFacts.

Lemma filter_split_Permutation {A} (f : A -> bool) (l : list A) :
  Permutation (filter f l ++ filter (fun x => negb (f x)) l)%list l.
Proof.
  induction l as [|x l IH]; simpl.
  - constructor.
  - destruct (f x); simpl.
    + constructor. exact IH.
    + apply Permutation_sym, Permutation_cons_app, Permutation_sym, IH.
Qed.

Lemma filter_length_le {A} (f : A -> bool) (l : list A) :
  (List.length (filter f l) <= List.length l)%nat.
Proof.
  induction l as [|x l IH]; simpl; [lia|].
  destruct (f x); simpl; lia.
Qed.

End ListFacts.

(** ** The skill match *)

Module SkillFacts.

Import PyStr PyNum Inputs PyNumFacts PyStrFacts ListFacts Matcher.
Local Open Scope Q_scope.

(** The lists of the report, read off the code. *)
Lemma calculate_skill_match_lists (resume job prio : list string)
    (cfg : config) :
  let r := calculate_skill_match resume job prio cfg in
  job <> [] ->
  matched_skills r = filter (skill_found (map lower resume)) job
  /\ missing_skills r
     = filter (fun s => negb (skill_found (map lower resume) s)) job
  /\ priority_matched r
     = filter (fun s => mem (lower s) (map lower resume)) prio
  /\ priority_missing r
     = filter (fun s => negb (mem (lower s) (map lower resume))) prio.
Proof.
  intros r N. subst r. destruct job as [|j js]; [contradiction|].
  unfold calculate_skill_match.
  rewrite partition_as_filter. cbv zeta beta iota.
  repeat split; reflexivity.
Qed.

(** The score of the report, read off the code. *)
Lemma skill_score_unfold (resume job prio : list string)
    (cfg : config) :
  job <> [] ->
  sk_score (calculate_skill_match resume job prio cfg)
  = py_round 2
      (py_min 1
         (base_score
            (len (filter (skill_found (map lower resume)) job)) (len job)
          * (1 - priority_weight prio (len job))
          + priority_match_score
              (filter (fun s => mem (lower s) (map lower resume)) prio) prio
              match priority_skill_bonus cfg with
              | Some b => b
              | None => 2.0
              end
            * priority_weight prio (len job))).
Proof.
  intros N. destruct job as [|j js]; [contradiction|].
  unfold calculate_skill_match.
  rewrite partition_as_filter. cbv zeta beta iota.
  reflexivity.
Qed.

(** A job skill is found when it is contained in a resume skill, lower
    case against lower case; equality is the special case of the whole
    text. *)
Lemma skill_found_iff (resume : list string) (skill : string) :
  skill_found (map lower resume) skill = true
  <-> exists rs, In rs resume /\ contains (lower skill) (lower rs) = true.
Proof.
  unfold skill_found. cbv zeta.
  rewrite orb_true_iff, mem_In, existsb_exists, in_map_iff. split.
  - intros [[rs [E H]]|[x [H C]]].
    + exists rs. split; [exact H|]. rewrite E. apply contains_refl.
    + apply in_map_iff in H. destruct H as [rs [E H]]. subst x.
      exists rs. split; assumption.
  - intros [rs [H C]]. right. exists (lower rs). split; [|exact C].
    apply in_map. exact H.
Qed.

End SkillFacts.

(** ** Claims on the skill match *)

Module SkillClaims.

Import PyStr PyNum Inputs PyNumFacts PyStrFacts ListFacts Matcher SkillFacts.
Local Open Scope Q_scope.

(** C1. Scenario A: for job skills python and sql, priority skill python,
    resume skill python and the default configuration, the report has
    matched_skills = [python], missing_skills = [sql], match_percentage =
    50 and score 1: the base score 0.5 and the priority term 2.0 blend,
    at priority weight 0.5, into 1.25, which is capped to 1. *)
Theorem scenario_A_priority_bonus_saturation :
  calculate_skill_match ["python"] ["python"; "sql"] ["python"] default_config
  = MkSkillReport 1 ["python"] ["sql"] ["python"] [] 50
  /\ base_score (len ["python"]) (len ["python"; "sql"]) == 0.5
  /\ priority_match_score ["python"] ["python"] 2.0 == 2.0
  /\ priority_weight ["python"] (len ["python"; "sql"]) == 0.5
  /\ base_score (len ["python"]) (len ["python"; "sql"])
     * (1 - priority_weight ["python"] (len ["python"; "sql"]))
     + priority_match_score ["python"] ["python"] 2.0
       * priority_weight ["python"] (len ["python"; "sql"]) == 1.25
  /\ py_min 1 1.25 == 1.
Proof.
  repeat split; vm_compute; reflexivity.
Qed.

(** C7. The matched and the missing skills of the report partition the
    job skills: together they are the job skills up to order, each list
    keeps the order of the job skills, and no skill is in both. *)
Theorem matched_missing_partition (resume job prio : list string)
    (cfg : config) :
  let r := calculate_skill_match resume job prio cfg in
  Permutation (matched_skills r ++ missing_skills r)%list job
  /\ matched_skills r = filter (skill_found (map lower resume)) job
  /\ missing_skills r
     = filter (fun s => negb (skill_found (map lower resume) s)) job
  /\ (forall s, In s (matched_skills r) -> ~ In s (missing_skills r)).
Proof.
  intro r. subst r. destruct job as [|j js].
  - simpl. repeat split; try constructor. intros s [].
  - destruct (calculate_skill_match_lists resume (j :: js) prio cfg)
      as [M [N _]]; [discriminate|].
    cbv zeta in M, N. rewrite M, N. repeat split.
    + apply filter_split_Permutation.
    + intros s H1 H2. apply filter_In in H1. apply filter_In in H2.
      destruct H1 as [_ H1]. destruct H2 as [_ H2].
      rewrite H1 in H2. discriminate.
Qed.

Lemma matched_missing_partition_witness :
  In "python"
    (matched_skills
       (calculate_skill_match ["python"] ["python"; "sql"] ["python"]
          default_config))
  /\ ~ In "python"
         (missing_skills
            (calculate_skill_match ["python"] ["python"; "sql"] ["python"]
               default_config)).
Proof.
  assert (In "python"
            (matched_skills
               (calculate_skill_match ["python"] ["python"; "sql"]
                  ["python"] default_config))) as M
    by (left; reflexivity).
  split; [exact M|].
  exact (proj2 (proj2 (proj2
           (matched_missing_partition ["python"] ["python"; "sql"]
              ["python"] default_config))) "python" M).
Defined.

(** C10. A job skill is matched when some resume skill equals or contains
    it, lower case against lower case, while a priority skill is
    priority-matched only when some resume skill equals it; so a skill can
    be matched and priority-missing at once, as java is against the
    resume skill javascript. *)
Theorem matched_by_containment_priority_by_equality :
  (forall (resume job prio : list string) (cfg : config) (s : string),
     job <> [] ->
     let r := calculate_skill_match resume job prio cfg in
     (In s (matched_skills r) <->
        In s job /\
        exists rs, In rs resume /\
          (lower s = lower rs \/ contains (lower s) (lower rs) = true))
     /\ (In s (priority_matched r) <->
           In s prio /\ exists rs, In rs resume /\ lower s = lower rs)
     /\ (In s (priority_missing r) <->
           In s prio /\ forall rs, In rs resume -> lower s <> lower rs))
  /\ (let r := calculate_skill_match ["javascript"] ["java"] ["java"]
                 default_config in
      matched_skills r = ["java"] /\ priority_matched r = []
      /\ priority_missing r = ["java"]).
Proof.
  split.
  - intros resume job prio cfg s N r. subst r.
    destruct (calculate_skill_match_lists resume job prio cfg N)
      as [M [_ [PM PN]]].
    cbv zeta in M, PM, PN. rewrite M, PM, PN. clear M PM PN.
    rewrite !filter_In, skill_found_iff, negb_true_iff.
    repeat split.
    + tauto.
    + destruct H as [_ [rs [I C]]]. exists rs. split; [exact I|right; exact C].
    + tauto.
    + destruct H as [_ [rs [I [E|C]]]]; exists rs; split; try assumption.
      rewrite E. apply contains_refl.
    + tauto.
    + destruct H as [_ H]. apply mem_In, in_map_iff in H.
      destruct H as [rs [E I]]. exists rs. split; [exact I|congruence].
    + tauto.
    + destruct H as [_ [rs [I E]]]. apply mem_In, in_map_iff.
      exists rs. split; [congruence|exact I].
    + tauto.
    + destruct H as [_ H]. intros rs I E.
      assert (mem (lower s) (map lower resume) = true) as T.
      { apply mem_In, in_map_iff. exists rs. split; [congruence|exact I]. }
      congruence.
    + tauto.
    + destruct H as [_ H].
      destruct (mem (lower s) (map lower resume)) eqn:T; [|reflexivity].
      apply mem_In, in_map_iff in T. destruct T as [rs [E I]].
      exfalso. apply (H rs I). congruence.
  - vm_compute. repeat split; reflexivity.
Qed.

Lemma matched_by_containment_priority_by_equality_witness :
  ["java"] <> [] /\
  (In "java" (matched_skills
                (calculate_skill_match ["javascript"] ["java"] ["java"]
                   default_config)) <->
   In "java" ["java"] /\
   exists rs, In rs ["javascript"] /\
     (lower "java" = lower rs \/ contains (lower "java") (lower rs) = true)).
Proof.
  assert (["java"] <> []) as N by discriminate.
  split; [exact N|].
  pose proof (proj1 matched_by_containment_priority_by_equality
                ["javascript"] ["java"] ["java"] default_config "java" N)
    as H.
  cbv zeta in H. exact (proj1 H).
Defined.

End SkillClaims.

(** ** The experience match *)

Module ExperienceFacts.

Import PyStr PyNum Inputs PyNumFacts PyStrFacts ListFacts Matcher.
Local Open Scope Q_scope.

Lemma years_of_empty_text : years_of_text "" = None.
Proof. vm_compute. reflexivity. Qed.

(** A requirement that yields a number of years is not empty. *)
Lemma extract_years_truthy (je : job_experience) (y : Z) :
  extract_years_from_experience je = Some y ->
  job_experience_truthy je = true.
Proof.
  destruct je as [|s|[yv lv dv]]; cbn [extract_years_from_experience].
  - discriminate.
  - destruct s; [rewrite years_of_empty_text; discriminate|reflexivity].
  - cbn [req_description req_years req_level job_experience_truthy].
    destruct yv, lv, dv; try reflexivity.
    cbn [join]. rewrite years_of_empty_text. discriminate.
Qed.

(** The empty requirements: [None], the empty text and the dictionary
    without keys. *)
Lemma job_experience_falsy (je : job_experience) :
  job_experience_truthy je = false <->
  je = JobExpNone \/ je = JobExpText ""
  \/ je = JobExpDict (MkExperienceReq None None None).
Proof.
  split.
  - destruct je as [|s|[yv lv dv]]; cbn.
    + auto.
    + destruct s; [auto|discriminate].
    + destruct yv, lv, dv; try discriminate. auto.
  - intros [-> | [-> | ->]]; reflexivity.
Qed.







End ExperienceFacts.

Module ExperienceBounds.

Import PyStr PyNum Inputs PyNumFacts PyStrFacts ListFacts Matcher.
Import ExperienceFacts.
Local Open Scope Q_scope.

Lemma raise_by_title_ge (title : string) (acc : Q) :
  acc <= raise_by_title title acc.
Proof.
  unfold raise_by_title. generalize seniority_levels as table.
  intro table. revert acc.
  induction table as [|[level score] table IH]; intros acc; simpl.
  - lra.
  - destruct (contains level title).
    + pose proof (IH (py_max acc score)).
      pose proof (py_max_ge_l acc score). lra.
    + apply IH.
Qed.

Lemma raise_by_titles_ge (entries : list experience_entry) (acc : Q) :
  acc <=
  fold_left
    (fun acc exp =>
       let title := lower match title exp with Some t => t | None => "" end in
       raise_by_title title acc)
    entries acc.
Proof.
  revert acc. induction entries as [|e es IH]; intros acc; simpl.
  - lra.
  - eapply Qle_trans; [|apply IH]. apply raise_by_title_ge.
Qed.



End ExperienceBounds.

(** ** Claims on the experience match *)

Module ExperienceClaims.

Import PyStr PyNum Inputs PyNumFacts PyStrFacts ReFacts ListFacts Matcher.
Import ExperienceFacts.
Local Open Scope Q_scope.



End ExperienceClaims.

(** ** The education match *)

Module EducationFacts.

Import PyStr PyNum Inputs PyNumFacts PyStrFacts ListFacts Matcher.
Local Open Scope Q_scope.






(** The empty requirements: [None], the empty text and the empty list. *)
Lemma job_education_falsy (je : job_education) :
  job_education_truthy je = false <->
  je = JobEduNone \/ je = JobEduText "" \/ je = JobEduList [].
Proof.
  split.
  - destruct je as [|s|l|d]; cbn.
    + auto.
    + destruct s; [auto|discriminate].
    + destruct l; [auto|discriminate].
    + discriminate.
  - intros [-> | [-> | ->]]; reflexivity.
Qed.

End EducationFacts.

(** ** Claims on the education match *)

Module EducationClaims.

Import PyStr PyNum Inputs PyNumFacts PyStrFacts ListFacts Matcher.
Import ExperienceFacts EducationFacts.
Local Open Scope Q_scope.

(** C6. The hierarchy is associate(1) < bachelor(2) < master(3) <
    doctorate(4); for recognized degrees the credit is 1 when the
    candidate's level is at or above the required one, it is the ratio
    candidate_level/required_level when below, and it never decreases
    when the candidate's level rises. *)
Theorem degree_credit_monotone :
  (degree_level "associate" = 1 /\ degree_level "bachelor" = 2
   /\ degree_level "master" = 3 /\ degree_level "doctorate" = 4)%Z
  /\ forall c r : string, recognized c -> recognized r ->
       ((degree_level r <= degree_level c)%Z ->
          calculate_degree_match_score c r == 1)
       /\ ((degree_level c < degree_level r)%Z ->
             calculate_degree_match_score c r
             == inject_Z (degree_level c) / inject_Z (degree_level r))
       /\ (forall c' : string, recognized c' ->
             (degree_level c <= degree_level c')%Z ->
             calculate_degree_match_score c r
             <= calculate_degree_match_score c' r).
Proof.
  split; [repeat split; reflexivity|].
  intros c r Hc Hr. unfold recognized in *.
  each_degree Hc; each_degree Hr; (split; [|split]).
  all: try (intros _; vm_compute; reflexivity).
  all: try (intro H; exfalso; vm_compute in H; solve [discriminate H
            | apply H; reflexivity]).
  all: intros c' Hc' L; each_degree Hc'.
  all: try (vm_compute; intro K; discriminate K).
  all: exfalso; vm_compute in L; apply L; reflexivity.
Qed.

Lemma degree_credit_monotone_witness :
  recognized "bachelor" /\ recognized "master"
  /\ (degree_level "bachelor" < degree_level "master")%Z
  /\ calculate_degree_match_score "bachelor" "master"
     == inject_Z (degree_level "bachelor") / inject_Z (degree_level "master").
Proof.
  assert (recognized "bachelor") as B by (right; left; reflexivity).
  assert (recognized "master") as M by (right; right; left; reflexivity).
  assert (degree_level "bachelor" < degree_level "master")%Z as L
    by reflexivity.
  split; [exact B|]. split; [exact M|]. split; [exact L|].
  exact (proj1 (proj2 (proj2 degree_credit_monotone "bachelor" "master" B M))
           L).
Defined.

End EducationClaims.

(** ** Claims on the empty requirements *)

Module EmptyRequirementClaims.

Import PyStr PyNum Inputs PyNumFacts Matcher.
Local Open Scope Q_scope.

(** C4. An empty job side gives the category the score 1: no job skills,
    an empty experience requirement, an empty education requirement,
    whatever the resume holds. *)
Theorem empty_requirements_score_one :
  (forall (resume prio : list string) (cfg : config),
     sk_score (calculate_skill_match resume [] prio cfg) == 1)
  /\ (forall (current_year : Z) (resume : list experience_entry)
             (je : job_experience) (cfg : config),
        job_experience_truthy je = false ->
        ex_score (calculate_experience_match current_year resume je cfg)
        == 1)
  /\ (forall (set_iter : list string -> list string)
             (resume : list education_entry) (je : job_education)
             (cfg : config),
        job_education_truthy je = false ->
        ed_score (calculate_education_match set_iter resume je cfg) == 1).
Proof.
  repeat split.
  - intros current_year resume je cfg E.
    unfold calculate_experience_match. rewrite E. reflexivity.
  - intros set_iter resume je cfg E.
    unfold calculate_education_match. rewrite E. reflexivity.
Qed.

Lemma empty_requirements_score_one_witness :
  job_experience_truthy (JobExpText "") = false
  /\ ex_score
       (calculate_experience_match 2024
          [MkExperienceEntry (Some "Engineer") None None None None
             (Some (Some 3))]
          (JobExpText "") default_config) == 1
  /\ job_education_truthy (JobEduList []) = false
  /\ ed_score
       (calculate_education_match JobDescription.first_seen
          [MkEducationEntry (Some "Bachelor") (Some "physics") None]
          (JobEduList []) default_config) == 1.
Proof.
  split; [reflexivity|]. split.
  - apply (proj1 (proj2 empty_requirements_score_one)). reflexivity.
  - split; [reflexivity|].
    apply (proj2 (proj2 empty_requirements_score_one)). reflexivity.
Defined.

(** C9. The legacy scorer of the text-analysis module gives 0 when there
    are no job skills, whatever the resume skills, where the matcher's
    calculate_skill_match gives 1. *)
Theorem legacy_score_empty_job_skills (resume prio : list string)
    (cfg : config) :
  TextAnalysis.calculate_skill_match_score [] resume == 0
  /\ sk_score (calculate_skill_match resume [] prio cfg) == 1.
Proof. split; reflexivity. Qed.

End EmptyRequirementClaims.

(** ** Bounds on the scores *)

Module ScoreBounds.

Import PyStr PyNum Inputs PyNumFacts PyStrFacts ListFacts Matcher SkillFacts.
Import ExperienceFacts ExperienceBounds EducationFacts.
Local Open Scope Q_scope.

Lemma len_nonneg {A} (l : list A) : 0 <= len l.
Proof.
  unfold len. change 0 with (inject_Z 0). rewrite <- Zle_Qle. lia.
Qed.

Lemma len_pos {A} (l : list A) : l <> [] -> 0 < len l.
Proof.
  intro N. unfold len. change 0 with (inject_Z 0). rewrite <- Zlt_Qlt.
  destruct l; [contradiction|simpl; lia].
Qed.

Lemma len_le {A} (l l' : list A) :
  (List.length l <= List.length l')%nat -> len l <= len l'.
Proof. intro H. unfold len. rewrite <- Zle_Qle. lia. Qed.


Lemma of_nat_nonneg (n : nat) : 0 <= of_nat n.
Proof.
  unfold of_nat. change 0 with (inject_Z 0). rewrite <- Zle_Qle. lia.
Qed.

Lemma ratio_unit (a b : Q) : 0 <= a -> a <= b -> 0 < b -> unit_interval (a / b).
Proof.
  intros A L B. split.
  - apply Qle_shift_div_l; lra.
  - apply Qle_shift_div_r; lra.
Qed.

Lemma ratio_nonneg (a b : Q) : 0 <= a -> 0 < b -> 0 <= a / b.
Proof. intros A B. apply Qle_shift_div_l; lra. Qed.


Lemma keyword_density_score_unit (resume_text : string)
    (job_keywords : list string) :
  unit_interval (kd_score (calculate_keyword_density resume_text job_keywords)).
Proof.
  unfold calculate_keyword_density.
  destruct (negb (truthy resume_text) || _); [split; simpl; lra|].
  destruct (Re.count word_re (lower resume_text)) as [|w] eqn:W;
    [split; simpl; lra|].
  cbv zeta. cbn [kd_score]. apply py_round_unit.
  set (d := of_nat _ / of_nat (S w)).
  assert (0 <= d) as D.
  { subst d. apply ratio_nonneg; [apply of_nat_nonneg|].
    unfold of_nat. change 0 with (inject_Z 0). rewrite <- Zlt_Qlt. lia. }
  assert (unit_interval (py_min (d * 50) 1)) as [M0 M1].
  { split; [apply py_min_ge; lra|apply py_min_le_r]. }
  set (sections := Re.split blank_line_re resume_text).
  assert (unit_interval
            match sections with
            | [] => 0
            | _ => of_nat (List.length (filter (has_keyword job_keywords)
                                          sections)) / len sections
            end) as [S0 S1].
  { destruct sections as [|s ss] eqn:E; [split; lra|].
    apply ratio_unit.
    - apply of_nat_nonneg.
    - unfold of_nat, len. rewrite <- Zle_Qle.
      apply Nat2Z.inj_le, filter_length_le.
    - apply len_pos. discriminate. }
  split; lra.
Qed.







End ScoreBounds.

(** ** Claims on the report *)

Module ReportClaims.

Import PyStr PyNum Inputs PyNumFacts PyStrFacts ListFacts Matcher SkillFacts.
Import ExperienceFacts ExperienceBounds EducationFacts ScoreBounds.
Local Open Scope Q_scope.

Section Report.

Variable current_year : Z.
Variable set_iter : list string -> list string.
Variable tfidf : string -> list string -> option (list Q).



End Report.








End ReportClaims.

(** ** Claims on the skill extractor *)

Module ExtractorClaims.

Import PyStr JobDescription.

Lemma nodup_rev_Permutation (l : list string) :
  Permutation (nodup string_dec (rev l)) (nodup string_dec l).
Proof.
  apply NoDup_Permutation; try apply NoDup_nodup.
  intro x. rewrite !nodup_In, <- in_rev. reflexivity.
Qed.

Lemma first_seen_order : set_order first_seen.
Proof.
  intro l. unfold first_seen.
  eapply Permutation_trans; [apply Permutation_sym, Permutation_rev|].
  apply nodup_rev_Permutation.
Qed.

Lemma first_seen_last_order : set_order first_seen_last.
Proof. intro l. apply nodup_rev_Permutation. Qed.

(** The terms the loop over the vocabulary collects. *)
Lemma extracted_skills_In (text s : string) :
  In s (extracted_skills text) <->
  In s COMMON_TECH_SKILLS /\ Re.matches (skill_re s) (lower text) = true.
Proof.
  unfold extracted_skills. cbv zeta.
  exact (filter_In (fun skill => Re.matches (skill_re skill) (lower text))
           s COMMON_TECH_SKILLS).
Qed.

(** The terms the extractor returns under a set order. *)
Lemma extract_skills_In (order : list string -> list string)
    (text s : string) :
  set_order order ->
  In s (extract_skills order text) <->
  In s COMMON_TECH_SKILLS /\ Re.matches (skill_re s) (lower text) = true.
Proof.
  intro O. unfold extract_skills.
  pose proof (O (extracted_skills text)) as P.
  split; intro H.
  - apply (proj1 (extracted_skills_In text s)).
    apply (proj1 (nodup_In string_dec (extracted_skills text) s)).
    exact (Permutation_in s P H).
  - apply (Permutation_in s (Permutation_sym P)).
    apply (proj2 (nodup_In string_dec (extracted_skills text) s)).
    apply (proj2 (extracted_skills_In text s)). exact H.
Qed.

(** C8, as the code has it: the extractor returns the vocabulary terms
    that occur in the text as whole words, each once; two evaluations
    agree on the terms and their number, and on the order when the set is
    read in the same order. *)
Theorem extract_skills_same_terms :
  forall (order1 order2 : list string -> list string) (text : string),
    set_order order1 -> set_order order2 ->
    Permutation (extract_skills order1 text) (extract_skills order2 text)
    /\ NoDup (extract_skills order1 text)
    /\ (forall s,
          In s (extract_skills order1 text) <->
          In s COMMON_TECH_SKILLS
          /\ Re.matches (skill_re s) (lower text) = true)
    /\ ((forall l, order1 l = order2 l) ->
        extract_skills order1 text = extract_skills order2 text).
Proof.
  intros o1 o2 text O1 O2.
  pose proof (O1 (extracted_skills text)) as P1.
  pose proof (O2 (extracted_skills text)) as P2.
  split; [|split; [|split]].
  - unfold extract_skills.
    eapply Permutation_trans; [exact P1|apply Permutation_sym, P2].
  - unfold extract_skills.
    eapply Permutation_NoDup; [apply Permutation_sym, P1|].
    apply NoDup_nodup.
  - intro s. apply extract_skills_In. exact O1.
  - intro E. unfold extract_skills. apply E.
Qed.

Lemma extract_skills_same_terms_witness :
  set_order first_seen /\ set_order first_seen_last
  /\ Permutation (extract_skills first_seen "Python and Java")
       (extract_skills first_seen_last "Python and Java").
Proof.
  split; [exact first_seen_order|]. split; [exact first_seen_last_order|].
  exact (proj1 (extract_skills_same_terms first_seen first_seen_last
                  "Python and Java" first_seen_order first_seen_last_order)).
Defined.

(** C8, as stated, fails: the order of the list is the order in which the
    set is read, and two admissible orders give two different lists for
    the text "Python and Java". *)
Lemma extract_skills_order_not_stable :
  ~ (forall (order1 order2 : list string -> list string) (text : string),
       set_order order1 -> set_order order2 ->
       extract_skills order1 text = extract_skills order2 text).
Proof.
  intro H.
  specialize (H first_seen first_seen_last "Python and Java"
                first_seen_order first_seen_last_order).
  vm_compute in H. discriminate H.
Qed.

End ExtractorClaims.

(** * Further properties *)

(** ** The skill match *)

Module SkillExtras.

Import PyStr PyNum Inputs PyNumFacts PyStrFacts ListFacts Matcher SkillFacts.
Import ScoreBounds.
Local Open Scope Q_scope.








(** X2. The priority lists are consistent with the job lists: the
    priority-matched and priority-missing skills partition the priority
    skills, and a priority-matched skill that is a job skill is also a
    matched skill. *)
Theorem priority_lists_consistent (resume job prio : list string)
    (cfg : config) :
  job <> [] ->
  let r := calculate_skill_match resume job prio cfg in
  Permutation (priority_matched r ++ priority_missing r)%list prio
  /\ (forall s, In s (priority_matched r) -> ~ In s (priority_missing r))
  /\ (forall s, In s (priority_matched r) -> In s job ->
                In s (matched_skills r)).
Proof.
  intros N r. subst r.
  destruct (calculate_skill_match_lists resume job prio cfg N)
    as [M [_ [PM PN]]].
  cbv zeta in M, PM, PN. rewrite M, PM, PN. split; [|split].
  - apply filter_split_Permutation.
  - intros s H1 H2. apply filter_In in H1. apply filter_In in H2.
    destruct H1 as [_ H1]. destruct H2 as [_ H2].
    rewrite H1 in H2. discriminate.
  - intros s H J. apply filter_In in H. destruct H as [_ H].
    apply filter_In. split; [exact J|].
    unfold skill_found. cbv zeta. rewrite H. reflexivity.
Qed.

Lemma priority_lists_consistent_witness :
  ["java"; "sql"] <> []
  /\ Permutation
       (priority_matched
          (calculate_skill_match ["sql"; "git"] ["java"; "sql"]
             ["sql"; "java"] default_config)
        ++ priority_missing
             (calculate_skill_match ["sql"; "git"] ["java"; "sql"]
                ["sql"; "java"] default_config))%list
       ["sql"; "java"].
Proof.
  assert (["java"; "sql"] <> []) as N by discriminate.
  split; [exact N|].
  pose proof (priority_lists_consistent ["sql"; "git"] ["java"; "sql"]
                ["sql"; "java"] default_config N) as H.
  cbv zeta in H. exact (proj1 H).
Defined.

Lemma filter_all {A} (f : A -> bool) (l : list A) :
  (forall x, In x l -> f x = true) -> filter f l = l.
Proof.
  intro H. induction l as [|x l IH]; simpl; [reflexivity|].
  rewrite (H x (or_introl eq_refl)). f_equal. apply IH.
  intros y I. apply H. right. exact I.
Qed.

(** X3. A resume that holds every job skill (up to case) gets the score 1
    and the match percentage 100, with nothing missing, when the priority
    skills are job skills and the bonus is at least 1 (or left to its
    default). *)
Theorem full_coverage_score_one (resume job prio : list string)
    (cfg : config) :
  job <> [] ->
  (forall s, In s job -> mem (lower s) (map lower resume) = true) ->
  incl prio job ->
  (forall b, priority_skill_bonus cfg = Some b -> 1 <= b) ->
  let r := calculate_skill_match resume job prio cfg in
  sk_score r == 1 /\ sk_match_percentage r == 100
  /\ matched_skills r = job /\ missing_skills r = [].
Proof.
  intros N All I B r. subst r.
  assert (filter (skill_found (map lower resume)) job = job) as FM.
  { apply filter_all. intros s H. unfold skill_found. cbv zeta.
    rewrite (All s H). reflexivity. }
  assert (filter (fun s => mem (lower s) (map lower resume)) prio = prio)
    as FP.
  { apply filter_all. intros s H. apply All, I, H. }
  destruct (calculate_skill_match_lists resume job prio cfg N)
    as [M [MS _]].
  cbv zeta in M, MS.
  assert (0 < len job) as T by (apply len_pos; exact N).
  assert (Qgtb (len job) 0 = true) as G by (apply Qgtb_true; exact T).
  split; [|split; [|split]].
  - rewrite skill_score_unfold by exact N. rewrite FM, FP.
    set (bonus := match priority_skill_bonus cfg with
                  | Some b => b | None => 2.0 end).
    assert (1 <= bonus) as Bn.
    { subst bonus. destruct (priority_skill_bonus cfg) as [b|]; [|lra].
      apply B. reflexivity. }
    unfold base_score, priority_weight. rewrite G.
    assert (len job / len job == 1) as E1 by (field; lra).
    assert (0 <= len prio / len job) as W.
    { apply ratio_nonneg; [apply len_nonneg|exact T]. }
    assert (1 <= len job / len job * (1 - len prio / len job)
                 + priority_match_score prio prio bonus
                   * (len prio / len job)) as X.
    { rewrite E1. unfold priority_match_score.
      destruct prio as [|p ps].
      - assert (len (@nil string) / len job == 0) as Z0.
        { change (len (@nil string)) with 0. field. lra. }
        rewrite Z0. lra.
      - assert (0 < len (p :: ps)) as Pp by (apply len_pos; discriminate).
        assert (len (p :: ps) / len (p :: ps) == 1) as E2 by (field; lra).
        rewrite E2. nra. }
    rewrite (py_round_comp 2 _ 1); [reflexivity|].
    unfold py_min. destruct (Qlt_le_dec _ 1); [lra|reflexivity].
  - destruct job as [|j js]; [contradiction|].
    unfold calculate_skill_match. rewrite partition_as_filter.
    cbv zeta beta iota. cbn [sk_match_percentage]. rewrite FM, G.
    rewrite (py_round_comp 1 _ 100); [reflexivity|]. field. lra.
  - rewrite M. exact FM.
  - rewrite MS, <- (filter_all (skill_found (map lower resume)) job) at 1.
    + clear. induction job as [|x l IH]; simpl; [reflexivity|].
      destruct (skill_found _ x) eqn:E; simpl.
      * rewrite E. simpl. exact IH.
      * exact IH.
    + intros s H. unfold skill_found. cbv zeta.
      rewrite (All s H). reflexivity.
Qed.

Lemma full_coverage_score_one_witness :
  ["Python"; "sql"] <> []
  /\ sk_score
       (calculate_skill_match ["SQL"; "python"; "git"] ["Python"; "sql"]
          ["sql"] default_config) == 1
  /\ missing_skills
       (calculate_skill_match ["SQL"; "python"; "git"] ["Python"; "sql"]
          ["sql"] default_config) = [].
Proof.
  assert (["Python"; "sql"] <> []) as N by discriminate.
  assert (forall s, In s ["Python"; "sql"] ->
            mem (lower s) (map lower ["SQL"; "python"; "git"]) = true) as A.
  { intros s [<-|[<-|[]]]; reflexivity. }
  assert (incl ["sql"] ["Python"; "sql"]) as I.
  { intros s [<-|[]]. right. left. reflexivity. }
  assert (forall b, priority_skill_bonus default_config = Some b -> 1 <= b)
    as B.
  { intros b E. injection E as <-. lra. }
  pose proof (full_coverage_score_one ["SQL"; "python"; "git"]
                ["Python"; "sql"] ["sql"] default_config N A I B) as H.
  cbv zeta in H. split; [exact N|]. split; [exact (proj1 H)|].
  exact (proj2 (proj2 (proj2 H))).
Defined.



End SkillExtras.

(** ** The experience match *)

Module ExperienceExtras.

Import PyStr PyNum Inputs PyNumFacts PyStrFacts ListFacts Matcher.
Import ExperienceFacts ExperienceBounds ScoreBounds.
Local Open Scope Q_scope.

(** Rounding never reverses an order. *)
Lemma round_digit_mono (x y : Q) : x <= y -> (round_digit x <= round_digit y)%Z.
Proof.
  intro L.
  pose proof (Qfloor_resp_le x y L) as F.
  assert (Qfloor x = Qfloor y \/ Qfloor x + 1 <= Qfloor y)%Z as [E|E] by lia.
  - unfold round_digit. cbv zeta. rewrite E.
    destruct (Qlt_le_dec (x - inject_Z (Qfloor y)) (1 # 2)) as [a|a];
      destruct (Qlt_le_dec (y - inject_Z (Qfloor y)) (1 # 2)) as [b|b];
      try lia; try lra.
    + destruct (Qlt_le_dec (1 # 2) (y - inject_Z (Qfloor y))); [lia|].
      destruct (Z.even (Qfloor y)); lia.
    + destruct (Qlt_le_dec (1 # 2) (x - inject_Z (Qfloor y))) as [c|c];
        destruct (Qlt_le_dec (1 # 2) (y - inject_Z (Qfloor y))) as [d|d];
        try lia; try lra.
      destruct (Z.even (Qfloor y)); lia.
  - apply Z.le_trans with (Qfloor y).
    + apply Z.le_trans with (Qfloor x + 1)%Z; [|exact E].
      apply round_digit_upper. apply Qlt_le_weak.
      rewrite inject_Z_plus. pose proof (Qlt_floor x) as H.
      rewrite inject_Z_plus in H. exact H.
    + apply round_digit_lower. apply Qfloor_le.
Qed.

Lemma py_round_mono (n : nat) (x y : Q) :
  x <= y -> py_round n x <= py_round n y.
Proof.
  intro L. rewrite !py_round_digit.
  pose proof (scale_pos_Q n) as Ps.
  set (s := inject_Z (10 ^ Z.of_nat n)) in *.
  assert (round_digit (x * s) <= round_digit (y * s))%Z as M.
  { apply round_digit_mono. nra. }
  rewrite Zle_Qle in M.
  apply Qle_shift_div_l; [exact Ps|].
  unfold Qdiv. rewrite <- Qmult_assoc, (Qmult_comm (/ s)), Qmult_inv_r by lra.
  lra.
Qed.

Lemma first_phrase_In {A} (table : list (string * A)) (text : string)
    (v : A) :
  first_phrase table text = Some v -> exists k, In (k, v) table.
Proof.
  induction table as [|[k w] table IH]; simpl; [discriminate|].
  destruct (contains k text).
  - intro E. injection E as ->. exists k. left. reflexivity.
  - intro E. destruct (IH E) as [k' I]. exists k'. right. exact I.
Qed.

Lemma seniority_levels_range :
  Forall (fun kv => 0.2 <= snd kv /\ snd kv <= 1) seniority_levels.
Proof. unfold seniority_levels. repeat constructor; simpl; lra. Qed.

Lemma raise_by_title_le_1 (title : string) (acc : Q) :
  acc <= 1 -> raise_by_title title acc <= 1.
Proof.
  unfold raise_by_title. pose proof seniority_levels_range as R.
  revert acc. induction R as [|[level score] table [_ S1] R IH];
    intros acc A; simpl; [exact A|].
  destruct (contains level title); [|apply IH; exact A].
  apply IH. apply py_max_le; [exact A|exact S1].
Qed.

(** X5. The seniority credit lies between 0.2 and 1 for every resume and
    job text, and a resume that totals at least ten years gets 1. *)
Theorem seniority_credit_bounds (current_year : Z)
    (resume : list experience_entry) (je : job_experience) :
  0.2 <= match_seniority_level current_year resume je
  /\ match_seniority_level current_year resume je <= 1
  /\ (10 <= calculate_total_experience_years current_year resume ->
      match_seniority_level current_year resume je == 1).
Proof.
  unfold match_seniority_level. cbv zeta.
  set (js := match first_phrase seniority_levels _ with
             | Some score => score | None => 0.5 end).
  assert (0.2 <= js /\ js <= 1) as [J0 J1].
  { subst js. destruct (first_phrase _ _) as [v|] eqn:E; [|split; lra].
    destruct (first_phrase_In _ _ _ E) as [k I].
    pose proof seniority_levels_range as R.
    rewrite Forall_forall in R. exact (R _ I). }
  set (total := calculate_total_experience_years current_year resume).
  set (start := if Qgeb total 10 then 1.0 else _).
  assert (0.2 <= start) as S0.
  { subst start. repeat (destruct (Qgeb _ _)); lra. }
  pose proof (raise_by_titles_ge resume start) as G.
  set (rs := fold_left _ resume start) in *.
  split; [|split].
  - destruct (Qgeb rs js) eqn:E; [lra|].
    apply Qgeb_false in E.
    assert (Qgtb js 0 = true) as P by (apply Qgtb_true; lra).
    rewrite P. apply Qle_shift_div_l; [lra|]. nra.
  - destruct (Qgeb rs js) eqn:E; [lra|].
    apply Qgeb_false in E.
    destruct (Qgtb js 0) eqn:P; [|lra].
    apply Qgtb_true in P. apply Qle_shift_div_r; lra.
  - intro T. assert (start == 1) as S1.
    { subst start. apply Qgeb_true in T. rewrite T. reflexivity. }
    assert (Qgeb rs js = true) as E by (apply Qgeb_true; lra).
    rewrite E. reflexivity.
Qed.

Lemma seniority_credit_bounds_witness :
  10 <= calculate_total_experience_years 2024
          [MkExperienceEntry None None None None None (Some (Some 12))]
  /\ match_seniority_level 2024
       [MkExperienceEntry None None None None None (Some (Some 12))]
       (JobExpText "chief architect") == 1.
Proof.
  assert (10 <= calculate_total_experience_years 2024
                  [MkExperienceEntry None None None None None
                     (Some (Some 12))]) as T
    by (vm_compute; discriminate).
  split; [exact T|].
  exact (proj2 (proj2 (seniority_credit_bounds 2024
           [MkExperienceEntry None None None None None (Some (Some 12))]
           (JobExpText "chief architect"))) T).
Defined.

(** The report when the requirement yields a number of years. *)
Lemma experience_report_unfold (current_year : Z)
    (resume : list experience_entry) (je : job_experience) (cfg : config)
    (Y : Z) :
  extract_years_from_experience je = Some Y ->
  let C := calculate_total_experience_years current_year resume in
  calculate_experience_match current_year resume je cfg
  = if (Y >? 0)%Z then
      if Qgeb C (inject_Z Y) then
        MkExperienceReport (py_round 2 1.0) (Some Y) (Some C)
          (py_round 1 100)
      else
        MkExperienceReport (py_round 2 (C / inject_Z Y)) (Some Y) (Some C)
          (py_round 1 (C / inject_Z Y * 100))
    else MkExperienceReport (py_round 2 1.0) (Some Y) (Some C)
           (py_round 1 100).
Proof.
  intros E C. subst C. unfold calculate_experience_match.
  rewrite (extract_years_truthy je Y E), E. cbn [negb].
  destruct (Y >? 0)%Z; [|reflexivity].
  destruct (Qgeb _ _); reflexivity.
Qed.

(** X6. A requirement that is met gives the full score: when the resume
    totals at least the years the job asks for, or the job asks for no
    years at all, the score is 1 and the match percentage 100. *)
Theorem requirement_met_full_score (current_year : Z)
    (resume : list experience_entry) (je : job_experience) (cfg : config)
    (Y : Z) :
  extract_years_from_experience je = Some Y ->
  (Y <= 0)%Z
  \/ inject_Z Y <= calculate_total_experience_years current_year resume ->
  let r := calculate_experience_match current_year resume je cfg in
  ex_score r == 1 /\ ex_match_percentage r == 100.
Proof.
  intros E H r. subst r.
  rewrite (experience_report_unfold current_year resume je cfg Y E).
  cbv zeta. destruct (Y >? 0)%Z eqn:P.
  - apply Z.gtb_lt in P. destruct H as [H|H]; [lia|].
    apply Qgeb_true in H. rewrite H. split; reflexivity.
  - split; reflexivity.
Qed.

Lemma requirement_met_full_score_witness :
  extract_years_from_experience (JobExpText "Entry level position")
  = Some 0%Z
  /\ ((0 <= 0)%Z
      \/ inject_Z 0 <= calculate_total_experience_years 2024 [])
  /\ ex_score (calculate_experience_match 2024 []
                 (JobExpText "Entry level position") default_config) == 1.
Proof.
  assert (extract_years_from_experience (JobExpText "Entry level position")
          = Some 0%Z) as E by (vm_compute; reflexivity).
  assert ((0 <= 0)%Z
          \/ inject_Z 0 <= calculate_total_experience_years 2024 []) as H
    by (left; lia).
  split; [exact E|]. split; [exact H|].
  exact (proj1 (requirement_met_full_score 2024 []
                  (JobExpText "Entry level position") default_config 0%Z
                  E H)).
Defined.

(** X7. More experience never lowers the score: against the same
    requirement of Y years, a resume that totals at least as many years
    as another gets at least its score. *)
Theorem more_experience_never_lowers_score (current_year : Z)
    (resume1 resume2 : list experience_entry) (je : job_experience)
    (cfg : config) (Y : Z) :
  extract_years_from_experience je = Some Y ->
  calculate_total_experience_years current_year resume1
  <= calculate_total_experience_years current_year resume2 ->
  ex_score (calculate_experience_match current_year resume1 je cfg)
  <= ex_score (calculate_experience_match current_year resume2 je cfg).
Proof.
  intros E L.
  rewrite !(experience_report_unfold current_year _ je cfg Y E).
  cbv zeta.
  set (c1 := calculate_total_experience_years current_year resume1) in *.
  set (c2 := calculate_total_experience_years current_year resume2) in *.
  destruct (Y >? 0)%Z eqn:P; [|cbn [ex_score]; lra].
  apply Z.gtb_lt in P.
  assert (0 < inject_Z Y) as Py.
  { change 0 with (inject_Z 0). rewrite <- Zlt_Qlt. exact P. }
  destruct (Qgeb c1 (inject_Z Y)) eqn:G1;
    destruct (Qgeb c2 (inject_Z Y)) eqn:G2; cbn [ex_score].
  - lra.
  - apply Qgeb_true in G1. apply Qgeb_false in G2. lra.
  - apply Qgeb_false in G1. apply py_round_mono.
    apply Qle_shift_div_r; lra.
  - apply Qgeb_false in G1. apply Qgeb_false in G2. apply py_round_mono.
    apply Qle_shift_div_l; [exact Py|].
    unfold Qdiv. rewrite <- Qmult_assoc, (Qmult_comm (/ inject_Z Y)),
      Qmult_inv_r by lra. lra.
Qed.

Lemma more_experience_never_lowers_score_witness :
  extract_years_from_experience (JobExpText "6+ years") = Some 6%Z
  /\ calculate_total_experience_years 2024
       [MkExperienceEntry None None None None (Some (Some "2 years")) None]
     <= calculate_total_experience_years 2024
          [MkExperienceEntry None None None None
             (Some (Some "4 years 6 months")) None]
  /\ ex_score
       (calculate_experience_match 2024
          [MkExperienceEntry None None None None (Some (Some "2 years"))
             None]
          (JobExpText "6+ years") default_config)
     <= ex_score
          (calculate_experience_match 2024
             [MkExperienceEntry None None None None
                (Some (Some "4 years 6 months")) None]
             (JobExpText "6+ years") default_config).
Proof.
  assert (extract_years_from_experience (JobExpText "6+ years") = Some 6%Z)
    as E by (vm_compute; reflexivity).
  assert (calculate_total_experience_years 2024
            [MkExperienceEntry None None None None (Some (Some "2 years"))
               None]
          <= calculate_total_experience_years 2024
               [MkExperienceEntry None None None None
                  (Some (Some "4 years 6 months")) None]) as L
    by (vm_compute; discriminate).
  split; [exact E|]. split; [exact L|].
  exact (more_experience_never_lowers_score 2024 _ _
           (JobExpText "6+ years") default_config 6%Z E L).
Defined.

End ExperienceExtras.

(** ** The clock *)

Module ClockExtras.

Import PyStr PyNum Inputs PyNumFacts PyStrFacts ListFacts Matcher.
Import ExperienceFacts.
Local Open Scope Q_scope.

Lemma take_length (n : nat) (s : string) :
  (String.length (Re.take n s) <= n)%nat.
Proof.
  revert s. induction n as [|n IH]; intros s; [simpl; lia|].
  destruct s as [|c s]; simpl; [lia|]. specialize (IH s). lia.
Qed.

(** A match of [20\d{2}|19\d{2}] spans four characters. *)
Lemma match_at_year_span (prev : option ascii) (s : string) (pos : nat)
    (m : Re.match_obj) :
  Re.match_at year_re false prev s pos = Some m ->
  (Re.m_end m - Re.m_start m = 4)%nat.
Proof.
  unfold Re.match_at, year_re.
  destruct s as [|c1 [|c2 [|c3 [|c4 rest]]]];
    cbn [Re.run Re.seq fold_right Re.lit Re.char Re.digit andb];
    repeat match goal with
           | |- context [if ?b then _ else _] => destruct b
           end;
    try discriminate;
    intro E;
    match type of E with
    | Some ?a = Some _ => assert (m = a) as -> by congruence
    end;
    cbn [Re.m_end Re.m_start String.length]; lia.
Qed.

Lemma search_year_span (prev : option ascii) (s : string) (pos : nat)
    (m : Re.match_obj) :
  Re.search_from year_re prev s pos = Some m ->
  (Re.m_end m - Re.m_start m = 4)%nat.
Proof.
  revert prev pos. induction s as [|c s IH]; intros prev pos;
    cbn [Re.search_from];
    destruct (Re.match_at year_re false prev _ pos) as [m'|] eqn:M.
  - intro E. injection E as <-. exact (match_at_year_span _ _ _ _ M).
  - discriminate.
  - intro E. injection E as <-. exact (match_at_year_span _ _ _ _ M).
  - apply IH.
Qed.

(** The year read from a date has at most four characters. *)
Lemma extract_year_length (d : option string) (y : string) :
  extract_year_from_date d = Some y -> (String.length y <= 4)%nat.
Proof.
  unfold extract_year_from_date. destruct d as [s|]; [|discriminate].
  destruct (negb (truthy s)); [discriminate|].
  destruct (Re.search year_re s) as [m|] eqn:S; [|discriminate].
  intro E. injection E as <-. unfold group0.
  rewrite (search_year_span _ _ _ _ S). apply take_length.
Qed.

Lemma extract_year_not_present (d : option string) (y : string) :
  extract_year_from_date d = Some y ->
  String.eqb y "Present" || String.eqb y "Current" = false.
Proof.
  intro E. apply extract_year_length in E.
  destruct (String.eqb y "Present") eqn:P.
  - apply String.eqb_eq in P. subst y. simpl in E. lia.
  - destruct (String.eqb y "Current") eqn:C; [|reflexivity].
    apply String.eqb_eq in C. subst y. simpl in E. lia.
Qed.

Lemma entry_years_clock (year1 year2 : Z) (entry : experience_entry) :
  entry_years year1 entry = entry_years year2 entry.
Proof.
  unfold entry_years.
  destruct (years entry) as [v|]; [reflexivity|].
  destruct (duration entry) as [d|]; [reflexivity|].
  destruct (start_date entry) as [sd|]; [|reflexivity].
  destruct (end_date entry) as [ed|]; [|reflexivity].
  destruct (extract_year_from_date sd) as [a|]; [|reflexivity].
  destruct (extract_year_from_date ed) as [b|] eqn:B; [|reflexivity].
  rewrite (extract_year_not_present ed b B). reflexivity.
Qed.

Lemma fold_entry_years_clock (year1 year2 : Z)
    (entries : list experience_entry) (acc : Q) :
  fold_left (fun total entry => total + entry_years year1 entry) entries acc
  = fold_left (fun total entry => total + entry_years year2 entry) entries
      acc.
Proof.
  revert acc. induction entries as [|e es IH]; intros acc; simpl;
    [reflexivity|].
  rewrite (entry_years_clock year1 year2 e). apply IH.
Qed.

(** X8. The current year is never used: the total years, and with them
    the experience report, are the same whatever the clock says; an entry
    that has only dates, with the end date "Present" or "Current", adds
    no years. *)
Theorem total_years_ignore_the_clock (year1 year2 : Z) :
  (forall entries,
     calculate_total_experience_years year1 entries
     = calculate_total_experience_years year2 entries)
  /\ (forall entries je cfg,
        calculate_experience_match year1 entries je cfg
        = calculate_experience_match year2 entries je cfg)
  /\ (forall t c sd ed,
        ed = "Present" \/ ed = "Current" ->
        entry_years year1
          (MkExperienceEntry t c (Some sd) (Some (Some ed)) None None) = 0).
Proof.
  assert (forall entries,
            calculate_total_experience_years year1 entries
            = calculate_total_experience_years year2 entries) as T.
  { intro entries. unfold calculate_total_experience_years.
    destruct entries as [|e es]; [reflexivity|].
    rewrite (fold_entry_years_clock year1 year2). reflexivity. }
  split; [exact T|]. split.
  - intros entries je cfg. unfold calculate_experience_match.
    destruct (negb (job_experience_truthy je)); [reflexivity|].
    destruct (extract_years_from_experience je) as [y|].
    + rewrite (T entries). reflexivity.
    + unfold match_seniority_level. rewrite (T entries). reflexivity.
  - intros t c sd ed H. unfold entry_years.
    cbn [years duration start_date end_date].
    assert (extract_year_from_date (Some ed) = None) as N
      by (destruct H as [-> | ->]; vm_compute; reflexivity).
    rewrite N. destruct (extract_year_from_date sd); reflexivity.
Qed.

Lemma total_years_ignore_the_clock_witness :
  ("Present" = "Present" \/ "Present" = "Current")
  /\ entry_years 2024
       (MkExperienceEntry (Some "Engineer") None (Some (Some "Jan 2015"))
          (Some (Some "Present")) None None) = 0.
Proof.
  assert ("Present" = "Present" \/ "Present" = "Current") as H
    by (left; reflexivity).
  split; [exact H|].
  exact (proj2 (proj2 (total_years_ignore_the_clock 2024 1999))
           (Some "Engineer") None (Some "Jan 2015") "Present" H).
Defined.

End ClockExtras.

(** ** The education match *)

Module EducationExtras.

Import PyStr PyNum Inputs PyNumFacts PyStrFacts ListFacts Matcher.
Import EducationFacts ScoreBounds JobDescription Loops.
Local Open Scope Q_scope.

(** What a set order keeps: the elements. *)
Lemma set_order_In (order : list string -> list string) (l : list string)
    (x : string) :
  set_order order -> (In x (order l) <-> In x l).
Proof.
  intro O. pose proof (O l) as P. split; intro H.
  - apply (nodup_In string_dec). exact (Permutation_in x P H).
  - apply (Permutation_in x (Permutation_sym P)).
    apply (nodup_In string_dec). exact H.
Qed.

Lemma set_order_nil (order : list string -> list string) :
  set_order order -> order [] = [].
Proof.
  intro O. apply Permutation_nil, Permutation_sym. exact (O []).
Qed.

(** X9. Against the requirement dictionary that the job-description
    analysis builds, the education match finds no required degree and no
    required field: the score is 0.3 for every resume, and the degree
    counts as matched. *)
Theorem dictionary_requirement_scores_030
    (set_iter : list string -> list string)
    (resume : list education_entry) (d : education_req) (cfg : config) :
  set_order set_iter ->
  let r := calculate_education_match set_iter resume (JobEduDict d) cfg in
  ed_score r == 0.3 /\ ed_match_percentage r == 30
  /\ degree_required r = Some [] /\ degree_matched r = true
  /\ field_match r = Some [].
Proof.
  intros O r. subst r. unfold calculate_education_match.
  cbn [job_education_truthy negb].
  unfold extract_degree_requirements, extract_field_requirements.
  cbn [requirement_texts flat_map]. rewrite (set_order_nil set_iter O).
  cbn [degree_loop field_loop fold_left].
  repeat split; vm_compute; reflexivity.
Qed.

Lemma dictionary_requirement_scores_030_witness :
  set_order first_seen
  /\ ed_score
       (calculate_education_match first_seen
          [MkEducationEntry (Some "PhD") (Some "computer science") None]
          (JobEduDict
             (MkEducationReq (Some "bachelor") None ["computer science"]
                "Required: Bachelor degree in computer science"))
          default_config) == 0.3.
Proof.
  split; [exact ExtractorClaims.first_seen_order|].
  exact (proj1 (dictionary_requirement_scores_030 first_seen
           [MkEducationEntry (Some "PhD") (Some "computer science") None]
           (MkEducationReq (Some "bachelor") None ["computer science"]
              "Required: Bachelor degree in computer science")
           default_config ExtractorClaims.first_seen_order)).
Defined.

(** *** The loops as a maximum and a test over the pairs *)


Lemma degree_loop_steps (R S : list string) :
  degree_loop R S
  = fold_left (fun acc req => fold_left (degree_step req) S acc) R (0.0, []).
Proof. reflexivity. Qed.

Lemma degree_step_grows (req res : string) (acc : Q * list string) :
  fst acc <= fst (degree_step req acc res).
Proof.
  destruct acc as [s m]. unfold degree_step.
  destruct (Qgtb _ 0); cbn [fst]; [apply py_max_ge_l|lra].
Qed.

Lemma degree_inner_grows (req : string) (S : list string)
    (acc : Q * list string) :
  fst acc <= fst (fold_left (degree_step req) S acc).
Proof.
  revert acc. induction S as [|res S IH]; intros acc; simpl; [lra|].
  eapply Qle_trans; [apply degree_step_grows|apply IH].
Qed.

Lemma degree_inner_covers (req : string) (S : list string)
    (acc : Q * list string) (res : string) :
  0 <= fst acc -> In res S ->
  calculate_degree_match_score res req
  <= fst (fold_left (degree_step req) S acc).
Proof.
  revert acc. induction S as [|x S IH]; intros acc A I; [destruct I|].
  simpl. destruct I as [->|I].
  - eapply Qle_trans; [|apply degree_inner_grows].
    destruct acc as [s m]. unfold degree_step.
    destruct (Qgtb _ 0) eqn:G; cbn [fst] in *.
    + apply py_max_ge_r.
    + apply Qgtb_false in G. lra.
  - apply IH; [|exact I].
    eapply Qle_trans; [exact A|apply degree_step_grows].
Qed.

Lemma degree_outer_grows (R S : list string) (acc : Q * list string) :
  fst acc
  <= fst (fold_left (fun acc req => fold_left (degree_step req) S acc) R acc).
Proof.
  revert acc. induction R as [|req R IH]; intros acc; simpl; [lra|].
  eapply Qle_trans; [apply degree_inner_grows|apply IH].
Qed.

Lemma degree_outer_covers (R S : list string) (acc : Q * list string)
    (req res : string) :
  0 <= fst acc -> In req R -> In res S ->
  calculate_degree_match_score res req
  <= fst (fold_left (fun acc req => fold_left (degree_step req) S acc) R acc).
Proof.
  revert acc. induction R as [|x R IH]; intros acc A I J; [destruct I|].
  simpl. destruct I as [->|I].
  - eapply Qle_trans; [|apply degree_outer_grows].
    apply degree_inner_covers; assumption.
  - apply IH; [|exact I|exact J].
    eapply Qle_trans; [exact A|apply degree_inner_grows].
Qed.


Lemma degree_inner_attained (R S : list string) (start : Q) (req : string)
    (S' : list string) (acc : Q * list string) :
  In req R -> incl S' S -> attained R S start (fst acc) ->
  attained R S start (fst (fold_left (degree_step req) S' acc)).
Proof.
  intros I. revert acc. induction S' as [|res S' IH]; intros acc J A;
    simpl; [exact A|].
  apply IH; [intros x H; apply J; right; exact H|].
  destruct acc as [s m]. unfold degree_step.
  destruct (Qgtb _ 0); cbn [fst] in *; [|exact A].
  unfold py_max. destruct (Qlt_le_dec _ _); [|exact A].
  right. exists req, res. split; [exact I|]. split; [|reflexivity].
  apply J. left. reflexivity.
Qed.

Lemma degree_outer_attained (R S : list string) (start : Q)
    (R' : list string) (acc : Q * list string) :
  incl R' R -> attained R S start (fst acc) ->
  attained R S start
    (fst (fold_left (fun acc req => fold_left (degree_step req) S acc)
            R' acc)).
Proof.
  revert acc. induction R' as [|req R' IH]; intros acc J A; simpl;
    [exact A|].
  apply IH; [intros x H; apply J; right; exact H|].
  apply degree_inner_attained; [apply J; left; reflexivity| |exact A].
  intros x H. exact H.
Qed.

(** The degree score is the largest score of a pair, or 0 without a
    pair: so it depends on the two lists only through their elements. *)
Lemma degree_loop_by_elements (R S R' S' : list string) :
  (forall x, In x R <-> In x R') -> (forall x, In x S <-> In x S') ->
  fst (degree_loop R S) == fst (degree_loop R' S').
Proof.
  intros HR HS.
  assert (forall A B A' B' : list string,
            (forall x, In x A <-> In x A') ->
            (forall x, In x B <-> In x B') ->
            fst (degree_loop A B) <= fst (degree_loop A' B')) as Half.
  { intros A B A' B' HA HB. rewrite !degree_loop_steps.
    destruct (degree_outer_attained A B 0.0 A (0.0, [])) as [E|E].
    - intros x H. exact H.
    - left. reflexivity.
    - rewrite E. apply (degree_outer_grows A' B' (0.0, [])).
    - destruct E as [req [res [I [J E]]]]. rewrite E.
      apply degree_outer_covers; [cbn; lra|apply HA, I|apply HB, J]. }
  apply Qle_antisym; apply Half; intro x;
    try apply HR; try apply HS; symmetry; try apply HR; apply HS.
Qed.




Lemma field_inner (req : string) (S : list string) (acc : Q * list string) :
  fst (fold_left (field_step req) S acc)
  = if field_hit S req then 1.0 else fst acc.
Proof.
  revert acc. induction S as [|res S IH]; intros [s m]; [reflexivity|].
  cbn [fold_left field_hit existsb]. rewrite IH. unfold field_step.
  fold (field_hit S req).
  destruct (Qgeb _ 0.7); cbn [fst orb]; [|reflexivity].
  destruct (field_hit S req); reflexivity.
Qed.

Lemma field_loop_test (R S : list string) :
  fst (field_loop R S) = if existsb (field_hit S) R then 1.0 else 0.0.
Proof.
  change (field_loop R S)
    with (fold_left (fun acc req => fold_left (field_step req) S acc) R
            (0.0, [])).
  assert (forall acc,
            fst (fold_left (fun acc req => fold_left (field_step req) S acc)
                   R acc)
            = if existsb (field_hit S) R then 1.0 else fst acc) as G.
  { induction R as [|req R IH]; intros acc; [reflexivity|].
    cbn [fold_left existsb]. rewrite IH, field_inner.
    destruct (field_hit S req); cbn [orb]; [|reflexivity].
    destruct (existsb (field_hit S) R); reflexivity. }
  apply G.
Qed.

Lemma degree_inner_matched (req : string) (S : list string)
    (acc : Q * list string) :
  snd (fold_left (degree_step req) S acc) = []
  <-> snd acc = [] /\ degree_hit S req = false.
Proof.
  revert acc. induction S as [|res S IH]; intros [s m].
  - cbn. tauto.
  - cbn [fold_left degree_hit existsb]. rewrite IH. unfold degree_step.
    fold (degree_hit S req).
    destruct (Qgtb _ 0); cbn [snd orb].
    + split; [intros [H _]|intros [_ H]; discriminate].
      destruct m; discriminate.
    + tauto.
Qed.

Lemma degree_loop_matched (R S : list string) :
  snd (degree_loop R S) = [] <-> existsb (degree_hit S) R = false.
Proof.
  rewrite degree_loop_steps.
  assert (forall acc,
            snd (fold_left (fun acc req => fold_left (degree_step req) S acc)
                   R acc) = []
            <-> snd acc = [] /\ existsb (degree_hit S) R = false) as G.
  { induction R as [|req R IH]; intros acc.
    - cbn. tauto.
    - cbn [fold_left existsb]. rewrite IH, degree_inner_matched.
      rewrite orb_false_iff. tauto. }
  rewrite G. cbn. tauto.
Qed.

Lemma existsb_by_elements {A} (f g : A -> bool) (l l' : list A) :
  (forall x, In x l <-> In x l') -> (forall x, In x l -> f x = g x) ->
  existsb f l = existsb g l'.
Proof.
  intros H E. apply eq_true_iff_eq. rewrite !existsb_exists. split.
  - intros [x [I F]]. exists x. split; [apply H, I|].
    rewrite <- (E x I). exact F.
  - intros [x [I F]]. apply H in I. exists x. split; [exact I|].
    rewrite (E x I). exact F.
Qed.

Lemma nil_by_elements {A} (l l' : list A) :
  (forall x, In x l <-> In x l') -> (l = [] <-> l' = []).
Proof.
  intro H. split; intros ->.
  - destruct l' as [|x l']; [reflexivity|].
    destruct (proj2 (H x) (or_introl eq_refl)).
  - destruct l as [|x l]; [reflexivity|].
    destruct (proj1 (H x) (or_introl eq_refl)).
Qed.

(** X10. The education score, the match percentage and the
    degree-matched flag do not depend on the order in which the sets of
    degrees and fields are read. *)
Theorem education_score_order_independent
    (order1 order2 : list string -> list string)
    (resume : list education_entry) (je : job_education) (cfg : config) :
  set_order order1 -> set_order order2 ->
  let r1 := calculate_education_match order1 resume je cfg in
  let r2 := calculate_education_match order2 resume je cfg in
  ed_score r1 = ed_score r2
  /\ ed_match_percentage r1 = ed_match_percentage r2
  /\ degree_matched r1 = degree_matched r2.
Proof.
  intros O1 O2 r1 r2. subst r1 r2. unfold calculate_education_match.
  destruct (negb (job_education_truthy je)); [repeat split|].
  cbv zeta.
  unfold extract_degree_requirements, extract_field_requirements,
    extract_degrees_from_resume, extract_fields_from_resume.
  set (RD := flat_map _ (requirement_texts je)).
  set (RF := flat_map _ (requirement_texts je)).
  set (SD := flat_map _ resume).
  set (SF := flat_map _ resume).
  assert (forall l x, In x (order1 l) <-> In x (order2 l)) as Same.
  { intros l x. rewrite (set_order_In order1 l x O1),
      (set_order_In order2 l x O2). reflexivity. }
  pose proof (degree_loop_by_elements (order1 RD) (order1 SD)
                (order2 RD) (order2 SD) (Same RD) (Same SD)) as D.
  pose proof (proj1 (degree_loop_matched (order1 RD) (order1 SD))) as M1.
  pose proof (proj2 (degree_loop_matched (order1 RD) (order1 SD))) as M1'.
  pose proof (proj1 (degree_loop_matched (order2 RD) (order2 SD))) as M2.
  pose proof (proj2 (degree_loop_matched (order2 RD) (order2 SD))) as M2'.
  assert (existsb (degree_hit (order1 SD)) (order1 RD)
          = existsb (degree_hit (order2 SD)) (order2 RD)) as HD.
  { apply existsb_by_elements; [apply Same|]. intros x _.
    apply existsb_by_elements; [apply Same|reflexivity]. }
  assert (existsb (field_hit (order1 SF)) (order1 RF)
          = existsb (field_hit (order2 SF)) (order2 RF)) as HF.
  { apply existsb_by_elements; [apply Same|]. intros x _.
    apply existsb_by_elements; [apply Same|reflexivity]. }
  pose proof (field_loop_test (order1 RF) (order1 SF)) as F1.
  pose proof (field_loop_test (order2 RF) (order2 SF)) as F2.
  pose proof (nil_by_elements _ _ (Same RF)) as NF.
  pose proof (nil_by_elements _ _ (Same RD)) as ND.
  destruct (degree_loop (order1 RD) (order1 SD)) as [d1 m1].
  destruct (degree_loop (order2 RD) (order2 SD)) as [d2 m2].
  destruct (field_loop (order1 RF) (order1 SF)) as [f1 n1].
  destruct (field_loop (order2 RF) (order2 SF)) as [f2 n2].
  cbn [fst snd ed_score ed_match_percentage degree_matched] in *.
  assert (f2 = f1) as EF by (rewrite F1, F2, HF; reflexivity).
  rewrite EF. clear F1 F2 EF.
  assert (match order1 RF with [] => 1.0 | _ => f1 end
          = match order2 RF with [] => 1.0 | _ => f1 end) as EFM.
  { destruct (order1 RF) as [|a l1]; destruct (order2 RF) as [|b l2];
      try reflexivity.
    - destruct NF as [NF _]. discriminate (NF eq_refl).
    - destruct NF as [_ NF]. discriminate (NF eq_refl). }
  rewrite EFM. split; [|split].
  - apply py_round_comp. rewrite D. reflexivity.
  - apply py_round_comp. rewrite D. reflexivity.
  - destruct (order1 RD) as [|a l1] eqn:E1;
      destruct (order2 RD) as [|b l2] eqn:E2; try reflexivity.
    + destruct ND as [ND _]. discriminate (ND eq_refl).
    + destruct ND as [_ ND]. discriminate (ND eq_refl).
    + destruct m1 as [|x1 m1]; destruct m2 as [|x2 m2]; try reflexivity.
      * rewrite <- HD, (M1 eq_refl) in M2'. discriminate (M2' eq_refl).
      * rewrite HD, (M2 eq_refl) in M1'. discriminate (M1' eq_refl).
Qed.

Lemma education_score_order_independent_witness :
  set_order first_seen /\ set_order first_seen_last
  /\ ed_score
       (calculate_education_match first_seen
          [MkEducationEntry (Some "MS in Statistics") None None;
           MkEducationEntry (Some "Bachelor") (Some "mathematics") None]
          (JobEduText "Master or PhD in data science or statistics")
          default_config)
     = ed_score
         (calculate_education_match first_seen_last
            [MkEducationEntry (Some "MS in Statistics") None None;
             MkEducationEntry (Some "Bachelor") (Some "mathematics") None]
            (JobEduText "Master or PhD in data science or statistics")
            default_config).
Proof.
  split; [exact ExtractorClaims.first_seen_order|].
  split; [exact ExtractorClaims.first_seen_last_order|].
  exact (proj1 (education_score_order_independent first_seen first_seen_last
           [MkEducationEntry (Some "MS in Statistics") None None;
            MkEducationEntry (Some "Bachelor") (Some "mathematics") None]
           (JobEduText "Master or PhD in data science or statistics")
           default_config ExtractorClaims.first_seen_order
           ExtractorClaims.first_seen_last_order)).
Defined.

(** *** The degrees the extractors return *)

Lemma requirement_degree_recognized (order : list string -> list string)
    (je : job_education) (x : string) :
  set_order order ->
  In x (extract_degree_requirements order je) -> recognized x.
Proof.
  intros O H. unfold extract_degree_requirements in H.
  apply (proj1 (set_order_In order _ x O)) in H.
  apply in_flat_map in H. destruct H as [req [_ H]].
  apply in_flat_map in H. destruct H as [[d ps] [I H]].
  destruct (existsb _ ps); [|destruct H].
  destruct H as [<-|[]]. unfold recognized.
  unfold degree_patterns in I.
  repeat (destruct I as [E|I]; [injection E as <- _; cbn; tauto|]).
  destruct I.
Qed.

Lemma resume_degree_recognized (order : list string -> list string)
    (resume : list education_entry) (x : string) :
  set_order order ->
  In x (extract_degrees_from_resume order resume) -> recognized x.
Proof.
  intros O H. unfold extract_degrees_from_resume in H.
  apply (proj1 (set_order_In order _ x O)) in H.
  apply in_flat_map in H. destruct H as [entry [_ H]].
  unfold degree_of_text in H. cbv zeta in H. unfold recognized.
  repeat match type of H with
         | In _ (if ?b then _ else _) => destruct b
         end;
    try (destruct H as [<-|[]]; cbn; tauto).
  destruct H.
Qed.

Lemma recognized_credit (c r : string) :
  recognized c -> recognized r ->
  Qgtb (calculate_degree_match_score c r) 0 = true.
Proof.
  unfold recognized. intros Hc Hr.
  each_degree Hc; each_degree Hr; vm_compute; reflexivity.
Qed.

(** X11. Any recognized degree on the resume counts as a match: with a
    requirement that names a degree, the degree-matched flag is false
    only when the resume names no degree at all, so a lower degree than
    the required one still sets it. *)
Theorem any_degree_counts_as_matched
    (set_iter : list string -> list string)
    (resume : list education_entry) (je : job_education) (cfg : config) :
  set_order set_iter ->
  job_education_truthy je = true ->
  (degree_matched (calculate_education_match set_iter resume je cfg) = false
   <-> extract_degree_requirements set_iter je <> []
       /\ extract_degrees_from_resume set_iter resume = []).
Proof.
  intros O T. unfold calculate_education_match. rewrite T. cbn [negb].
  cbv zeta.
  pose proof (degree_loop_matched (extract_degree_requirements set_iter je)
                (extract_degrees_from_resume set_iter resume)) as M.
  pose proof (requirement_degree_recognized set_iter je) as RR.
  pose proof (resume_degree_recognized set_iter resume) as RS.
  set (RD := extract_degree_requirements set_iter je) in *.
  set (SD := extract_degrees_from_resume set_iter resume) in *.
  destruct (degree_loop RD SD) as [d m].
  destruct (field_loop _ _) as [f n].
  cbn [degree_matched snd] in *.
  destruct RD as [|req RD'] eqn:ER.
  - split; [discriminate|]. intros [N _]. contradiction.
  - destruct SD as [|res SD'] eqn:ES.
    + assert (m = []) as -> by (apply M; cbn; clear; induction RD';
                                [reflexivity|assumption]).
      split; [|reflexivity]. intros _. split; [discriminate|reflexivity].
    + assert (m <> []) as N.
      { intro Z. apply M in Z. cbn [existsb degree_hit] in Z.
        rewrite (recognized_credit res req) in Z; [discriminate| |].
        - apply RS; [exact O|left; reflexivity].
        - apply RR; [exact O|left; reflexivity]. }
      destruct m; [contradiction|].
      split; [discriminate|]. intros [_ Z]. discriminate.
Qed.

Lemma any_degree_counts_as_matched_witness :
  set_order first_seen
  /\ job_education_truthy (JobEduText "Doctorate required") = true
  /\ degree_matched
       (calculate_education_match first_seen
          [MkEducationEntry (Some "Associate of Arts") None None]
          (JobEduText "Doctorate required") default_config) = true.
Proof.
  split; [exact ExtractorClaims.first_seen_order|].
  split; [reflexivity|].
  destruct (degree_matched
              (calculate_education_match first_seen
                 [MkEducationEntry (Some "Associate of Arts") None None]
                 (JobEduText "Doctorate required") default_config)) eqn:E;
    [reflexivity|].
  apply (proj1 (any_degree_counts_as_matched first_seen
                  [MkEducationEntry (Some "Associate of Arts") None None]
                  (JobEduText "Doctorate required") default_config
                  ExtractorClaims.first_seen_order eq_refl)) in E.
  destruct E as [_ E]. vm_compute in E. discriminate E.
Defined.

(** *** The similarity of two fields *)

Lemma dict_get_In {A} (d : list (string * A)) (k : string) (v : A) :
  dict_get d k = Some v -> In (k, v) d.
Proof.
  induction d as [|[k' w] d IH]; simpl; [discriminate|].
  destruct (String.eqb_spec k k') as [->|N].
  - intro E. injection E as ->. left. reflexivity.
  - intro E. right. apply IH, E.
Qed.

Lemma related_In (a b : string) (v : Q) :
  related a b = Some v -> In (a, b, v) related_triples.
Proof.
  unfold related, related_triples.
  destruct (dict_get related_fields a) as [row|] eqn:R; [|discriminate].
  intro E. apply dict_get_In in R. apply dict_get_In in E.
  apply in_flat_map. exists (a, row). split; [exact R|].
  apply in_map_iff. exists (b, v). split; [reflexivity|exact E].
Qed.

(** The table gives one value to a pair of fields, in whichever direction
    it lists the pair, and every value lies between 0.6 and 0.9. *)
Lemma related_triples_check :
  forallb
    (fun '(a, b, v) =>
       Qle_bool 0.6 v && Qle_bool v 0.9
       && implb (contains a b || contains b a) (Qle_bool 0.7 v)
       && forallb
            (fun '(c, d, w) =>
               implb (String.eqb a d && String.eqb b c) (Qeq_bool v w))
            related_triples)
    related_triples = true.
Proof. vm_compute. reflexivity. Qed.

Lemma related_range (a b : string) (v : Q) :
  related a b = Some v -> 0.6 <= v /\ v <= 0.9.
Proof.
  intro E. apply related_In in E.
  pose proof related_triples_check as C. rewrite forallb_forall in C.
  specialize (C _ E). cbv beta iota in C.
  apply andb_true_iff in C. destruct C as [C _].
  apply andb_true_iff in C. destruct C as [C _].
  apply andb_true_iff in C. destruct C as [C1 C2].
  apply Qle_bool_iff in C1. apply Qle_bool_iff in C2. split; assumption.
Qed.

Lemma related_contained (a b : string) (v : Q) :
  related a b = Some v -> contains a b || contains b a = true -> 0.7 <= v.
Proof.
  intros E K. apply related_In in E.
  pose proof related_triples_check as C. rewrite forallb_forall in C.
  specialize (C _ E). cbv beta iota in C.
  apply andb_true_iff in C. destruct C as [C _].
  apply andb_true_iff in C. destruct C as [_ C].
  rewrite K in C. apply Qle_bool_iff. exact C.
Qed.

Lemma related_coherent (a b : string) (v w : Q) :
  related a b = Some v -> related b a = Some w -> v == w.
Proof.
  intros E F. apply related_In in E. apply related_In in F.
  pose proof related_triples_check as C. rewrite forallb_forall in C.
  specialize (C _ E). cbv beta iota in C.
  apply andb_true_iff in C. destruct C as [_ C].
  rewrite forallb_forall in C. specialize (C _ F). cbv beta iota in C.
  rewrite !String.eqb_refl in C. cbn [andb implb] in C.
  apply Qeq_bool_iff. exact C.
Qed.

(** X12. The similarity of two fields is symmetric, lies between 0.2 and
    1, and is 1 for equal fields; fields of which one contains the other
    are similar to at least 0.7, the threshold of a field match. *)
Theorem field_similarity_symmetric_bounded (a b : string) :
  field_similarity a b == field_similarity b a
  /\ 0.2 <= field_similarity a b /\ field_similarity a b <= 1
  /\ field_similarity a a == 1
  /\ (contains a b || contains b a = true -> 0.7 <= field_similarity a b).
Proof.
  assert (forall x y, 0.2 <= field_similarity x y
                      /\ field_similarity x y <= 1
                      /\ (contains x y || contains y x = true ->
                          0.7 <= field_similarity x y))
    as Range.
  { intros x y. unfold field_similarity.
    destruct (String.eqb x y); [repeat split; intros; lra|].
    destruct (related y x) as [v|] eqn:R1.
    - destruct (related_range _ _ _ R1). repeat split; try lra.
      intro K. rewrite orb_comm in K. exact (related_contained _ _ _ R1 K).
    - destruct (related x y) as [v|] eqn:R2.
      + destruct (related_range _ _ _ R2). repeat split; try lra.
        intro K. exact (related_contained _ _ _ R2 K).
      + destruct (contains y x || contains x y) eqn:K.
        * repeat split; intros; lra.
        * repeat split; try lra. intro H. rewrite orb_comm, K in H.
          discriminate. }
  split; [|split; [apply Range|split; [apply Range|split; [|apply Range]]]].
  - unfold field_similarity. rewrite (String.eqb_sym b a).
    destruct (String.eqb a b); [reflexivity|].
    destruct (related b a) as [v|] eqn:R1;
      destruct (related a b) as [w|] eqn:R2; try reflexivity.
    + symmetry. exact (related_coherent a b w v R2 R1).
    + rewrite orb_comm. reflexivity.
  - unfold field_similarity. rewrite String.eqb_refl. reflexivity.
Qed.

Lemma field_similarity_symmetric_bounded_witness :
  contains "engineering" "chemical engineering"
  || contains "chemical engineering" "engineering" = true
  /\ 0.7 <= field_similarity "engineering" "chemical engineering".
Proof.
  assert (contains "engineering" "chemical engineering"
          || contains "chemical engineering" "engineering" = true) as H
    by reflexivity.
  split; [exact H|].
  exact (proj2 (proj2 (proj2 (proj2
           (field_similarity_symmetric_bounded "engineering"
              "chemical engineering")))) H).
Defined.

(** X13. A requirement text is searched for the degree words as plain
    substrings: a text that holds the letters "ma" or "ms" anywhere is
    read as asking for a master's degree, one that holds "ba" or "bs" as
    asking for a bachelor's, and one that holds "aa" as asking for an
    associate's; and only the four degree names are ever returned. *)
Theorem degree_words_match_inside_words
    (set_iter : list string -> list string) (req : string) :
  set_order set_iter ->
  let found := extract_degree_requirements set_iter (JobEduText req) in
  (contains "ma" (lower req) = true \/ contains "ms" (lower req) = true ->
   In "master" found)
  /\ (contains "ba" (lower req) = true \/ contains "bs" (lower req) = true ->
      In "bachelor" found)
  /\ (contains "aa" (lower req) = true -> In "associate" found)
  /\ (forall d, In d found -> recognized d).
Proof.
  intros O found. subst found.
  assert (forall d ps p,
            In (d, ps) degree_patterns -> In p ps ->
            contains p (lower req) = true ->
            In d (extract_degree_requirements set_iter (JobEduText req)))
    as Hit.
  { intros d ps p I J C. unfold extract_degree_requirements.
    apply (proj2 (set_order_In set_iter _ d O)).
    cbn [requirement_texts flat_map]. rewrite app_nil_r.
    apply in_flat_map. exists (d, ps). split; [exact I|].
    assert (existsb (fun pattern => contains pattern (lower req)) ps = true)
      as E.
    { apply existsb_exists. exists p. split; assumption. }
    rewrite E. left. reflexivity. }
  split; [|split; [|split]].
  - intros [C|C].
    + eapply (Hit "master" _ "ma"); [right; left; reflexivity| |exact C].
      cbn. tauto.
    + eapply (Hit "master" _ "ms"); [right; left; reflexivity| |exact C].
      cbn. tauto.
  - intros [C|C].
    + eapply (Hit "bachelor" _ "ba"); [left; reflexivity| |exact C].
      cbn. tauto.
    + eapply (Hit "bachelor" _ "bs"); [left; reflexivity| |exact C].
      cbn. tauto.
  - intros C.
    eapply (Hit "associate" _ "aa");
      [right; right; right; left; reflexivity| |exact C].
    cbn. tauto.
  - intros d H. exact (requirement_degree_recognized set_iter _ d O H).
Qed.

Lemma degree_words_match_inside_words_witness :
  set_order first_seen
  /\ (contains "ma" (lower "Experience with database management") = true
      \/ contains "ms" (lower "Experience with database management") = true)
  /\ In "master"
       (extract_degree_requirements first_seen
          (JobEduText "Experience with database management")).
Proof.
  assert (contains "ma" (lower "Experience with database management") = true
          \/ contains "ms" (lower "Experience with database management")
             = true) as H by (left; reflexivity).
  split; [exact ExtractorClaims.first_seen_order|]. split; [exact H|].
  exact (proj1 (degree_words_match_inside_words first_seen
                  "Experience with database management"
                  ExtractorClaims.first_seen_order) H).
Defined.

End EducationExtras.

(** ** The keyword density *)

Module DensityExtras.

Import PyStr PyNum Inputs PyNumFacts PyStrFacts ListFacts Matcher.
Import ScoreBounds.
Local Open Scope Q_scope.

Lemma py_round_le_Z (n : nat) (x : Q) (k : Z) :
  x <= inject_Z k -> py_round n x <= inject_Z k.
Proof.
  intro H. rewrite py_round_digit.
  pose proof (scale_pos_Q n) as Ps.
  set (s := (10 ^ Z.of_nat n)%Z) in *.
  assert (round_digit (x * inject_Z s) <= k * s)%Z as D.
  { apply round_digit_upper. rewrite inject_Z_mult. nra. }
  apply Qle_shift_div_r; [exact Ps|].
  rewrite Zle_Qle, inject_Z_mult in D. exact D.
Qed.

(** The keys of a dictionary. *)
Lemma dict_set_keys {A} (d : list (string * A)) (k : string) (v : A) :
  map fst (dict_set d k v)
  = if existsb (String.eqb k) (map fst d) then map fst d
    else (map fst d ++ [k])%list.
Proof.
  induction d as [|[k' w] d IH]; [reflexivity|].
  cbn [dict_set map fst existsb].
  destruct (String.eqb k k') eqn:E; cbn [orb map fst]; [reflexivity|].
  rewrite IH. destruct (existsb _ _); reflexivity.
Qed.

Lemma dict_set_In {A} (d : list (string * A)) (k : string) (v : A)
    (k' : string) (w : A) :
  In (k', w) (dict_set d k v) -> (k' = k /\ w = v) \/ In (k', w) d.
Proof.
  induction d as [|[k0 w0] d IH]; cbn [dict_set].
  - intros [E|[]]. injection E as <- <-. left. split; reflexivity.
  - destruct (String.eqb_spec k k0) as [->|N].
    + intros [E|I]; [|right; right; exact I].
      injection E as <- <-. left. split; reflexivity.
    + intros [E|I]; [right; left; exact E|].
      destruct (IH I) as [L|R]; [left; exact L|right; right; exact R].
Qed.

Lemma dict_set_NoDup {A} (d : list (string * A)) (k : string) (v : A) :
  NoDup (map fst d) -> NoDup (map fst (dict_set d k v)).
Proof.
  intro N. rewrite dict_set_keys.
  destruct (existsb (String.eqb k) (map fst d)) eqn:E; [exact N|].
  apply NoDup_app; [exact N|constructor; [intros []|constructor]|].
  intros x I [X|[]]. subst x.
  assert (existsb (String.eqb k) (map fst d) = true) as T.
  { apply existsb_exists. exists k. split; [exact I|apply String.eqb_refl]. }
  congruence.
Qed.

(** X14. The keyword counts form a proper dictionary: no keyword is
    listed twice, every listed keyword is a job keyword that occurs in
    the resume as a whole word, and its count is its number of
    occurrences, at least 1. *)
Theorem keyword_count_entries (resume_text : string)
    (job_keywords : list string) :
  let d := count_keywords resume_text job_keywords in
  NoDup (map fst d)
  /\ (forall k n,
        In (k, n) d ->
        In k job_keywords
        /\ n = Re.count (keyword_re k) (lower resume_text)
        /\ (1 <= n)%nat).
Proof.
  unfold count_keywords.
  set (step := fun keyword_count keyword => _).
  assert (forall kws d0,
            (NoDup (map fst d0)
             /\ forall k n, In (k, n) d0 ->
                  In k job_keywords
                  /\ n = Re.count (keyword_re k) (lower resume_text)
                  /\ (1 <= n)%nat) ->
            incl kws job_keywords ->
            NoDup (map fst (fold_left step kws d0))
            /\ forall k n, In (k, n) (fold_left step kws d0) ->
                 In k job_keywords
                 /\ n = Re.count (keyword_re k) (lower resume_text)
                 /\ (1 <= n)%nat) as G.
  { induction kws as [|kw kws IH]; intros d0 [N P] I; [split; assumption|].
    cbn [fold_left]. apply IH; [|intros x H; apply I; right; exact H].
    subst step. cbv beta.
    destruct (Re.count (keyword_re kw) (lower resume_text)) as [|c] eqn:C;
      [split; assumption|].
    split; [apply dict_set_NoDup; exact N|].
    intros k n H. apply dict_set_In in H. destruct H as [[-> ->]|H].
    - split; [apply I; left; reflexivity|]. split; [symmetry; exact C|lia].
    - apply P, H. }
  apply G; [|intros x H; exact H].
  split; [constructor|intros k n []].
Qed.

(** X15. The keyword-density report stays in range for every text and
    every list of keywords: the score lies between 0 and 1, the density
    is not negative and the distribution lies between 0 and 100; an empty
    text or an empty list of keywords gives the all-zero report. *)
Theorem keyword_density_in_range (resume_text : string)
    (job_keywords : list string) :
  let r := calculate_keyword_density resume_text job_keywords in
  unit_interval (kd_score r)
  /\ 0 <= density r
  /\ 0 <= distribution r /\ distribution r <= 100
  /\ (resume_text = "" \/ job_keywords = [] ->
      r = MkDensityReport 0 [] 0 0).
Proof.
  intro r. subst r. split; [apply keyword_density_score_unit|].
  unfold calculate_keyword_density.
  destruct (negb (truthy resume_text)
            || match job_keywords with [] => true | _ => false end) eqn:E.
  { cbn. repeat split; try lra; try discriminate. }
  destruct (Re.count word_re (lower resume_text)) as [|w] eqn:W.
  { cbn. repeat split; try lra; try discriminate. }
  cbv zeta. cbn [density distribution].
  set (sections := Re.split blank_line_re resume_text).
  assert (unit_interval
            match sections with
            | [] => 0
            | _ => of_nat (List.length (filter (has_keyword job_keywords)
                                          sections)) / len sections
            end) as [S0 S1].
  { destruct sections as [|s ss] eqn:ES; [split; lra|].
    apply ratio_unit.
    - apply of_nat_nonneg.
    - unfold of_nat, len. rewrite <- Zle_Qle.
      apply Nat2Z.inj_le, filter_length_le.
    - apply len_pos. discriminate. }
  split; [|split; [|split]].
  - apply py_round_nonneg.
    assert (0 <= of_nat (sum_values (count_keywords resume_text job_keywords))
                 / of_nat (S w)).
    { apply ratio_nonneg; [apply of_nat_nonneg|].
      unfold of_nat. change 0 with (inject_Z 0). rewrite <- Zlt_Qlt. lia. }
    lra.
  - apply py_round_nonneg. lra.
  - apply (py_round_le_Z 2 _ 100). change (inject_Z 100) with 100. lra.
  - intros [->| ->]; [discriminate E|].
    rewrite orb_true_r in E. discriminate.
Qed.

Lemma keyword_density_in_range_witness :
  ("" = "" \/ ["python"] = [])
  /\ calculate_keyword_density "" ["python"] = MkDensityReport 0 [] 0 0.
Proof.
  assert ("" = "" \/ ["python"] = []) as H by (left; reflexivity).
  split; [exact H|].
  pose proof (keyword_density_in_range "" ["python"]) as K.
  cbv zeta in K. exact (proj2 (proj2 (proj2 (proj2 K))) H).
Defined.

End DensityExtras.

(** ** The legacy score and the report *)

Module LegacyExtras.

Import PyStr PyNum Inputs PyNumFacts PyStrFacts ListFacts Matcher.
Import ScoreBounds TextAnalysis.
Local Open Scope Q_scope.

Lemma lower_set_In (skills : list string) (x : string) :
  In x (lower_set skills) <-> exists s, In s skills /\ lower s = x.
Proof.
  unfold lower_set. rewrite nodup_In, in_map_iff.
  split; intros [s [A B]]; exists s; tauto.
Qed.

Lemma filter_full_length {A} (f : A -> bool) (l : list A) :
  List.length (filter f l) = List.length l ->
  forall x, In x l -> f x = true.
Proof.
  induction l as [|y l IH]; intros E x I; [destruct I|].
  cbn [filter] in E. destruct (f y) eqn:F.
  - cbn [List.length] in E. destruct I as [<-|I]; [exact F|].
    apply IH; [lia|exact I].
  - pose proof (filter_length_le f l). cbn [List.length] in E. lia.
Qed.

(** X16. The legacy skill score lies between 0 and 1, and for a job that
    lists skills it is 1 exactly when every job skill is among the resume
    skills, case ignored. *)
Theorem legacy_score_range_and_full (job_skills resume_skills : list string) :
  unit_interval (calculate_skill_match_score job_skills resume_skills)
  /\ (job_skills <> [] ->
      (calculate_skill_match_score job_skills resume_skills == 1
       <-> forall s, In s job_skills ->
             exists r, In r resume_skills /\ lower r = lower s)).
Proof.
  unfold calculate_skill_match_score.
  destruct job_skills as [|j js]; [split; [split; lra|]; contradiction|].
  set (job := j :: js).
  set (J := lower_set job). set (R := lower_set resume_skills).
  assert (J <> []) as NJ.
  { intro E. assert (In (lower j) J) as I.
    { apply lower_set_In. exists j. split; [left|]; reflexivity. }
    rewrite E in I. destruct I. }
  assert (0 < len J) as PJ by (apply len_pos; exact NJ).
  assert (len (intersection J R) <= len J) as LE
    by (apply len_le, filter_length_le).
  split.
  - apply ratio_unit; [apply len_nonneg|exact LE|exact PJ].
  - intros _. split.
    + intros E s I.
      assert (len (intersection J R) == len J) as EQ.
      { assert (len (intersection J R)
                == len (intersection J R) / len J * len J) as X
          by (field; lra).
        rewrite X, E. ring. }
      unfold len in EQ. rewrite inject_Z_injective in EQ.
      apply Nat2Z.inj in EQ.
      assert (mem (lower s) R = true) as M.
      { apply (filter_full_length _ J EQ). apply lower_set_In.
        exists s. split; [exact I|reflexivity]. }
      apply mem_In, lower_set_In in M. exact M.
    + intros H.
      assert (intersection J R = J) as EQ.
      { apply SkillExtras.filter_all. intros x I. apply lower_set_In in I.
        destruct I as [s [I <-]]. apply mem_In, lower_set_In.
        destruct (H s I) as [r [A B]]. exists r. split; assumption. }
      rewrite EQ. field. lra.
Qed.

Lemma legacy_score_range_and_full_witness :
  ["Python"; "SQL"; "python"] <> []
  /\ (calculate_skill_match_score ["Python"; "SQL"; "python"]
        ["sql"; "PYTHON"; "git"] == 1
      <-> forall s, In s ["Python"; "SQL"; "python"] ->
            exists r, In r ["sql"; "PYTHON"; "git"] /\ lower r = lower s).
Proof.
  assert (["Python"; "SQL"; "python"] <> []) as N by discriminate.
  split; [exact N|].
  exact (proj2 (legacy_score_range_and_full ["Python"; "SQL"; "python"]
                  ["sql"; "PYTHON"; "git"]) N).
Defined.

End LegacyExtras.

Module ReportExtras.

Import PyStr PyNum Inputs PyNumFacts PyStrFacts ListFacts Matcher.
Import ScoreBounds.
Local Open Scope Q_scope.


End ReportExtras.

(** ** The skill extractor of the job description *)

Module WordFacts.

Import PyStr PyNum Inputs Words PyStrFacts ReFacts Matcher JobDescription.

(** A literal pattern matches exactly when the text starts with the
    literal, and hands over what follows it. *)
Lemma run_lit {R} (s : string) (prev : option ascii) (t : string)
    (caps : Re.captures) (k : Re.cont R) :
  Re.run (Re.lit false s) prev t caps k
  = if starts_with s t
    then k (last_of prev s) (Re.drop (String.length s) t) caps
    else None.
Proof.
  revert prev t. induction s as [|c s IH]; intros prev t.
  - destruct t; reflexivity.
  - destruct t as [|c' t]; [reflexivity|].
    cbn [Re.lit Re.run Re.char starts_with last_of String.length Re.drop].
    destruct (Ascii.eqb c c') eqn:E; cbn [andb]; [|reflexivity].
    apply Ascii.eqb_eq in E. subst c'. apply IH.
Qed.

Lemma drop_append (a b : string) : Re.drop (String.length a) (a ++ b) = b.
Proof. induction a as [|c a IH]; [destruct b; reflexivity|exact IH]. Qed.

Lemma starts_with_append (a b : string) : starts_with a (a ++ b) = true.
Proof. apply starts_with_prefix. exists b. reflexivity. Qed.

Lemma starts_with_drop (s t : string) :
  starts_with s t = true -> t = s ++ Re.drop (String.length s) t.
Proof.
  intro H. apply starts_with_prefix in H. destruct H as [b ->].
  rewrite drop_append. reflexivity.
Qed.

(** [\bs\b] at one position. *)
Lemma match_at_word (s : string) (prev : option ascii) (t : string)
    (pos : nat) :
  (exists m, Re.match_at (Re.seq [Re.Bnd; Re.lit false s; Re.Bnd]) false
               prev t pos = Some m)
  <-> exists b, t = s ++ b /\ whole_word_at prev s "" b = true.
Proof.
  unfold Re.match_at, whole_word_at. cbn [Re.seq fold_right Re.run last_of].
  rewrite run_lit. cbn [Re.run andb].
  destruct (Re.at_boundary prev t) eqn:B1.
  - destruct (starts_with s t) eqn:S.
    + pose proof (starts_with_drop s t S) as E.
      destruct (Re.at_boundary (last_of prev s)
                  (Re.drop (String.length s) t)) eqn:B2.
      * split; [intros _|intros _; eexists; reflexivity].
        exists (Re.drop (String.length s) t). split; [exact E|].
        rewrite <- E, B1, B2. reflexivity.
      * split; [intros [m H]; discriminate|].
        intros [b [-> H]]. rewrite drop_append in B2.
        rewrite B2, andb_false_r in H. discriminate.
    + split; [intros [m H]; discriminate|].
      intros [b [-> _]]. rewrite starts_with_append in S. discriminate.
  - split; [intros [m H]; discriminate|].
    intros [b [-> H]]. rewrite B1 in H. discriminate.
Qed.

Lemma search_from_word (s : string) (prev : option ascii) (t : string)
    (pos : nat) :
  (exists m, Re.search_from (Re.seq [Re.Bnd; Re.lit false s; Re.Bnd]) prev
               t pos = Some m)
  <-> exists a b, t = a ++ s ++ b /\ whole_word_at prev s a b = true.
Proof.
  revert prev pos. induction t as [|c t IH]; intros prev pos;
    cbn [Re.search_from].
  - destruct (Re.match_at _ false prev "" pos) as [m|] eqn:M.
    + split; [intros _|intros _; eexists; reflexivity].
      destruct (proj1 (match_at_word s prev "" pos)) as [b [E W]];
        [eexists; exact M|].
      exists "", b. split; assumption.
    + split; [intros [m H]; discriminate|].
      intros [a [b [E W]]]. destruct a; [|discriminate].
      destruct (proj2 (match_at_word s prev "" pos)) as [m H];
        [exists b; split; assumption|]. congruence.
  - destruct (Re.match_at _ false prev (String c t) pos) as [m|] eqn:M.
    + split; [intros _|intros _; eexists; reflexivity].
      destruct (proj1 (match_at_word s prev (String c t) pos)) as [b [E W]];
        [eexists; exact M|].
      exists "", b. split; assumption.
    + rewrite IH. split.
      * intros [a [b [E W]]]. exists (String c a), b.
        split; [cbn; rewrite E; reflexivity|exact W].
      * intros [a [b [E W]]]. destruct a as [|c' a].
        -- destruct (proj2 (match_at_word s prev (String c t) pos))
             as [m H]; [exists b; split; assumption|]. congruence.
        -- cbn in E. injection E as -> E. exists a, b.
           split; [exact E|exact W].
Qed.

(** [re.search(r'\b' + re.escape(s) + r'\b', t)] succeeds exactly when
    [s] stands in [t] as a whole word. *)
Lemma matches_word (s t : string) :
  Re.matches (Re.seq [Re.Bnd; Re.lit false s; Re.Bnd]) t = true
  <-> exists a b, t = a ++ s ++ b /\ whole_word_at None s a b = true.
Proof.
  unfold Re.matches, Re.search. rewrite <- search_from_word with (pos := 0%nat).
  destruct (Re.search_from _ None t 0) as [m|].
  - split; [intros _; eexists; reflexivity|reflexivity].
  - split; [discriminate|intros [m H]; discriminate].
Qed.

Lemma last_of_append (prev : option ascii) (a b : string) :
  last_of prev (a ++ b) = last_of (last_of prev a) b.
Proof. revert prev. induction a as [|c a IH]; intros prev; [reflexivity|apply IH]. Qed.

End WordFacts.

Module ExtractorExtras.

Import PyStr PyNum Inputs Words PyStrFacts ReFacts Matcher JobDescription.
Import WordFacts.

(** The terms of the extractor, as whole words of the text. *)
Lemma extract_skills_word (set_iter : list string -> list string)
    (text s : string) :
  set_order set_iter ->
  (In s (extract_skills set_iter text) <->
   In s COMMON_TECH_SKILLS
   /\ exists a b, lower text = a ++ s ++ b
                  /\ whole_word_at None s a b = true).
Proof.
  intro O. rewrite (ExtractorClaims.extract_skills_In set_iter text s O).
  unfold skill_re. rewrite matches_word. reflexivity.
Qed.

(** X18. extract_skills returns exactly the vocabulary terms that stand
    in the lower-cased text as whole words (a word boundary before the
    term and one after it); every returned term is contained in the
    lower-cased text. *)
Theorem extracted_skill_is_whole_word
    (set_iter : list string -> list string) (text s : string) :
  set_order set_iter ->
  (In s (extract_skills set_iter text) <->
   In s COMMON_TECH_SKILLS
   /\ exists a b, lower text = a ++ s ++ b
                  /\ whole_word_at None s a b = true)
  /\ (In s (extract_skills set_iter text) ->
      contains s (lower text) = true).
Proof.
  intro O. split; [exact (extract_skills_word set_iter text s O)|].
  intro H. apply (proj1 (extract_skills_word set_iter text s O)) in H.
  destruct H as [_ [a [b [E _]]]].
  apply contains_substring. exists a, b. exact E.
Qed.

Lemma extracted_skill_is_whole_word_witness :
  set_order first_seen
  /\ (In "java" (extract_skills first_seen "Java, not JavaScript") ->
      contains "java" (lower "Java, not JavaScript") = true).
Proof.
  split; [exact ExtractorClaims.first_seen_order|].
  exact (proj2 (extracted_skill_is_whole_word first_seen
                  "Java, not JavaScript" "java"
                  ExtractorClaims.first_seen_order)).
Defined.

(** X19. The terms that end in a sign, "c++" and "c#", are found only
    when a letter, a digit or an underscore follows them directly: the
    word boundary asked for after the sign cannot hold before a space,
    a punctuation mark or the end of the text. *)
Theorem sign_terms_need_a_word_character
    (set_iter : list string -> list string) (text s : string) :
  set_order set_iter ->
  s = "c++" \/ s = "c#" ->
  In s (extract_skills set_iter text) ->
  exists a w b, lower text = a ++ s ++ String w b /\ is_word w = true.
Proof.
  intros O S H.
  apply (proj1 (extract_skills_word set_iter text s O)) in H.
  destruct H as [_ [a [b [E W]]]].
  unfold whole_word_at in W. apply andb_true_iff in W.
  destruct W as [_ W].
  assert (last_of (last_of None a) s = Some "+"%char
          \/ last_of (last_of None a) s = Some "#"%char) as L
    by (destruct S as [-> | ->]; [left|right]; reflexivity).
  assert (Re.is_word_opt (last_of (last_of None a) s) = false) as NW
    by (destruct L as [-> | ->]; reflexivity).
  unfold Re.at_boundary in W. rewrite NW in W. cbn [xorb] in W.
  destruct b as [|w b]; [discriminate W|].
  exists a, w, b. split; [exact E|exact W].
Qed.

Lemma sign_terms_need_a_word_character_witness :
  set_order first_seen
  /\ ("c++" = "c++" \/ "c++" = "c#")
  /\ In "c++" (extract_skills first_seen "Modern C++17 and SQL")
  /\ exists a w b,
       lower "Modern C++17 and SQL" = a ++ "c++" ++ String w b
       /\ is_word w = true.
Proof.
  assert ("c++" = "c++" \/ "c++" = "c#") as S by (left; reflexivity).
  assert (In "c++" (extract_skills first_seen "Modern C++17 and SQL")) as H
    by (vm_compute; left; reflexivity).
  split; [exact ExtractorClaims.first_seen_order|].
  split; [exact S|]. split; [exact H|].
  exact (sign_terms_need_a_word_character first_seen "Modern C++17 and SQL"
           "c++" ExtractorClaims.first_seen_order S H).
Defined.

End ExtractorExtras.

(** ** The priority skills of the job description *)

Module PrioritySamples.
Import PyStr JobDescription Priority.

Example count_samples :
  count "aa" "aaaaa" = 2%nat /\ count "" "abc" = 4%nat
  /\ count "ab" "xabyab" = 2%nat /\ count "abc" "ab" = 0%nat.
Proof. repeat split. Qed.

Example find_samples :
  find "b" "abcabc" 0 = 1%Z /\ find "b" "abcabc" 2 = 4%Z
  /\ find "z" "abc" 0 = (-1)%Z /\ find "" "abc" 4 = (-1)%Z
  /\ find "" "abc" 3 = 3%Z /\ slice "abcdef" 2 4 = "cd"
  /\ slice "abcdef" (-1) 6 = "f" /\ slice "abcdef" 4 2 = "".
Proof. repeat split. Qed.

Example priority_samples :
  extract_priority_skills
    "We build things.

Nice to have: sql. Must have strong python. Also *java* and RUST or go."
    ["python"; "sql"; "java"; "rust"; "go"]
  = ["python"; "java"; "rust"].
Proof. vm_compute. reflexivity. Qed.

End PrioritySamples.

Module PriorityExtras.

Import PyStr PyNum Inputs Words PyStrFacts ReFacts Matcher JobDescription.
Import WordFacts Priority.

Lemma mem_spec (x : string) (l : list string) :
  mem x l = true <-> In x l.
Proof.
  unfold mem. rewrite existsb_exists. split.
  - intros [y [I E]]. apply String.eqb_eq in E. subst y. exact I.
  - intro I. exists x. split; [exact I|apply String.eqb_refl].
Qed.

(** The loop that removes the duplicates, from any start. *)
Lemma unique_loop (l acc : list string) :
  NoDup acc ->
  let r :=
    fold_left
      (fun unique_priority_skills skill =>
         if mem skill unique_priority_skills then unique_priority_skills
         else (unique_priority_skills ++ [skill])%list) l acc in
  NoDup r /\ forall x, In x r <-> In x acc \/ In x l.
Proof.
  revert acc. induction l as [|a l IH]; intros acc N; cbn [fold_left].
  - split; [exact N|]. intro x. cbn [In]. tauto.
  - destruct (mem a acc) eqn:M.
    + destruct (IH acc N) as [N' I']. split; [exact N'|].
      intro x. rewrite I'. cbn [In]. apply mem_spec in M.
      split; [tauto|]. intros [H|[H|H]]; [tauto| |tauto].
      subst x. left. exact M.
    + assert (NoDup (acc ++ [a])%list) as N1.
      { apply NoDup_app; [exact N|repeat constructor; intros []|].
        intros x Ix [E|[]]. subst x.
        apply mem_spec in Ix. rewrite Ix in M. discriminate M. }
      destruct (IH (acc ++ [a])%list N1) as [N' I']. split; [exact N'|].
      intro x. rewrite I', in_app_iff. cbn [In]. tauto.
Qed.

Lemma unique_spec (l : list string) :
  NoDup (unique l) /\ forall x, In x (unique l) <-> In x l.
Proof.
  destruct (unique_loop l [] (NoDup_nil _)) as [N I].
  split; [exact N|]. intro x. unfold unique. rewrite (I x).
  cbn [In]. tauto.
Qed.



(** X20. The priority skills are skills of the list given, each one
    named once, and a skill is among them exactly when one of the tests
    of the loop holds for it: what the extractor returns meets what the
    matcher expects of the priority skills of a job. *)
Theorem priority_skills_distinct_subset (text : string)
    (skills : list string) :
  let priority_skills := extract_priority_skills text skills in
  NoDup priority_skills
  /\ incl priority_skills skills
  /\ forall skill,
       In skill priority_skills
       <-> In skill skills /\ is_priority text skill = true.
Proof.
  cbv zeta.
  assert (forall skill,
             In skill (extract_priority_skills text skills)
             <-> In skill skills /\ is_priority text skill = true) as M.
  { intro skill. unfold extract_priority_skills.
    destruct skills as [|s0 rest]; [cbn [In]; tauto|].
    rewrite (proj2 (unique_spec _)). apply filter_In. }
  split; [|split; [|exact M]].
  - unfold extract_priority_skills.
    destruct skills as [|s0 rest]; [constructor|].
    exact (proj1 (unique_spec _)).
  - intros x I. exact (proj1 (proj1 (M x) I)).
Qed.









End PriorityExtras.

(** ** The legacy skill extractor *)

Module TextSkillsSamples.
Import TextSkills.

Example preprocess_samples :
  preprocess_text "  Hello,   World!
 C++ & Node.js  " = "hello world c nodejs"
  /\ preprocess_text "Python,Java" = "pythonjava"
  /\ preprocess_text "   " = ""
  /\ extract_skills "PHP, Python and scikit-learn; Node.js" None
     = ["python"; "php"; "php"]
  /\ extract_skills "Fortran and R" (Some ["Fortran"]) = ["r"; "fortran"].
Proof. vm_compute. repeat split. Qed.

End TextSkillsSamples.

Module TextSkillsExtras.

Import PyStr PyNum Inputs Words PyStrFacts ReFacts JobDescription.
Import WordFacts TextSkills.

Lemma no_punctuation_app (a b : string) :
  no_punctuation (a ++ b) = no_punctuation a && no_punctuation b.
Proof.
  induction a as [|c a IH]; [reflexivity|].
  cbn [append no_punctuation]. rewrite IH. apply andb_assoc.
Qed.

Lemma no_punctuation_drop (n : nat) (s : string) :
  no_punctuation s = true -> no_punctuation (Re.drop n s) = true.
Proof.
  revert s. induction n as [|n IH]; intros s H.
  - destruct s; exact H.
  - destruct s as [|c s]; [exact H|]. cbn [Re.drop]. apply IH.
    cbn [no_punctuation] in H. apply andb_true_iff in H. exact (proj2 H).
Qed.

Lemma no_punctuation_take (n : nat) (s : string) :
  no_punctuation s = true -> no_punctuation (Re.take n s) = true.
Proof.
  revert s. induction n as [|n IH]; intros s H.
  - destruct s; reflexivity.
  - destruct s as [|c s]; [reflexivity|]. cbn [Re.take no_punctuation].
    cbn [no_punctuation] in H. apply andb_true_iff in H.
    destruct H as [H1 H2]. rewrite H1. exact (IH s H2).
Qed.

Lemma remove_punctuation_clean (s : string) :
  no_punctuation (remove_punctuation s) = true.
Proof.
  induction s as [|c s IH]; [reflexivity|]. cbn [remove_punctuation].
  destruct (is_punctuation c) eqn:P; [exact IH|].
  cbn [no_punctuation]. rewrite P, IH. reflexivity.
Qed.

(** A substitution brings in only the characters of the replacement. *)
Lemma sub_at_clean (ms : list Re.match_obj) (repl s : string) (from : nat) :
  no_punctuation repl = true -> no_punctuation s = true ->
  no_punctuation (sub_at ms repl s from) = true.
Proof.
  intros R H. revert from. induction ms as [|m ms IH]; intro from.
  - exact (no_punctuation_drop from s H).
  - cbn [sub_at]. rewrite !no_punctuation_app, R, IH.
    rewrite (no_punctuation_take _ _ (no_punctuation_drop from s H)).
    reflexivity.
Qed.

Lemma lstrip_clean (s : string) :
  no_punctuation s = true -> no_punctuation (lstrip s) = true.
Proof.
  induction s as [|c s IH]; intro H; [reflexivity|]. cbn [lstrip].
  destruct (is_space c); [|exact H]. apply IH.
  cbn [no_punctuation] in H. apply andb_true_iff in H. exact (proj2 H).
Qed.

Lemma rstrip_clean (s : string) :
  no_punctuation s = true -> no_punctuation (rstrip s) = true.
Proof.
  induction s as [|c s IH]; intro H; [reflexivity|]. cbn [rstrip].
  cbn [no_punctuation] in H. apply andb_true_iff in H.
  destruct H as [H1 H2]. specialize (IH H2).
  destruct (rstrip s) as [|d r].
  - destruct (is_space c); [reflexivity|].
    cbn [no_punctuation]. rewrite H1. reflexivity.
  - change (negb (is_punctuation c) && no_punctuation (String d r) = true).
    rewrite H1, IH. reflexivity.
Qed.

(** The preprocessed text holds no punctuation mark. *)
Lemma preprocess_text_clean (text : string) :
  no_punctuation (preprocess_text text) = true.
Proof.
  unfold preprocess_text, strip, sub. cbv zeta.
  apply rstrip_clean, lstrip_clean, sub_at_clean; [reflexivity|].
  apply remove_punctuation_clean.
Qed.

Lemma extract_skills_found (text : string)
    (custom_skills : option (list string)) (s : string) :
  In s (extract_skills text custom_skills) <->
  In s (map lower (skills_to_search custom_skills))
  /\ Re.matches (skill_re s) (preprocess_text text) = true.
Proof. exact (filter_In _ s _). Qed.

(** X22. The legacy extractor never returns a term that holds a
    punctuation mark, since the text is searched after its punctuation
    has been removed: the terms "c++", "c#", "node.js", "asp.net",
    "next.js" and "scikit-learn" of its vocabulary are found in no
    text. *)
Theorem legacy_skills_hold_no_punctuation (text : string)
    (custom_skills : option (list string)) :
  Forall (fun s => no_punctuation s = true)
    (extract_skills text custom_skills)
  /\ forall s,
       In s ["c++"; "c#"; "node.js"; "asp.net"; "next.js"; "scikit-learn"]
       -> In s ALL_SKILLS /\ ~ In s (extract_skills text custom_skills).
Proof.
  assert (forall s, In s (extract_skills text custom_skills) ->
                    no_punctuation s = true) as C.
  { intros s I.
    apply (proj1 (extract_skills_found text custom_skills s)) in I.
    destruct I as [_ M]. unfold skill_re in M.
    apply (proj1 (matches_word s (preprocess_text text))) in M.
    destruct M as [a [b [E _]]].
    pose proof (preprocess_text_clean text) as P.
    rewrite E, !no_punctuation_app in P.
    apply andb_true_iff in P. destruct P as [_ P].
    apply andb_true_iff in P. exact (proj1 P). }
  split; [apply Forall_forall; exact C|].
  intros s I. split.
  - repeat (destruct I as [<-|I]; [vm_compute; tauto|]). destruct I.
  - intro F. apply C in F.
    repeat (destruct I as [<-|I]; [discriminate F|]). destruct I.
Qed.

Lemma count_occ_filter (f : string -> bool) (l : list string) (s : string) :
  count_occ string_dec (filter f l) s
  = if f s then count_occ string_dec l s else 0%nat.
Proof.
  induction l as [|x l IH]; [destruct (f s); reflexivity|].
  cbn [filter]. destruct (f x) eqn:Fx.
  - cbn [count_occ]. destruct (string_dec x s) as [->|N].
    + rewrite IH, Fx. reflexivity.
    + rewrite IH. reflexivity.
  - rewrite IH. cbn [count_occ]. destruct (string_dec x s) as [->|N].
    + rewrite Fx. reflexivity.
    + reflexivity.
Qed.

Lemma skills_to_search_vocabulary (custom_skills : option (list string)) :
  exists more, skills_to_search custom_skills = (ALL_SKILLS ++ more)%list.
Proof.
  destruct custom_skills as [[|c l]|].
  - exists []. symmetry. apply app_nil_r.
  - exists (map lower (c :: l)). reflexivity.
  - exists []. symmetry. apply app_nil_r.
Qed.

(** X23. The vocabulary of the legacy extractor names "php" and
    "firebase" in two categories each, and the result keeps every
    entry: a text in which one of them is found yields it at least
    twice. *)
Theorem legacy_result_repeats_terms (text : string)
    (custom_skills : option (list string)) (s : string) :
  In s ["php"; "firebase"] ->
  In s (extract_skills text custom_skills) ->
  (2 <= count_occ string_dec (extract_skills text custom_skills) s)%nat.
Proof.
  intros V I.
  apply (proj1 (extract_skills_found text custom_skills s)) in I.
  destruct I as [_ M]. unfold extract_skills. cbv zeta.
  rewrite count_occ_filter, M.
  destruct (skills_to_search_vocabulary custom_skills) as [more ->].
  rewrite map_app, count_occ_app.
  assert (count_occ string_dec (map lower ALL_SKILLS) s = 2%nat) as ->.
  { destruct V as [<-|[<-|[]]]; vm_compute; reflexivity. }
  lia.
Qed.

Lemma legacy_result_repeats_terms_witness :
  In "php" ["php"; "firebase"]
  /\ In "php" (extract_skills "PHP and MySQL" None)
  /\ (2 <= count_occ string_dec (extract_skills "PHP and MySQL" None)
            "php")%nat.
Proof.
  assert (In "php" ["php"; "firebase"]) as V by (left; reflexivity).
  assert (In "php" (extract_skills "PHP and MySQL" None)) as I
    by (vm_compute; left; reflexivity).
  split; [exact V|]. split; [exact I|].
  exact (legacy_result_repeats_terms "PHP and MySQL" None "php" V I).
Defined.

End TextSkillsExtras.

(** ** The experience requirement, from the job text to the matcher *)

Module JobExperienceSamples.
Import Matcher JobExperience.

Example extract_experience_samples :
  extract_experience "We need 3-5 years of Python."
  = Some (MkExperienceReq (Some (YearsRange 3 (Some 5%Z))) (Some "Mid Level")
            (Some "3-5 years (Mid Level)"))
  /\ extract_experience "10+ Years with a Senior title"
     = Some (MkExperienceReq (Some (YearsRange 10 None))
               (Some "Senior Level") (Some "10+ years (Senior Level)"))
  /\ extract_experience "A position for a developer"
     = Some (MkExperienceReq (Some (YearsRange 0 None))
               (Some "Entry Level") (Some "Entry Level"))
  /\ extract_experience "at least 2 to 4 years, minimum of 7 years"
     = Some (MkExperienceReq (Some (YearsRange 2 (Some 4%Z)))
               (Some "Mid Level") (Some "2-4 years (Mid Level)"))
  /\ extract_experience "from 0 to 2 years in the middle of a team"
     = Some (MkExperienceReq (Some (YearsRange 0 (Some 2%Z)))
               (Some "Mid Level") (Some "Mid Level"))
  /\ extract_experience "5 to 0 years"
     = Some (MkExperienceReq (Some (YearsRange 5 (Some 0%Z)))
               (Some "Senior Level") (Some "5+ years (Senior Level)")).
Proof. vm_compute. repeat split. Qed.

End JobExperienceSamples.

Module YearFacts.

Import PyStr PyNum Inputs Patterns PyStrFacts ReFacts Matcher.

Lemma digit_blocks (c : ascii) : is_digit c = true -> blocks c = true.
Proof.
  destruct c as [[] [] [] [] [] [] [] []]; intro H;
    try discriminate H; reflexivity.
Qed.

(** [\+?\s*years?] does not match where the text is blocked. *)
Lemma after_digits_blocked {R} (prev : option ascii) (t : string)
    (caps : Re.captures) (k : Re.cont R) :
  blocked t = true -> Re.run after_digits prev t caps k = None.
Proof.
  intro B. destruct t as [|c t]; [reflexivity|].
  cbn [blocked] in B. unfold blocks in B.
  apply andb_true_iff in B. destruct B as [B Y].
  apply andb_true_iff in B. destruct B as [P S].
  apply negb_true_iff in P, S, Y.
  unfold after_digits, years_re, Re.Opt, Re.char.
  cbn [Re.seq fold_right Re.lit Re.run Re.char_ci].
  rewrite P. cbn [String.length Re.star_loop Re.run Re.space].
  rewrite S. change (lower_char "y") with "y"%char. rewrite Y.
  reflexivity.
Qed.

(** The loop of [\d*] fails on a run of digits when what comes after
    the digits fails wherever the loop may stop. *)
Lemma star_digits_none {R} (ds rest : string) (k : Re.cont R) :
  all_digits ds = true ->
  no_digit_ahead rest = true ->
  (forall p t caps, blocked t = true -> k p t caps = None) ->
  blocked rest = true ->
  forall fuel prev caps,
    Re.star_loop (Re.run Re.digit) k fuel prev (ds ++ rest) caps = None.
Proof.
  intros D N K B. induction ds as [|d ds IH]; intros fuel prev caps.
  - cbn [append]. destruct fuel as [|fuel]; cbn [Re.star_loop].
    + apply K. exact B.
    + destruct rest as [|c rest].
      * rewrite run_digit_nil. apply K. reflexivity.
      * cbn [no_digit_ahead] in N. apply negb_true_iff in N.
        rewrite run_digit_cons, N. apply K. exact B.
  - cbn [all_digits] in D. apply andb_true_iff in D. destruct D as [Dd Ds].
    assert (blocked (String d ds ++ rest) = true) as Bd
      by (cbn [append blocked]; apply digit_blocks; exact Dd).
    destruct fuel as [|fuel]; cbn [Re.star_loop].
    + apply K. exact Bd.
    + cbn [append]. rewrite run_digit_cons, Dd.
      rewrite (IH Ds fuel (Some d) caps).
      destruct (_ <? _)%nat; apply K; exact Bd.
Qed.

Lemma first_year_pattern_eq :
  nth 0 year_patterns Re.Eps = first_year_pattern.
Proof. reflexivity. Qed.

(** No match starts inside a run of digits that is followed by a
    blocked text. *)
Lemma match_at_digits_blocked (ds rest : string) (prev : option ascii)
    (pos : nat) :
  all_digits ds = true -> no_digit_ahead rest = true ->
  blocked rest = true ->
  Re.match_at first_year_pattern false prev (ds ++ rest) pos = None.
Proof.
  intros D N B. unfold Re.match_at, first_year_pattern.
  rewrite run_Cat, run_Grp, run_Cat.
  destruct ds as [|d ds].
  - cbn [append]. destruct rest as [|c rest]; [reflexivity|].
    cbn [no_digit_ahead] in N. apply negb_true_iff in N.
    rewrite run_digit_cons, N. reflexivity.
  - cbn [all_digits] in D. apply andb_true_iff in D. destruct D as [Dd Ds].
    cbn [append]. rewrite run_digit_cons, Dd, run_Star.
    apply star_digits_none; [exact Ds|exact N| |exact B].
    intros p t caps Bt. apply after_digits_blocked. exact Bt.
Qed.

Lemma search_from_digits_blocked (ds rest : string) (prev : option ascii)
    (pos : nat) :
  all_digits ds = true -> no_digit_ahead rest = true ->
  blocked rest = true ->
  Re.search_from first_year_pattern prev (ds ++ rest) pos
  = Re.search_from first_year_pattern (last_of prev ds) rest
      (pos + String.length ds).
Proof.
  intros D N B. revert prev pos.
  induction ds as [|d ds IH]; intros prev pos.
  - cbn [append last_of String.length]. rewrite Nat.add_0_r. reflexivity.
  - pose proof (match_at_digits_blocked (String d ds) rest prev pos D N B)
      as M.
    cbn [all_digits] in D. apply andb_true_iff in D. destruct D as [Dd Ds].
    cbn [append] in M |- *. cbn [Re.search_from]. rewrite M.
    rewrite (IH Ds (Some d) (S pos)). cbn [last_of String.length].
    f_equal. lia.
Qed.

Lemma run_Alt {R} (a b : Re.regex) prev s caps (k : Re.cont R) :
  Re.run (Re.Alt a b) prev s caps k
  = match Re.run a prev s caps k with
    | Some x => Some x
    | None => Re.run b prev s caps k
    end.
Proof. reflexivity. Qed.

(** [\s*] takes a space and goes on. *)
Lemma star_space_step {R} (k : Re.cont R) (fuel : nat) prev (c : ascii)
    (t : string) caps :
  is_space c = true ->
  Re.star_loop (Re.run Re.space) k (S fuel) prev (String c t) caps
  = match Re.star_loop (Re.run Re.space) k fuel (Some c) t caps with
    | Some x => Some x
    | None => k prev (String c t) caps
    end.
Proof.
  intro S. cbn [Re.star_loop Re.run Re.space]. rewrite S.
  assert ((String.length t <? String.length (String c t))%nat = true) as L
    by (apply Nat.ltb_lt; cbn; lia).
  rewrite L. reflexivity.
Qed.

(** [\s*] stops where no space stands. *)
Lemma star_space_stop {R} (k : Re.cont R) (fuel : nat) prev (t : string)
    caps :
  match t with String c _ => is_space c = false | EmptyString => True end ->
  Re.star_loop (Re.run Re.space) k fuel prev t caps = k prev t caps.
Proof.
  intro N. destruct fuel as [|fuel]; [reflexivity|].
  cbn [Re.star_loop Re.run Re.space].
  destruct t as [|c t]; [reflexivity|]. rewrite N. reflexivity.
Qed.

Lemma run_years_tail {R} (ci : bool) (prev : option ascii) (tail : string)
    (caps : Re.captures) (k : Re.cont R) (x : R) :
  k (Some "s"%char) tail caps = Some x ->
  Re.run (Re.Cat (years_re ci) Re.Eps) prev ("years" ++ tail) caps k
  = Some x.
Proof. intro K. destruct ci; vm_compute; rewrite K; reflexivity. Qed.

Lemma run_spaces_years {R} (ci : bool) (prev : option ascii)
    (tail : string) (caps : Re.captures) (k : Re.cont R) (x : R) :
  k (Some "s"%char) tail caps = Some x ->
  Re.run (Re.Cat (Re.Star Re.space) (Re.Cat (years_re ci) Re.Eps)) prev
    (" years" ++ tail) caps k = Some x.
Proof.
  intro K. rewrite run_Cat, run_Star.
  change (" years" ++ tail) with (String " " ("years" ++ tail)).
  cbn [String.length]. rewrite star_space_step by reflexivity.
  rewrite star_space_stop by reflexivity.
  rewrite (run_years_tail ci (Some " "%char) tail caps k x K). reflexivity.
Qed.

Lemma run_after_digits_years {R} (prev : option ascii) (tail : string)
    (caps : Re.captures) (k : Re.cont R) (x : R) :
  k (Some "s"%char) tail caps = Some x ->
  Re.run after_digits prev (" years" ++ tail) caps k = Some x.
Proof.
  intro K. unfold after_digits.
  change (Re.seq _) with
    (Re.Cat (Re.Alt (Re.char "+") Re.Eps)
       (Re.Cat (Re.Star Re.space) (Re.Cat (years_re true) Re.Eps))).
  rewrite run_Cat, run_Alt.
  change (Re.run (Re.char "+") prev (" years" ++ tail) caps _)
    with (@None R).
  cbn [Re.run]. exact (run_spaces_years true prev tail caps k x K).
Qed.

Lemma run_Chr_cons {R} (p : ascii -> bool) prev (c : ascii) (s : string)
    caps (k : Re.cont R) :
  Re.run (Re.Chr p) prev (String c s) caps k
  = if p c then k (Some c) s caps else None.
Proof. reflexivity. Qed.

Lemma run_after_digits_plus_years {R} (prev : option ascii) (tail : string)
    (caps : Re.captures) (k : Re.cont R) (x : R) :
  k (Some "s"%char) tail caps = Some x ->
  Re.run after_digits prev ("+ years" ++ tail) caps k = Some x.
Proof.
  intro K. unfold after_digits.
  change (Re.seq _) with
    (Re.Cat (Re.Alt (Re.char "+") Re.Eps)
       (Re.Cat (Re.Star Re.space) (Re.Cat (years_re true) Re.Eps))).
  rewrite run_Cat, run_Alt.
  change ("+ years" ++ tail) with (String "+" (" years" ++ tail)).
  unfold Re.char at 1. rewrite run_Chr_cons.
  change (Ascii.eqb "+" "+") with true. cbv iota beta.
  rewrite (run_spaces_years true (Some "+"%char) tail caps k x K).
  reflexivity.
Qed.


(** The first year pattern matches at a run of digits that "years" or
    "+ years" follows, and its group holds the digits. *)
Lemma match_at_digits_years (ds rest tail : string) (prev : option ascii)
    (pos : nat) :
  ds <> "" -> all_digits ds = true ->
  rest = " years" ++ tail \/ rest = "+ years" ++ tail ->
  exists m,
    Re.match_at first_year_pattern false prev (ds ++ rest) pos = Some m
    /\ Re.group 1 (Re.m_groups m) = Some ds.
Proof.
  intros N D T. destruct ds as [|d ds]; [contradiction|].
  cbn [all_digits] in D. apply andb_true_iff in D. destruct D as [Dd Ds].
  unfold Re.match_at, first_year_pattern.
  cbn [append]. rewrite run_Cat, run_Grp, run_Cat, run_digit_cons, Dd.
  rewrite run_Star.
  match goal with
  | |- context [Re.star_loop _ ?k _ _ _ _] => set (kk := k)
  end.
  assert (exists x, kk (last_of (Some d) ds) rest [] = Some x
                    /\ Re.group 1 (Re.m_groups x) = Some (String d ds))
    as [x [K G]].
  { assert (forall m, Re.m_groups m
                       = [(1%nat,
                           Re.take (String.length (String d (ds ++ rest))
                                    - String.length rest)
                             (String d (ds ++ rest)))] ->
                       Re.group 1 (Re.m_groups m) = Some (String d ds))
      as G.
    { intros m ->. cbn [Re.group Nat.eqb]. f_equal.
      change (String d (ds ++ rest)) with ((String d ds) ++ rest).
      apply take_append. }
    subst kk. cbv beta. destruct T as [-> | ->].
    - eexists. split; [apply run_after_digits_years; reflexivity|].
      apply G. reflexivity.
    - eexists. split; [apply run_after_digits_plus_years; reflexivity|].
      apply G. reflexivity. }
  exists x. split; [|exact G].
  assert (match rest with
          | String c _ => is_digit c = false
          | EmptyString => True
          end) as ND by (destruct T as [-> | ->]; reflexivity).
  rewrite (star_digits ds rest kk x Ds ND
             (S (String.length (ds ++ rest))) (Some d) []
             (Nat.lt_succ_diag_r _) K).
  reflexivity.
Qed.

Lemma years_of_first_pattern (text : string) (m : Re.match_obj)
    (g : string) :
  Re.search first_year_pattern text = Some m ->
  Re.group 1 (Re.m_groups m) = Some g ->
  years_of_text text = Some (int_of_digits g).
Proof.
  intros S G. unfold years_of_text, year_patterns. cbn [first_year_match].
  change (Re.seq _) with first_year_pattern at 1.
  rewrite S, G. reflexivity.
Qed.

(** A text that opens with "lo-hi years" is read as hi years: the first
    pattern finds no match in "lo-", and matches at hi. *)
Lemma years_of_range (lo hi tail : string) :
  all_digits lo = true -> hi <> "" -> all_digits hi = true ->
  years_of_text (lo ++ "-" ++ hi ++ " years" ++ tail)
  = Some (int_of_digits hi).
Proof.
  intros L N H.
  destruct (match_at_digits_years hi (" years" ++ tail) tail (Some "-"%char)
              (S (0 + String.length lo)) N H (or_introl eq_refl))
    as [m [M G]].
  apply (years_of_first_pattern _ m hi); [|exact G].
  unfold Re.search.
  rewrite (search_from_digits_blocked lo ("-" ++ hi ++ " years" ++ tail)
             None 0 L eq_refl eq_refl).
  change ("-" ++ hi ++ " years" ++ tail)
    with (String "-" (hi ++ " years" ++ tail)).
  cbn [Re.search_from].
  assert (Re.match_at first_year_pattern false (last_of None lo)
            (String "-" (hi ++ " years" ++ tail)) (0 + String.length lo)
          = None) as B
    by exact (match_at_digits_blocked ""
                (String "-" (hi ++ " years" ++ tail)) (last_of None lo)
                (0 + String.length lo) eq_refl eq_refl eq_refl).
  rewrite B.
  destruct (hi ++ " years" ++ tail) eqn:E;
    cbn [Re.search_from]; rewrite M; reflexivity.
Qed.

(** A text that opens with "lo+ years" is read as lo years. *)
Lemma years_of_open (lo tail : string) :
  lo <> "" -> all_digits lo = true ->
  years_of_text (lo ++ "+ years" ++ tail) = Some (int_of_digits lo).
Proof.
  intros N L.
  destruct (match_at_digits_years lo ("+ years" ++ tail) tail None 0 N L
              (or_intror eq_refl)) as [m [M G]].
  apply (years_of_first_pattern _ m lo); [|exact G].
  unfold Re.search.
  destruct (lo ++ "+ years" ++ tail) eqn:E;
    cbn [Re.search_from]; rewrite M; reflexivity.
Qed.

End YearFacts.

Module GroupFacts.

Import PyStr PyNum Inputs Patterns PyStrFacts ReFacts Matcher.





End GroupFacts.

Module RequirementExtras.

Import PyStr PyNum Inputs Patterns PyStrFacts ReFacts Matcher.
Import ExperienceFacts.
Import JobExperience YearFacts GroupFacts.

Lemma string_of_uint_digits (d : Decimal.uint) :
  all_digits (NilEmpty.string_of_uint d) = true.
Proof. induction d; cbn; try exact IHd; reflexivity. Qed.

Lemma int_of_digits_acc_uint (d : Decimal.uint) (acc : nat) :
  int_of_digits_acc (Z.of_nat acc) (NilEmpty.string_of_uint d)
  = Z.of_nat (Nat.of_uint_acc d acc).
Proof.
  revert acc.
  induction d as [|d IH|d IH|d IH|d IH|d IH|d IH|d IH|d IH|d IH|d IH];
    intro acc; [reflexivity|..];
    cbn [NilEmpty.string_of_uint int_of_digits_acc Nat.of_uint_acc];
    rewrite <- IH; f_equal; rewrite Nat.tail_mul_spec;
    match goal with
    | |- context [digit_val ?c] =>
        let v := eval vm_compute in (digit_val c) in
        change (digit_val c) with v
    end; lia.
Qed.

Lemma str_of_nat_digits (n : nat) : all_digits (str_of_nat n) = true.
Proof. apply string_of_uint_digits. Qed.

Lemma str_of_nat_value (n : nat) :
  int_of_digits (str_of_nat n) = Z.of_nat n.
Proof.
  unfold int_of_digits, str_of_nat.
  change 0%Z with (Z.of_nat 0).
  rewrite (int_of_digits_acc_uint (Nat.to_uint n) 0).
  change (Nat.of_uint_acc (Nat.to_uint n) 0)
    with (Nat.of_uint (Nat.to_uint n)).
  rewrite Unsigned.of_to. reflexivity.
Qed.

Lemma str_of_nat_nonempty (n : nat) : str_of_nat n <> "".
Proof.
  unfold str_of_nat. intro H.
  assert (Nat.to_uint n = Decimal.Nil) as E
    by (destruct (Nat.to_uint n); [reflexivity|discriminate H..]).
  assert (n = 0%nat) as ->
    by (rewrite <- (Unsigned.of_to n), E; reflexivity).
  discriminate E.
Qed.

(** [str] and [int] on an integer that is not negative. *)
Lemma str_of_int_spec (z : Z) :
  (0 <= z)%Z ->
  str_of_int z <> "" /\ all_digits (str_of_int z) = true
  /\ int_of_digits (str_of_int z) = z.
Proof.
  intro P. unfold str_of_int.
  destruct (z <? 0)%Z eqn:N; [apply Z.ltb_lt in N; lia|].
  split; [apply str_of_nat_nonempty|].
  split; [apply str_of_nat_digits|].
  rewrite str_of_nat_value. apply Z2Nat.id. exact P.
Qed.

(** The description of a requirement decides what the matcher reads. *)
Lemma dict_years_by_description (d : experience_req) (text : string) :
  req_description d = Some text ->
  extract_years_from_experience (JobExpDict d) = years_of_text text.
Proof.
  intro E. cbn [extract_years_from_experience]. rewrite E. reflexivity.
Qed.

Lemma extract_experience_fields (text : string) (d : experience_req) :
  extract_experience text = Some d ->
  exists lo mx,
    years_of years_patterns (lower text) = Some (lo, mx)
    /\ req_years d = Some (YearsRange lo mx)
    /\ req_level d
       = Some (level_of_keywords level_keywords (lower text)
                 (level_of_years lo))
    /\ req_description d
       = Some (describe lo mx
                 (level_of_keywords level_keywords (lower text)
                    (level_of_years lo))).
Proof.
  unfold extract_experience. cbv zeta.
  destruct (years_of years_patterns (lower text)) as [[lo mx]|];
    [|discriminate].
  intro E. injection E as <-. exists lo, mx. repeat split.
Qed.

Lemma report_years_required (current_year : Z)
    (resume : list experience_entry) (d : experience_req) (cfg : config)
    (y : Z) :
  extract_years_from_experience (JobExpDict d) = Some y ->
  years_required
    (calculate_experience_match current_year resume (JobExpDict d) cfg)
  = Some y.
Proof.
  intro E. unfold calculate_experience_match.
  rewrite (extract_years_truthy _ _ E), E. cbn [negb].
  destruct (y >? 0)%Z; [destruct (Qgeb _ _)|]; reflexivity.
Qed.

(** X24. When the job text names a range of years, lo to hi, the
    description that the job analysis stores is "lo-hi years (level)",
    and the matcher reads the upper end of it: the report asks for hi
    years. *)
Theorem range_requirement_read_as_upper (text : string)
    (d : experience_req) (lo hi : Z) :
  extract_experience text = Some d ->
  req_years d = Some (YearsRange lo (Some hi)) ->
  (0 < lo)%Z -> (0 < hi)%Z ->
  extract_years_from_experience (JobExpDict d) = Some hi
  /\ forall current_year resume cfg,
       years_required
         (calculate_experience_match current_year resume (JobExpDict d) cfg)
       = Some hi.
Proof.
  intros E Y L H.
  assert (extract_years_from_experience (JobExpDict d) = Some hi) as R.
  { destruct (extract_experience_fields text d E)
      as [lo' [mx [_ [Y' [_ D]]]]].
    rewrite Y in Y'. injection Y' as <- <-.
    rewrite (dict_years_by_description d _ D).
    unfold describe, max_truthy.
    destruct (0 <? lo)%Z eqn:A; [|apply Z.ltb_ge in A; lia].
    destruct (hi =? 0)%Z eqn:B; [apply Z.eqb_eq in B; lia|]. cbn [negb].
    destruct (str_of_int_spec lo (Z.lt_le_incl _ _ L)) as [_ [DL _]].
    destruct (str_of_int_spec hi (Z.lt_le_incl _ _ H)) as [NH [DH VH]].
    rewrite <- VH at 2.
    exact (years_of_range (str_of_int lo) (str_of_int hi) _ DL NH DH). }
  split; [exact R|].
  intros current_year resume cfg.
  exact (report_years_required current_year resume d cfg hi R).
Qed.

Lemma range_requirement_read_as_upper_witness :
  exists d,
    extract_experience "Requires 3-5 years of experience" = Some d
    /\ req_years d = Some (YearsRange 3 (Some 5%Z))
    /\ (0 < 3)%Z /\ (0 < 5)%Z
    /\ extract_years_from_experience (JobExpDict d) = Some 5%Z.
Proof.
  eexists. 
  assert (extract_experience "Requires 3-5 years of experience"
          = Some (MkExperienceReq (Some (YearsRange 3 (Some 5%Z)))
                    (Some "Mid Level") (Some "3-5 years (Mid Level)")))
    as E by (vm_compute; reflexivity).
  split; [exact E|]. split; [reflexivity|].
  split; [reflexivity|]. split; [reflexivity|].
  exact (proj1 (range_requirement_read_as_upper
                  "Requires 3-5 years of experience" _ 3 5 E eq_refl
                  eq_refl eq_refl)).
Defined.

(** X25. When the job text names a number of years without an upper
    end, the description is "lo+ years (level)", and the matcher reads
    lo from it. *)
Theorem open_requirement_read_as_lower (text : string)
    (d : experience_req) (lo : Z) (mx : option Z) :
  extract_experience text = Some d ->
  req_years d = Some (YearsRange lo mx) ->
  (0 < lo)%Z -> max_truthy mx = false ->
  extract_years_from_experience (JobExpDict d) = Some lo
  /\ forall current_year resume cfg,
       years_required
         (calculate_experience_match current_year resume (JobExpDict d) cfg)
       = Some lo.
Proof.
  intros E Y L M.
  assert (extract_years_from_experience (JobExpDict d) = Some lo) as R.
  { destruct (extract_experience_fields text d E)
      as [lo' [mx' [_ [Y' [_ D]]]]].
    rewrite Y in Y'. injection Y' as <- <-.
    rewrite (dict_years_by_description d _ D).
    unfold describe. rewrite M.
    destruct (0 <? lo)%Z eqn:A; [|apply Z.ltb_ge in A; lia].
    destruct (str_of_int_spec lo (Z.lt_le_incl _ _ L)) as [NL [DL VL]].
    assert (forall level,
               years_of_text (str_of_int lo ++ "+ years (" ++ level ++ ")")
               = Some (int_of_digits (str_of_int lo))) as Q
      by (intro level;
          exact (years_of_open (str_of_int lo) _ NL DL)).
    destruct mx; rewrite Q, VL; reflexivity. }
  split; [exact R|].
  intros current_year resume cfg.
  exact (report_years_required current_year resume d cfg lo R).
Qed.

Lemma open_requirement_read_as_lower_witness :
  exists d,
    extract_experience "7+ years as a lead" = Some d
    /\ req_years d = Some (YearsRange 7 None)
    /\ (0 < 7)%Z /\ max_truthy None = false
    /\ extract_years_from_experience (JobExpDict d) = Some 7%Z.
Proof.
  eexists.
  assert (extract_experience "7+ years as a lead"
          = Some (MkExperienceReq (Some (YearsRange 7 None))
                    (Some "Senior Level") (Some "7+ years (Senior Level)")))
    as E by (vm_compute; reflexivity).
  split; [exact E|]. split; [reflexivity|].
  split; [reflexivity|]. split; [reflexivity|].
  exact (proj1 (open_requirement_read_as_lower "7+ years as a lead" _ 7
                  None E eq_refl eq_refl eq_refl)).
Defined.


Lemma level_of_years_In (lo : Z) : In (level_of_years lo) levels.
Proof.
  unfold level_of_years, levels.
  destruct (lo <=? 1)%Z; [cbn; tauto|].
  destruct (lo <=? 3)%Z; [cbn; tauto|].
  destruct (lo <=? 5)%Z; cbn; tauto.
Qed.

Lemma level_of_keywords_In (table : list (string * list string))
    (text_lower level : string) :
  In (level_of_keywords table text_lower level) (level :: map fst table).
Proof.
  induction table as [|[l keywords] rest IH]; cbn [level_of_keywords].
  - left. reflexivity.
  - destruct (existsb _ keywords).
    + right. left. reflexivity.
    + destruct IH as [E|I]; [left; exact E|right; right; exact I].
Qed.

Lemma level_In (text_lower : string) (lo : Z) :
  In (level_of_keywords level_keywords text_lower (level_of_years lo))
    levels.
Proof.
  destruct (level_of_keywords_In level_keywords text_lower
              (level_of_years lo)) as [E|I].
  - rewrite <- E. apply level_of_years_In.
  - exact I.
Qed.



(** X27. When the job text names no years, the description of the
    requirement is the level alone, and the matcher reads the years
    from the words of the level: 0 for "Entry Level", 3 for
    "Mid Level", 5 for "Senior Level", and no number at all for
    "Expert Level". *)
Theorem level_only_requirement (text : string) (d : experience_req)
    (lo : Z) (mx : option Z) :
  extract_experience text = Some d ->
  req_years d = Some (YearsRange lo mx) ->
  (lo <= 0)%Z ->
  exists level,
    req_level d = Some level
    /\ req_description d = Some level
    /\ In (level, extract_years_from_experience (JobExpDict d))
         [ ("Entry Level", Some 0%Z); ("Mid Level", Some 3%Z);
           ("Senior Level", Some 5%Z); ("Expert Level", None) ].
Proof.
  intros E Y L.
  destruct (extract_experience_fields text d E)
    as [lo' [mx' [_ [Y' [V D]]]]].
  rewrite Y in Y'. injection Y' as <- <-.
  set (level := level_of_keywords level_keywords (lower text)
                  (level_of_years lo)) in *.
  assert (describe lo mx level = level) as X.
  { unfold describe.
    destruct (0 <? lo)%Z eqn:A; [apply Z.ltb_lt in A; lia|reflexivity]. }
  rewrite X in D. exists level.
  split; [exact V|]. split; [exact D|].
  rewrite (dict_years_by_description d level D).
  pose proof (level_In (lower text) lo) as I. fold level in I.
  clearbody level. unfold levels in I.
  destruct I as [<-|[<-|[<-|[<-|[]]]]]; vm_compute; tauto.
Qed.

Lemma level_only_requirement_witness :
  exists d level,
    extract_experience "An expert in distributed systems" = Some d
    /\ req_years d = Some (YearsRange 0 None)
    /\ (0 <= 0)%Z
    /\ req_level d = Some level
    /\ req_description d = Some level
    /\ In (level, extract_years_from_experience (JobExpDict d))
         [ ("Entry Level", Some 0%Z); ("Mid Level", Some 3%Z);
           ("Senior Level", Some 5%Z); ("Expert Level", None) ].
Proof.
  assert (extract_experience "An expert in distributed systems"
          = Some (MkExperienceReq (Some (YearsRange 0 None))
                    (Some "Expert Level") (Some "Expert Level")))
    as E by (vm_compute; reflexivity).
  destruct (level_only_requirement "An expert in distributed systems" _ 0
              None E eq_refl (Z.le_refl 0)) as [level [V [D I]]].
  eexists. exists level.
  split; [exact E|]. split; [reflexivity|]. split; [apply Z.le_refl|].
  split; [exact V|]. split; [exact D|exact I].
Defined.

End RequirementExtras.

(** ** The analysis of a resume against a job *)

Module ResumeUploadExtras.

Import PyStr PyNum Inputs PyStrFacts Matcher SkillFacts JobDescription.
Import Priority PriorityExtras ResumeUpload.
Local Open Scope Q_scope.

Section Analysis.

Variable current_year : Z.
Variable set_iter : list string -> list string.
Variable tfidf : string -> list string -> option (list Q).
Variable extract_education_from_text : string -> list education_entry.
Variable extract_experience_from_text : string -> list experience_entry.

(** X28. A resume analysed against a job description that is given as
    a plain text always gets the full score: the job handed to the
    matcher then holds no skill, no experience and no education
    requirement, so that each category scores 100 and the ranking is
    "Excellent Match", whatever the two texts say. *)
Theorem plain_text_job_always_full_score (resume_text job_text : string) :
  truthy resume_text = true -> truthy job_text = true ->
  exists r m,
    analyze_resume current_year set_iter tfidf extract_education_from_text
      extract_experience_from_text resume_text (JobText job_text)
    = Some (Some r)
    /\ matching r = Some m
    /\ summary_overall_score m == 100
    /\ skills_match_score m == 100
    /\ experience_match_score m == 100
    /\ education_match_score m == 100
    /\ ranking (summary_report m) = "Excellent Match".
Proof.
  intros R J. unfold analyze_resume. rewrite R.
  cbn [negb job_description_truthy]. rewrite J. cbv zeta.
  eexists. eexists. split; [reflexivity|]. split; [reflexivity|].
  repeat split; reflexivity.
Qed.

End Analysis.

Lemma plain_text_job_always_full_score_witness :
  truthy "Cook with ten years in kitchens" = true
  /\ truthy "Senior Python developer, 8+ years, PhD required" = true
  /\ exists r m,
       analyze_resume 2024 first_seen half_similar (fun _ => [])
         (fun _ => []) "Cook with ten years in kitchens"
         (JobText "Senior Python developer, 8+ years, PhD required")
       = Some (Some r)
       /\ matching r = Some m
       /\ summary_overall_score m == 100
       /\ skills_match_score m == 100
       /\ experience_match_score m == 100
       /\ education_match_score m == 100
       /\ ranking (summary_report m) = "Excellent Match".
Proof.
  split; [reflexivity|]. split; [reflexivity|].
  exact (plain_text_job_always_full_score 2024 first_seen half_similar
           (fun _ => []) (fun _ => []) "Cook with ten years in kitchens"
           "Senior Python developer, 8+ years, PhD required" eq_refl
           eq_refl).
Defined.


Lemma vocabularies_agree :
  ResumeUpload.COMMON_TECH_SKILLS = JobDescription.COMMON_TECH_SKILLS.
Proof. reflexivity. Qed.

Lemma extract_skills_from_text_eq (text : string) :
  extract_skills_from_text text = extracted_skills text.
Proof.
  unfold extract_skills_from_text, extracted_skills, skill_re.
  rewrite vocabularies_agree. exact eq_refl.
Qed.

(** The resume extractor finds the terms the job extractor finds. *)
Lemma extract_skills_from_text_In (order : list string -> list string)
    (text s : string) :
  set_order order ->
  In s (extract_skills order text) <-> In s (extract_skills_from_text text).
Proof.
  intro O. unfold extract_skills.
  exact (eq_ind_r
           (fun l => In s (order (extracted_skills text)) <-> In s l)
           (EducationExtras.set_order_In order (extracted_skills text) s O)
           (extract_skills_from_text_eq text)).
Qed.

Lemma filter_none {A} (f : A -> bool) (l : list A) :
  (forall x, In x l -> f x = false) -> filter f l = [].
Proof.
  intro H. induction l as [|x l IH]; [reflexivity|]. cbn [filter].
  rewrite (H x (or_introl eq_refl)). apply IH.
  intros y I. apply H. right. exact I.
Qed.

Lemma priority_skills_incl (text : string) (skills : list string) :
  incl (extract_priority_skills text skills) skills.
Proof.
  intros x I. unfold extract_priority_skills in I.
  destruct skills as [|s0 rest]; [destruct I|].
  apply (proj1 (proj2 (unique_spec _) x)) in I.
  exact (proj1 (proj1 (filter_In _ _ _) I)).
Qed.

(** X29. From the two texts to the skill report: when every skill that
    the job analysis extracts from the job text is also extracted from
    the resume text, the matcher reports every job skill as matched and
    every priority skill as matched, and nothing as missing.  A text
    used as both the job description and the resume is such a pair. *)
Theorem covering_resume_misses_nothing
    (set_iter : list string -> list string) (job_text resume_text : string)
    (cfg : config) :
  set_order set_iter ->
  incl (extract_skills set_iter job_text)
    (extract_skills_from_text resume_text) ->
  let skills := extract_skills set_iter job_text in
  let priority_skills := extract_priority_skills job_text skills in
  let r :=
    calculate_skill_match (extract_skills_from_text resume_text) skills
      priority_skills cfg in
  matched_skills r = skills /\ missing_skills r = []
  /\ priority_matched r = priority_skills /\ priority_missing r = []
  /\ incl (extract_skills set_iter job_text)
       (extract_skills_from_text job_text).
Proof.
  intros O C skills priority_skills r.
  assert (incl (extract_skills set_iter job_text)
            (extract_skills_from_text job_text)) as Self
    by (intros s I;
        exact (proj1 (extract_skills_from_text_In set_iter job_text s O) I)).
  assert (forall s, In s skills ->
            mem (lower s) (map lower (extract_skills_from_text resume_text))
            = true) as M.
  { intros s I. apply mem_In. apply in_map. exact (C s I). }
  assert (forall s, In s priority_skills ->
            mem (lower s) (map lower (extract_skills_from_text resume_text))
            = true) as P.
  { intros s I. apply M. exact (priority_skills_incl job_text skills s I). }
  destruct skills as [|s0 rest] eqn:E.
  - repeat split; try reflexivity. exact Self.
  - assert (s0 :: rest <> []) as N by discriminate.
    destruct (calculate_skill_match_lists
                (extract_skills_from_text resume_text) (s0 :: rest)
                priority_skills cfg N) as [A [B [A' B']]].
    fold r in A, B, A', B'.
    split; [|split; [|split; [|split; [|exact Self]]]].
    + rewrite A. apply SkillExtras.filter_all. intros s I.
      unfold skill_found. cbv zeta. rewrite (M s I). reflexivity.
    + rewrite B. apply filter_none. intros s I.
      unfold skill_found. cbv zeta. rewrite (M s I). reflexivity.
    + rewrite A'. apply SkillExtras.filter_all. exact P.
    + rewrite B'. apply filter_none. intros s I. rewrite (P s I).
      reflexivity.
Qed.

Lemma covering_resume_misses_nothing_witness :
  set_order first_seen
  /\ incl (extract_skills first_seen "Python and SQL wanted")
       (extract_skills_from_text "I know SQL, Python and Java")
  /\ missing_skills
       (calculate_skill_match
          (extract_skills_from_text "I know SQL, Python and Java")
          (extract_skills first_seen "Python and SQL wanted")
          (extract_priority_skills "Python and SQL wanted"
             (extract_skills first_seen "Python and SQL wanted"))
          default_config) = [].
Proof.
  assert (incl (extract_skills first_seen "Python and SQL wanted")
            (extract_skills_from_text "I know SQL, Python and Java")) as C.
  { intros s I. vm_compute in I. vm_compute.
    destruct I as [<-|[<-|[]]]; tauto. }
  split; [exact ExtractorClaims.first_seen_order|]. split; [exact C|].
  exact (proj1 (proj2 (covering_resume_misses_nothing first_seen
                         "Python and SQL wanted"
                         "I know SQL, Python and Java" default_config
                         ExtractorClaims.first_seen_order C))).
Defined.

End ResumeUploadExtras.

(** ** The improvement suggestions *)

Module SuggestionSamples.
Import Matcher Suggestions.
Local Open Scope Q_scope.

Example count_words_samples :
  count_words false "  two   words " = 2%nat
  /\ count_words false "" = 0%nat
  /\ count_words false "one" = 1%nat.
Proof. repeat split. Qed.

Example suggestions_sample :
  generate_improvement_suggestions (fun _ => "2.0")
    (MkResumeData [] [] [] "A short resume")
    (MkJobAnalysis [] [] JobExpNone JobEduNone [])
    (MkSkillReport 0.5 ["python"] ["sql"; "go"; "rust"; "java"] [] ["sql"]
       25)
    (MkExperienceReport 0.6 (Some 5%Z) (Some 3) 60)
    (MkEducationReport 0.3 (Some ["master"]) false (Some []) 30)
  = [ "Focus on adding these priority skills: sql";
      "Work on developing 4 missing skills identified in the job description";
      "Highlight relevant projects or additional responsibilities to compensate for the 2.0 year experience gap";
      "The job requires master. Consider highlighting equivalent experience or continuing education" ].
Proof. vm_compute. reflexivity. Qed.

End SuggestionSamples.

Module SuggestionExtras.

Import PyStr PyNum Matcher Suggestions.

Section Format.

Variable str_of_float : Q -> string.

Lemma skill_suggestions_shape (skill_score : skill_report) :
  (List.length (skill_suggestions skill_score) <= 2)%nat
  /\ Forall (fun s => starts_with_Q s = false)
       (skill_suggestions skill_score).
Proof.
  unfold skill_suggestions.
  destruct (missing_skills skill_score) as [|m ms];
    [split; [cbn; lia|constructor]|].
  destruct (_ <=? 3)%nat; [split; [cbn; lia|repeat constructor]|].
  destruct (priority_missing skill_score);
    (split; [cbn; lia|repeat constructor]).
Qed.

Lemma experience_suggestions_shape (experience_score : experience_report) :
  (List.length (experience_suggestions str_of_float experience_score)
   <= 1)%nat
  /\ Forall (fun s => starts_with_Q s = false)
       (experience_suggestions str_of_float experience_score).
Proof.
  unfold experience_suggestions.
  destruct (years_required experience_score) as [required|];
    [|split; [cbn; lia|constructor]].
  destruct (years_matched experience_score) as [matched|];
    [|split; [cbn; lia|constructor]].
  destruct (_ && _ && _); [|split; [cbn; lia|constructor]].
  cbv zeta. destruct (Qgeb _ _); (split; [cbn; lia|repeat constructor]).
Qed.

Lemma education_suggestions_shape (education_score : education_report) :
  (List.length (education_suggestions education_score) <= 1)%nat
  /\ Forall (fun s => starts_with_Q s = false)
       (education_suggestions education_score).
Proof.
  unfold education_suggestions.
  destruct (negb _); [|split; [cbn; lia|constructor]].
  destruct (degree_required education_score) as [[|d ds]|];
    (split; [cbn; lia|repeat constructor]).
Qed.

Lemma general_suggestions_shape (resume : resume_data)
    (skill_score : skill_report) :
  (1 <= List.length (general_suggestions resume skill_score) <= 3)%nat
  /\ In quantify (general_suggestions resume skill_score).
Proof.
  unfold general_suggestions.
  destruct (_ && _); destruct (matched_skills skill_score);
    (split; [cbn; lia|cbn; tauto]).
Qed.

(** X30. The report always carries at least one and at most four
    suggestions, and the advice to quantify achievements is among them
    exactly when fewer than two suggestions on the skills, the
    experience and the education were made. *)
Theorem suggestions_between_one_and_four (resume : resume_data)
    (job : job_analysis) (skill_score : skill_report)
    (experience_score : experience_report)
    (education_score : education_report) :
  let suggestions :=
    generate_improvement_suggestions str_of_float resume job skill_score
      experience_score education_score in
  let specific :=
    (skill_suggestions skill_score
     ++ experience_suggestions str_of_float experience_score
     ++ education_suggestions education_score)%list in
  (1 <= List.length suggestions <= 4)%nat
  /\ (In quantify suggestions <-> (List.length specific < 2)%nat).
Proof.
  cbv zeta. unfold generate_improvement_suggestions. cbv zeta.
  destruct (skill_suggestions_shape skill_score) as [L1 Q1].
  destruct (experience_suggestions_shape experience_score) as [L2 Q2].
  destruct (education_suggestions_shape education_score) as [L3 Q3].
  destruct (general_suggestions_shape resume skill_score) as [L4 Q4].
  set (specific :=
         (skill_suggestions skill_score
          ++ experience_suggestions str_of_float experience_score
          ++ education_suggestions education_score)%list).
  assert (List.length specific <= 4)%nat as LS
    by (subst specific; rewrite !length_app; lia).
  assert (~ In quantify specific) as NQ.
  { intro I. subst specific.
    assert (Forall (fun s => starts_with_Q s = false)
              (skill_suggestions skill_score
               ++ experience_suggestions str_of_float experience_score
               ++ education_suggestions education_score)%list) as F
      by (repeat (apply Forall_app; split); assumption).
    rewrite Forall_forall in F. apply F in I. discriminate I. }
  destruct (List.length specific <? 2)%nat eqn:E.
  - apply Nat.ltb_lt in E. split.
    + rewrite length_app. lia.
    + split; [intros _; exact E|].
      intros _. apply in_or_app. right. exact Q4.
  - apply Nat.ltb_ge in E. split; [lia|].
    split; [intro I; contradiction|lia].
Qed.

End Format.

End SuggestionExtras.
